(** * Naath Archive: the threaded-comment pipeline

    A shallow embedding of the Express comment router
    ([routes/comments.js]), of the authentication / ownership middleware
    ([middleware/auth.js]) and of the part of the PostgreSQL schema
    ([database/schema.sql]) these two run against: the tables [users],
    [articles], [comments] and [comment_likes] with their keys, uniqueness
    constraints and [ON DELETE CASCADE] foreign keys. The Prisma migration
    of the repository declares other tables (["Comment"] with [body] and
    [author_id] and without [is_approved]); the queries of the router name
    the tables and columns of [schema.sql], so that is the store modelled
    here.

    Tables are lists of rows, every route handler is a function from a
    request and a database to a response and a database, and the three
    things the program takes from outside (the [jsonwebtoken] verifier, the
    clock behind [CURRENT_TIMESTAMP] and [uuid_generate_v4()]) are the
    fields of a [World]. A query raises what PostgreSQL raises on a broken
    key, a broken uniqueness constraint, a text that is no uuid, a text
    that holds the character U+0000 or an [OFFSET] beyond [bigint]; lost
    connections are outside the model.

    The text of a comment and the title of an article are JavaScript
    strings, sequences of UTF-16 code units, and the validators, [trim()]
    and the regular expressions see them as such. The page of a list
    request is the JavaScript number its text denotes, rounded as a
    binary64 value is. Row counts are integers: a table has far fewer than
    [2 ^ 53] rows, where JavaScript's numbers are exact, and the statements
    that compare a page with a count say so. The store keeps its text as
    UTF-8. *)

From Stdlib Require Import ZArith NArith List String Ascii Bool Lia.
From Stdlib Require Import Sorting.Sorted Sorting.Permutation.
Import ListNotations.

Local Open Scope string_scope.
Local Open Scope Z_scope.

(** ** Rows and tables (schema.sql) *)

Definition uuid := N.
Bind Scope N_scope with uuid.
Definition timestamp := Z.

(** A JavaScript string: its UTF-16 code units. *)
Definition jsstring := list N.

(** The JavaScript string of an ASCII literal. *)
Definition js (s : string) : jsstring :=
  map N_of_ascii (list_ascii_of_string s).

(** [role VARCHAR(20) CHECK (role IN ('user', 'contributor', 'admin'))] *)
Inductive Role := role_user | role_contributor | role_admin.

(** [status VARCHAR(20) CHECK (status IN ('draft', 'published', 'archived'))] *)
Inductive ArticleStatus := draft | published | archived.

Record User := mkUser {
  u_id : uuid;
  u_username : string;
  u_email : string;
  u_first_name : string;
  u_last_name : string;
  u_role : Role;
  u_is_active : bool
}.

Record Article := mkArticle {
  a_id : uuid;
  a_title : string;
  a_slug : string;
  a_author_id : uuid;
  a_status : ArticleStatus
}.

Record Comment := mkComment {
  c_id : uuid;
  c_content : jsstring;
  c_article_id : uuid;
  c_user_id : uuid;
  c_parent_id : option uuid;
  c_is_approved : bool;
  c_created_at : timestamp;
  c_updated_at : timestamp
}.

Record CommentLike := mkLike {
  l_id : uuid;
  l_comment_id : uuid;
  l_user_id : uuid;
  l_created_at : timestamp
}.

Record DB := mkDB {
  users : list User;
  articles : list Article;
  comments : list Comment;
  comment_likes : list CommentLike
}.

(** What a query can raise: the PostgreSQL error classes the comment
    routes can provoke. *)
Inductive DbError :=
| unique_violation          (* 23505 *)
| foreign_key_violation     (* 23503 *)
| invalid_text_representation (* 22P02: a text that is not a uuid *)
| character_not_in_repertoire (* 22021: a text that holds U+0000 *)
| numeric_value_out_of_range  (* 22003: an integer beyond bigint *).

Inductive DbResult (A : Type) :=
| Rows (a : A)
| Raised (e : DbError).
Arguments Rows {A} a.
Arguments Raised {A} e.

Definition is_admin (r : Role) : bool :=
  match r with role_admin => true | _ => false end.

Definition is_published (s : ArticleStatus) : bool :=
  match s with published => true | _ => false end.

Definition opt_uuid_is (o : option uuid) (id : uuid) : bool :=
  match o with Some p => N.eqb p id | None => false end.

Definition is_null {A} (o : option A) : bool :=
  match o with Some _ => false | None => true end.

Definition count {A} (p : A -> bool) (l : list A) : Z :=
  Z.of_nat (List.length (filter p l)).

Definition is_high_surrogate (c : N) : bool :=
  ((0xD800 <=? c) && (c <=? 0xDBFF))%N.
Definition is_low_surrogate (c : N) : bool :=
  ((0xDC00 <=? c) && (c <=? 0xDFFF))%N.

(** A string written as UTF-8 and read back: a surrogate that is not half
    of a pair comes back as U+FFFD. *)
Fixpoint well_formed (s : jsstring) : jsstring :=
  match s with
  | [] => []
  | c :: rest =>
      if is_high_surrogate c then
        match rest with
        | d :: rest' =>
            if is_low_surrogate d then c :: d :: well_formed rest'
            else 0xFFFD%N :: well_formed rest
        | [] => [0xFFFD%N]
        end
      else if is_low_surrogate c then 0xFFFD%N :: well_formed rest
      else c :: well_formed rest
  end.

(** A string bound to a [TEXT] parameter of a query: the driver writes it
    as UTF-8 and the server, whose encoding is UTF-8, refuses a text that
    holds the character U+0000. The result is the text the store keeps and
    gives back. *)
Definition text_param (s : jsstring) : DbResult jsstring :=
  if existsb (N.eqb 0) s then Raised character_not_in_repertoire
  else Rows (well_formed s).

(** PostgreSQL's [bigint], the type of [LIMIT] and [OFFSET]. *)
Definition bigint_max : Z := 9223372036854775807.

(** [SELECT ... FROM users WHERE id = $1] *)
Definition select_user (db : DB) (id : uuid) : option User :=
  find (fun u => N.eqb (u_id u) id) (users db).

(** [SELECT id FROM articles WHERE id = $1 AND status = 'published'] *)
Definition select_published_article (db : DB) (id : uuid) : list uuid :=
  map a_id
    (filter (fun a => N.eqb (a_id a) id && is_published (a_status a))
       (articles db)).

(** [SELECT id FROM comments WHERE id = $1 AND article_id = $2
     AND is_approved = true] *)
Definition select_parent (db : DB) (id article : uuid) : list uuid :=
  map c_id
    (filter (fun c => N.eqb (c_id c) id && N.eqb (c_article_id c) article
                      && c_is_approved c)
       (comments db)).

(** [SELECT id FROM comments WHERE id = $1 AND is_approved = true] *)
Definition select_approved_comment (db : DB) (id : uuid) : list uuid :=
  map c_id
    (filter (fun c => N.eqb (c_id c) id && c_is_approved c) (comments db)).

(** [SELECT user_id FROM comments WHERE id = $1] *)
Definition select_owner (db : DB) (id : uuid) : list uuid :=
  map c_user_id (filter (fun c => N.eqb (c_id c) id) (comments db)).

(** [SELECT id FROM comment_likes WHERE comment_id = $1 AND user_id = $2] *)
Definition select_like (db : DB) (comment usr : uuid) : list uuid :=
  map l_id
    (filter (fun l => N.eqb (l_comment_id l) comment && N.eqb (l_user_id l) usr)
       (comment_likes db)).

(** [(SELECT COUNT( * ) FROM comment_likes WHERE comment_id = c.id)] *)
Definition likes_count (db : DB) (comment : uuid) : Z :=
  count (fun l => N.eqb (l_comment_id l) comment) (comment_likes db).

(** [(SELECT COUNT( * ) FROM comments WHERE parent_id = c.id
      AND is_approved = true)] *)
Definition replies_count (db : DB) (comment : uuid) : Z :=
  count (fun c => opt_uuid_is (c_parent_id c) comment && c_is_approved c)
    (comments db).

Definition has_user (db : DB) (id : uuid) : bool :=
  existsb (fun u => N.eqb (u_id u) id) (users db).
Definition has_article (db : DB) (id : uuid) : bool :=
  existsb (fun a => N.eqb (a_id a) id) (articles db).
Definition has_comment (db : DB) (id : uuid) : bool :=
  existsb (fun c => N.eqb (c_id c) id) (comments db).
Definition has_like_id (db : DB) (id : uuid) : bool :=
  existsb (fun l => N.eqb (l_id l) id) (comment_likes db).

(** The like row of a (comment, user) pair, the subject of
    [UNIQUE(comment_id, user_id)]. *)
Definition has_like (db : DB) (comment usr : uuid) : bool :=
  existsb (fun l => N.eqb (l_comment_id l) comment && N.eqb (l_user_id l) usr)
    (comment_likes db).

(** The moderation flag of the comment [id], when the comment exists. *)
Definition approval (db : DB) (id : uuid) : option bool :=
  option_map c_is_approved (find (fun c => N.eqb (c_id c) id) (comments db)).

Definition set_comments (db : DB) (cs : list Comment) : DB :=
  mkDB (users db) (articles db) cs (comment_likes db).
Definition set_likes (db : DB) (ls : list CommentLike) : DB :=
  mkDB (users db) (articles db) (comments db) ls.

(** [INSERT INTO comments (content, article_id, user_id, parent_id,
     is_approved) VALUES (...)]: the primary key and the three foreign keys
    are checked; [id], [created_at] and [updated_at] take their column
    defaults. *)
Definition insert_comment (db : DB) (id : uuid) (now : timestamp)
    (content : jsstring) (article usr : uuid) (parent : option uuid)
    (approved : bool) : DbResult (Comment * DB) :=
  if has_comment db id then Raised unique_violation
  else if negb (has_article db article) then Raised foreign_key_violation
  else if negb (has_user db usr) then Raised foreign_key_violation
  else if match parent with
          | Some p => negb (has_comment db p)
          | None => false
          end then Raised foreign_key_violation
  else
    let row := mkComment id content article usr parent approved now now in
    Rows (row, set_comments db (comments db ++ [row])).

(** [INSERT INTO comment_likes (comment_id, user_id) VALUES ($1, $2)] under
    the primary key, [UNIQUE(comment_id, user_id)] and the two foreign
    keys. *)
Definition insert_like (db : DB) (id : uuid) (now : timestamp)
    (comment usr : uuid) : DbResult DB :=
  if has_like_id db id then Raised unique_violation
  else if has_like db comment usr then Raised unique_violation
  else if negb (has_comment db comment) then Raised foreign_key_violation
  else if negb (has_user db usr) then Raised foreign_key_violation
  else Rows (set_likes db (comment_likes db ++ [mkLike id comment usr now])).

(** [DELETE FROM comment_likes WHERE comment_id = $1 AND user_id = $2] *)
Definition delete_like (db : DB) (comment usr : uuid) : DB :=
  set_likes db
    (filter (fun l => negb (N.eqb (l_comment_id l) comment
                            && N.eqb (l_user_id l) usr))
       (comment_likes db)).

(** [UPDATE comments SET content = $1, updated_at = CURRENT_TIMESTAMP
     WHERE id = $2 RETURNING id, content, updated_at] (the
    [update_comments_updated_at] trigger writes the same timestamp). *)
Definition update_content (db : DB) (id : uuid) (now : timestamp)
    (content : jsstring) : list Comment * DB :=
  let upd c :=
    if N.eqb (c_id c) id
    then mkComment (c_id c) content (c_article_id c) (c_user_id c)
           (c_parent_id c) (c_is_approved c) (c_created_at c) now
    else c in
  let cs := map upd (comments db) in
  (filter (fun c => N.eqb (c_id c) id) cs, set_comments db cs).

(** [UPDATE comments SET is_approved = true, updated_at = CURRENT_TIMESTAMP
     WHERE id = $1 RETURNING id, is_approved] *)
Definition update_approved (db : DB) (id : uuid) (now : timestamp)
    : list Comment * DB :=
  let upd c :=
    if N.eqb (c_id c) id
    then mkComment (c_id c) (c_content c) (c_article_id c) (c_user_id c)
           (c_parent_id c) true (c_created_at c) now
    else c in
  let cs := map upd (comments db) in
  (filter (fun c => N.eqb (c_id c) id) cs, set_comments db cs).

(** [DELETE FROM comments WHERE id = $1]: the row goes, and with it, through
    [parent_id UUID REFERENCES comments(id) ON DELETE CASCADE] and
    [comment_id UUID NOT NULL REFERENCES comments(id) ON DELETE CASCADE],
    its like rows and, one after the other, the replies that reference it.
    A comment that is not there deletes nothing. [fuel] bounds the depth of
    the cascade. *)
Fixpoint delete_cascade (fuel : nat) (id : uuid) (db : DB) : DB :=
  match fuel with
  | O => db
  | S f =>
      if has_comment db id then
        let replies :=
          map c_id
            (filter (fun c => opt_uuid_is (c_parent_id c) id) (comments db)) in
        let db1 :=
          mkDB (users db) (articles db)
            (filter (fun c => negb (N.eqb (c_id c) id)) (comments db))
            (filter (fun l => negb (N.eqb (l_comment_id l) id))
               (comment_likes db)) in
        fold_left (fun d r => delete_cascade f r d) replies db1
      else db
  end.

(** [DELETE FROM comments WHERE id = $1 RETURNING id] *)
Definition delete_comment (db : DB) (id : uuid) : list uuid * DB :=
  (map c_id (filter (fun c => N.eqb (c_id c) id) (comments db)),
   delete_cascade (S (List.length (comments db))) id db).

(** [ORDER BY]: a stable insertion sort under the order [le]. *)
Fixpoint insert_by {A} (le : A -> A -> bool) (x : A) (l : list A) : list A :=
  match l with
  | [] => [x]
  | y :: t => if le x y then x :: y :: t else y :: insert_by le x t
  end.

Definition order_by {A} (le : A -> A -> bool) (l : list A) : list A :=
  fold_right (insert_by le) [] l.

(** ** Requests, responses and the outside world *)

(** A text that reaches a [uuid] column or the [isUUID()] validator. *)
Inductive Param :=
| IsUUID (u : uuid)
| NotUUID (raw : string).

(** A query-string value as [isInt()] sees it. *)
Inductive QueryInt :=
| IsInt (n : Z)
| NotInt (raw : string).

(** [jwt.verify(token, secret, (err, decoded) => ...)]: either the decoded
    payload's [userId] or the [name] of the error. *)
Inductive VerifyResult :=
| Decoded (userId : uuid)
| VerifyError (name : string).

Record World := mkWorld {
  jwt_verify : string -> VerifyResult;
  now : timestamp;          (* CURRENT_TIMESTAMP *)
  gen_uuid : uuid           (* uuid_generate_v4() *)
}.

Record Request := mkRequest {
  authorization : option string;     (* req.headers['authorization'] *)
  params_id : option Param;          (* req.params.id *)
  params_articleId : option Param;   (* req.params.articleId *)
  query_page : option QueryInt;
  query_limit : option QueryInt;
  query_sort : option string;
  body_content : option jsstring;
  body_articleId : option Param;
  body_parentId : option Param;
  body_id : option Param;
  user : option User                 (* req.user *)
}.

Record Author := mkAuthor {
  au_id : uuid;
  au_username : string;
  au_firstName : string;
  au_lastName : string
}.

Record ReplyView := mkReplyView {
  rv_id : uuid;
  rv_content : jsstring;
  rv_createdAt : timestamp;
  rv_updatedAt : timestamp;
  rv_author : Author;
  rv_likesCount : Z
}.

Record CommentView := mkCommentView {
  cv_id : uuid;
  cv_content : jsstring;
  cv_createdAt : timestamp;
  cv_updatedAt : timestamp;
  cv_author : Author;
  cv_likesCount : Z;
  cv_repliesCount : Z;
  cv_replies : list ReplyView
}.

Record Pagination := mkPagination {
  currentPage : Z;
  totalPages : Z;
  totalComments : Z;
  hasNextPage : bool;
  hasPrevPage : bool
}.

Record CreatedView := mkCreatedView {
  cr_id : uuid;
  cr_content : jsstring;
  cr_createdAt : timestamp;
  cr_parentId : option uuid;
  cr_isApproved : bool;
  cr_author : Author
}.

Record PendingView := mkPendingView {
  pv_id : uuid;
  pv_content : jsstring;
  pv_createdAt : timestamp;
  pv_author : string * string * string;   (* username, firstName, lastName *)
  pv_article : uuid * string * string     (* id, title, slug *)
}.

(** The JSON bodies of the comment routes ([details] of a validation error
    left out). *)
Inductive Body :=
| ErrorBody (error message : string)
| ListBody (cs : list CommentView) (pagination : Pagination)
| CreatedBody (message : string) (comment : CreatedView)
| UpdatedBody (message : string) (id : uuid) (content : jsstring)
    (updatedAt : timestamp)
| MessageBody (message : string)
| LikeBody (message : string) (liked : bool)
| ApprovedBody (message : string) (id : uuid) (isApproved : bool)
| PendingBody (pendingComments : list PendingView) (cnt : Z).

Record Response := mkResponse {
  status : Z;
  body : Body
}.

Definition json (b : Body) : Response := mkResponse 200 b.
Definition fail (code : Z) (error message : string) : Response :=
  mkResponse code (ErrorBody error message).

Definition Handler := World -> Request -> DB -> Response * DB.

(** A middleware answers, or calls [next()] on the request it may have
    extended. *)
Definition Middleware := World -> Request -> DB -> Response + Request.

(** [router.METHOD(path, [m1; ...; mn], handler)] *)
Fixpoint route (ms : list Middleware) (h : Handler) : Handler :=
  fun w req db =>
    match ms with
    | [] => h w req db
    | m :: rest =>
        match m w req db with
        | inl resp => (resp, db)
        | inr req' => route rest h w req' db
        end
    end.

Definition with_user (req : Request) (u : User) : Request :=
  mkRequest (authorization req) (params_id req) (params_articleId req)
    (query_page req) (query_limit req) (query_sort req) (body_content req)
    (body_articleId req) (body_parentId req) (body_id req) (Some u).

(** ** middleware/auth.js *)

(** [str.split(' ')] *)
Fixpoint split_space (s : string) : list string :=
  match s with
  | EmptyString => [EmptyString]
  | String c rest =>
      if Ascii.eqb c " "%char then EmptyString :: split_space rest
      else match split_space rest with
           | [] => [String c EmptyString]
           | word :: more => String c word :: more
           end
  end.

(** [authHeader && authHeader.split(' ')[1]] *)
Definition bearer_token (req : Request) : option string :=
  match authorization req with
  | None => None
  | Some h => if String.eqb h "" then Some "" else nth_error (split_space h) 1
  end.

Definition authenticateToken : Middleware := fun w req db =>
  match bearer_token req with
  | None | Some EmptyString =>
      inl (fail 401 "Access token required"
             "Please provide a valid authentication token")
  | Some token =>
      match jwt_verify w token with
      | VerifyError name =>
          if String.eqb name "TokenExpiredError" then
            inl (fail 401 "Token expired"
                   "Your authentication token has expired. Please log in again.")
          else
            inl (fail 403 "Invalid token"
                   "The provided authentication token is invalid")
      | Decoded userId =>
          match select_user db userId with
          | None =>
              inl (fail 401 "User not found"
                     "The user associated with this token no longer exists")
          | Some u =>
              if negb (u_is_active u) then
                inl (fail 401 "Account deactivated"
                       "Your account has been deactivated. Please contact support.")
              else inr (with_user req u)
          end
      end
  end.

Definition role_eqb (a b : Role) : bool :=
  match a, b with
  | role_user, role_user | role_contributor, role_contributor
  | role_admin, role_admin => true
  | _, _ => false
  end.

Definition requireRole (roles : list Role) : Middleware := fun w req db =>
  match user req with
  | None =>
      inl (fail 401 "Authentication required"
             "You must be logged in to access this resource")
  | Some u =>
      if negb (existsb (role_eqb (u_role u)) roles) then
        inl (fail 403 "Insufficient permissions"
               "You do not have permission to access this resource")
      else inr req
  end.

Definition requireAdmin : Middleware := requireRole [role_admin].
Definition requireContributor : Middleware :=
  requireRole [role_contributor; role_admin].

(** JavaScript truthiness of a request field. *)
Definition truthy (p : option Param) : bool :=
  match p with
  | None | Some (NotUUID EmptyString) => false
  | _ => true
  end.

(** [requireOwnershipOrAdmin('comments', 'id')]: the one resource table the
    comment router names. *)
Definition requireOwnershipOrAdmin : Middleware := fun w req db =>
  match user req with
  | None =>
      inl (fail 401 "Authentication required"
             "You must be logged in to access this resource")
  | Some u =>
      if is_admin (u_role u) then inr req
      else
        let resourceId :=
          if truthy (params_id req) then params_id req else body_id req in
        if negb (truthy resourceId) then
          inl (fail 400 "Resource ID required"
                 "Resource ID is required to verify ownership")
        else
          match resourceId with
          | Some (IsUUID id) =>
              match select_owner db id with
              | [] =>
                  inl (fail 404 "Resource not found"
                         "The requested resource does not exist")
              | owner :: _ =>
                  if negb (N.eqb owner (u_id u)) then
                    inl (fail 403 "Access denied"
                           "You can only modify your own resources")
                  else inr req
              end
          | _ =>
              inl (fail 500 "Ownership verification error"
                     "An error occurred while verifying resource ownership")
          end
  end.

(** ** routes/comments.js *)

(** The code units JavaScript's [\s] matches, which are those
    [String.prototype.trim] removes: the white space of ASCII, U+00A0,
    U+1680, U+2000 to U+200A, U+2028, U+2029, U+202F, U+205F, U+3000 and
    U+FEFF. *)
Definition is_space (c : N) : bool :=
  (((9 <=? c) && (c <=? 13)) || (c =? 32) || (c =? 0xA0) || (c =? 0x1680)
   || ((0x2000 <=? c) && (c <=? 0x200A)) || (c =? 0x2028) || (c =? 0x2029)
   || (c =? 0x202F) || (c =? 0x205F) || (c =? 0x3000) || (c =? 0xFEFF))%N.

Fixpoint ltrim (s : jsstring) : jsstring :=
  match s with
  | [] => []
  | c :: rest => if is_space c then ltrim rest else s
  end.

Fixpoint rtrim (s : jsstring) : jsstring :=
  match s with
  | [] => []
  | c :: rest =>
      match rtrim rest with
      | [] => if is_space c then [] else [c]
      | kept => c :: kept
      end
  end.

(** The [trim()] sanitizer, and [String.prototype.trim]. *)
Definition trim (s : jsstring) : jsstring := rtrim (ltrim s).

(** [req.body.content] after the sanitizer; a missing field is validated
    as the empty text. *)
Definition sanitized_content (req : Request) : jsstring :=
  match body_content req with
  | Some s => trim s
  | None => []
  end.

(** [str.match(/[\uD800-\uDBFF][\uDC00-\uDFFF]/g).length] *)
Fixpoint surrogatePairs (s : jsstring) : Z :=
  match s with
  | c :: (d :: rest') as rest =>
      if is_high_surrogate c && is_low_surrogate d
      then 1 + surrogatePairs rest'
      else surrogatePairs rest
  | _ => 0
  end.

Definition is_variation_selector (c : N) : bool :=
  ((c =? 0xFE0E) || (c =? 0xFE0F))%N.

(** [str.match(/(\uFE0F|\uFE0E)/g).length] *)
Definition presentationSequences (s : jsstring) : Z :=
  count is_variation_selector s.

(** The length the [isLength] validator measures: the number of code
    units, less one for each surrogate pair, so that a character outside
    the basic plane counts once, and less the variation selectors U+FE0E
    and U+FE0F. *)
Definition len (s : jsstring) : Z :=
  Z.of_nat (List.length s) - presentationSequences s - surrogatePairs s.

Definition isLength (min max : Z) (s : jsstring) : bool :=
  (min <=? len s) && (len s <=? max).

(** [body('content').trim().isLength({ min: 1, max: 1000 })] *)
Definition valid_content (req : Request) : bool :=
  isLength 1 1000 (sanitized_content req).

Definition is_uuid (p : option Param) : bool :=
  match p with Some (IsUUID _) => true | _ => false end.

(** [query('page').optional().isInt({ min: 1 })],
    [query('limit').optional().isInt({ min: 1, max: 100 })],
    [query('sort').optional().isIn(['newest', 'oldest', 'likes'])] *)
Definition valid_list_query (req : Request) : bool :=
  match query_page req with
  | None => true
  | Some (IsInt n) => 1 <=? n
  | Some (NotInt _) => false
  end
  && match query_limit req with
     | None => true
     | Some (IsInt n) => (1 <=? n) && (n <=? 100)
     | Some (NotInt _) => false
     end
  && match query_sort req with
     | None => true
     | Some s => String.eqb s "newest" || String.eqb s "oldest"
                 || String.eqb s "likes"
     end.

(** [body('content')...], [body('articleId').isUUID()],
    [body('parentId').optional().isUUID()] *)
Definition valid_create_body (req : Request) : bool :=
  valid_content req
  && is_uuid (body_articleId req)
  && match body_parentId req with
     | None => true
     | Some p => is_uuid (Some p)
     end.

(** A row of the top-level query: the comment, its author and the two
    counting sub-selects. *)
Record CommentRow := mkCommentRow {
  r_comment : Comment;
  r_user : User;
  r_likes_count : Z;
  r_replies_count : Z
}.

Definition r_created_at (r : CommentRow) : timestamp :=
  c_created_at (r_comment r).

(** [FROM comments c JOIN users u ON c.user_id = u.id] *)
Definition join_users (db : DB) (cs : list Comment) : list (Comment * User) :=
  flat_map
    (fun c =>
       map (fun u => (c, u))
         (filter (fun u => N.eqb (c_user_id c) (u_id u)) (users db)))
    cs.

(** [WHERE c.article_id = $1 AND c.parent_id IS NULL
     AND c.is_approved = true] *)
Definition top_level (article : uuid) (c : Comment) : bool :=
  N.eqb (c_article_id c) article && is_null (c_parent_id c) && c_is_approved c.

Definition top_level_rows (db : DB) (article : uuid) : list CommentRow :=
  map (fun cu =>
         mkCommentRow (fst cu) (snd cu)
           (likes_count db (c_id (fst cu))) (replies_count db (c_id (fst cu))))
    (join_users db (filter (top_level article) (comments db))).

(** The [switch (sort)] that builds the [ORDER BY] clause, as the order the
    clause denotes. *)
Definition orderByClause (sort : string) (a b : CommentRow) : bool :=
  if String.eqb sort "oldest" then
    r_created_at a <=? r_created_at b
  else if String.eqb sort "likes" then
    (r_likes_count b <? r_likes_count a)
    || ((r_likes_count a =? r_likes_count b)
        && (r_created_at b <=? r_created_at a))
  else
    r_created_at b <=? r_created_at a.

(** [OFFSET $3]: the rows after the first [offset] ones. *)
Fixpoint offset_rows {A} (offset : Z) (l : list A) : list A :=
  match l with
  | [] => []
  | _ :: rest => if 0 <? offset then offset_rows (offset - 1) rest else l
  end.

(** [LIMIT $2 OFFSET $3] *)
Definition limit_offset {A} (limit offset : Z) (l : list A) : list A :=
  firstn (Z.to_nat limit) (offset_rows offset l).

Definition author_of (u : User) : Author :=
  mkAuthor (u_id u) (u_username u) (u_first_name u) (u_last_name u).

(** The replies query of one top-level comment:
    [WHERE c.parent_id = $1 AND c.is_approved = true
     ORDER BY c.created_at ASC], mapped to the response objects. *)
Definition select_replies (db : DB) (comment : uuid) : list ReplyView :=
  map (fun cu =>
         mkReplyView (c_id (fst cu)) (c_content (fst cu))
           (c_created_at (fst cu)) (c_updated_at (fst cu))
           (author_of (snd cu)) (likes_count db (c_id (fst cu))))
    (order_by (fun a b => c_created_at (fst a) <=? c_created_at (fst b))
       (join_users db
          (filter (fun c => opt_uuid_is (c_parent_id c) comment
                            && c_is_approved c)
             (comments db)))).

Definition comment_view (db : DB) (r : CommentRow) : CommentView :=
  mkCommentView (c_id (r_comment r)) (c_content (r_comment r))
    (c_created_at (r_comment r)) (c_updated_at (r_comment r))
    (author_of (r_user r)) (r_likes_count r) (r_replies_count r)
    (select_replies db (c_id (r_comment r))).

(** [Math.ceil(a / b)] for a count [a] and a positive [b]. *)
Definition ceil_div (a b : Z) : Z :=
  if a mod b =? 0 then a / b else a / b + 1.

Definition validation_failed (message : string) : Response :=
  fail 400 "Validation failed" message.

(** The JavaScript number nearest to an integer: the integer itself up to
    [2 ^ 53], and beyond that the nearest multiple of the power of two that
    leaves a significand of 53 bits, the even significand on a tie.
    (Beyond the largest finite number JavaScript has [Infinity]; such a
    page makes an [OFFSET] that the store refuses, as it refuses the huge
    one computed here.) *)
Definition to_number (n : Z) : Z :=
  let k := Z.log2 (Z.abs n) - 52 in
  if k <=? 0 then n
  else
    let q := n / 2 ^ k in
    let r := n mod 2 ^ k in
    if (r <? 2 ^ (k - 1)) || ((r =? 2 ^ (k - 1)) && Z.even q)
    then q * 2 ^ k
    else (q + 1) * 2 ^ k.

(** [a - b] and [a * b] on numbers that hold integers. *)
Definition number_sub (a b : Z) : Z := to_number (a - b).
Definition number_mul (a b : Z) : Z := to_number (a * b).

(** [const { page = 1, limit = 20, sort = 'newest' } = req.query]. A page
    that is given is the text of the query string; the handler's
    arithmetic, its comparisons and [parseInt(page)] all read it as the
    number [page_of]. *)
Definition page_of (req : Request) : Z :=
  match query_page req with Some (IsInt n) => to_number n | _ => 1 end.
Definition limit_of (req : Request) : Z :=
  match query_limit req with Some (IsInt n) => n | _ => 20 end.
Definition sort_of (req : Request) : string :=
  match query_sort req with Some s => s | None => "newest" end.

(** [GET /api/comments/article/:articleId]. The driver sends [offset] as
    its decimal text, and the store raises when that is no [bigint].
    (Beyond [2 ^ 53] the text JavaScript prints for a number can differ
    from it in the last digits; either skips every row of a table whose
    rows JavaScript can count.) *)
Definition getArticleComments : Handler := fun w req db =>
  if negb (valid_list_query req) then
    (validation_failed "Please check your query parameters", db)
  else
    let page := page_of req in
    let limit := limit_of req in
    let sort := sort_of req in
    let offset := number_mul (number_sub page 1) limit in
    match params_articleId req with
    | Some (NotUUID _) =>
        (fail 500 "Failed to retrieve comments"
           "An error occurred while retrieving comments", db)
    | None =>
        (fail 404 "Article not found"
           "The requested article does not exist or is not published", db)
    | Some (IsUUID articleId) =>
        match select_published_article db articleId with
        | [] =>
            (fail 404 "Article not found"
               "The requested article does not exist or is not published", db)
        | _ :: _ =>
            let total := count (top_level articleId) (comments db) in
            let pages := ceil_div total limit in
            if bigint_max <? offset then
              (fail 500 "Failed to retrieve comments"
                 "An error occurred while retrieving comments", db)
            else
              let rows :=
                limit_offset limit offset
                  (order_by (orderByClause sort)
                     (top_level_rows db articleId)) in
              (json (ListBody (map (comment_view db) rows)
                       (mkPagination page pages total (page <? pages)
                          (1 <? page))),
               db)
        end
    end.

(** The handler of [POST /api/comments], behind [authenticateToken]. *)
Definition createComment_handler : Handler := fun w req db =>
  let storage_error :=
    fail 500 "Failed to create comment"
      "An error occurred while creating the comment" in
  if negb (valid_create_body req) then
    (validation_failed "Please check your input", db)
  else
    match body_articleId req with
    | Some (IsUUID articleId) =>
        match select_published_article db articleId with
        | [] =>
            (fail 404 "Article not found"
               "The article you are trying to comment on does not exist or is not published",
             db)
        | _ :: _ =>
            let parent :=
              match body_parentId req with
              | Some (IsUUID p) => Some p
              | _ => None
              end in
            if match parent with
               | Some p =>
                   match select_parent db p articleId with
                   | [] => true
                   | _ :: _ => false
                   end
               | None => false
               end
            then
              (fail 404 "Parent comment not found"
                 "The comment you are trying to reply to does not exist", db)
            else
              match user req with
              | None => (storage_error, db)
              | Some u =>
                  match text_param (sanitized_content req) with
                  | Raised _ => (storage_error, db)
                  | Rows content =>
                      match insert_comment db (gen_uuid w) (now w) content
                              articleId (u_id u) parent
                              (if is_admin (u_role u) then true else false)
                      with
                      | Raised _ => (storage_error, db)
                      | Rows (newComment, db') =>
                          (mkResponse 201
                             (CreatedBody
                                (if is_admin (u_role u)
                                 then "Comment created successfully"
                                 else "Comment submitted for approval")
                                (mkCreatedView (c_id newComment)
                                   (c_content newComment)
                                   (c_created_at newComment)
                                   (c_parent_id newComment)
                                   (is_admin (u_role u)) (author_of u))),
                           db')
                      end
                  end
              end
        end
    | _ => (storage_error, db)
    end.

Definition createComment : Handler :=
  route [authenticateToken] createComment_handler.

(** The handler of [PUT /api/comments/:id]. The query raises on a
    parameter the store cannot read, the text or the id. *)
Definition updateComment_handler : Handler := fun w req db =>
  if negb (valid_content req) then
    (validation_failed "Please check your input", db)
  else
    let not_found :=
      fail 404 "Comment not found"
        "The comment you are trying to update does not exist" in
    let storage_error :=
      fail 500 "Failed to update comment"
        "An error occurred while updating the comment" in
    match text_param (sanitized_content req), params_id req with
    | Raised _, _ | _, Some (NotUUID _) => (storage_error, db)
    | Rows _, None => (not_found, db)
    | Rows content, Some (IsUUID id) =>
        match update_content db id (now w) content with
        | ([], db') => (not_found, db')
        | (updatedComment :: _, db') =>
            (json (UpdatedBody "Comment updated successfully"
                     (c_id updatedComment) (c_content updatedComment)
                     (c_updated_at updatedComment)),
             db')
        end
    end.

Definition updateComment : Handler :=
  route [authenticateToken; requireOwnershipOrAdmin] updateComment_handler.

(** The handler of [DELETE /api/comments/:id]. *)
Definition deleteComment_handler : Handler := fun w req db =>
  let not_found :=
    fail 404 "Comment not found"
      "The comment you are trying to delete does not exist" in
  match params_id req with
  | Some (NotUUID _) =>
      (fail 500 "Failed to delete comment"
         "An error occurred while deleting the comment", db)
  | None => (not_found, db)
  | Some (IsUUID id) =>
      match delete_comment db id with
      | ([], db') => (not_found, db')
      | (_ :: _, db') => (json (MessageBody "Comment deleted successfully"), db')
      end
  end.

Definition deleteComment : Handler :=
  route [authenticateToken; requireOwnershipOrAdmin] deleteComment_handler.

(** The handler of [POST /api/comments/:id/like]. Its three queries are
    three round trips to the store; [before_check] and [before_write] are
    what the other requests in flight do to the store between the first and
    the second, and between the second and the third. *)
Definition toggleLike_handler_among (before_check before_write : DB -> DB)
    : Handler := fun w req db =>
  let storage_error :=
    fail 500 "Failed to toggle comment like"
      "An error occurred while processing your like" in
  let not_found :=
    fail 404 "Comment not found"
      "The comment you are trying to like does not exist" in
  match params_id req, user req with
  | Some (NotUUID _), _ => (storage_error, db)
  | None, _ => (not_found, db)
  | Some (IsUUID id), u =>
      match select_approved_comment db id with
      | [] => (not_found, db)
      | _ :: _ =>
          match u with
          | None => (storage_error, before_check db)
          | Some u =>
              let db1 := before_check db in
              let existingLike := select_like db1 id (u_id u) in
              let db2 := before_write db1 in
              match existingLike with
              | _ :: _ =>
                  (json (LikeBody "Comment unliked successfully" false),
                   delete_like db2 id (u_id u))
              | [] =>
                  match insert_like db2 (gen_uuid w) (now w) id (u_id u) with
                  | Raised _ => (storage_error, db2)
                  | Rows db3 =>
                      (json (LikeBody "Comment liked successfully" true), db3)
                  end
              end
          end
      end
  end.

Definition toggleLike_among (before_check before_write : DB -> DB) : Handler :=
  route [authenticateToken]
    (toggleLike_handler_among before_check before_write).

(** The request served alone. *)
Definition toggleLike : Handler := toggleLike_among (fun d => d) (fun d => d).

(** The handler of [PUT /api/comments/:id/approve]. *)
Definition approveComment_handler : Handler := fun w req db =>
  let not_found :=
    fail 404 "Comment not found"
      "The comment you are trying to approve does not exist" in
  match params_id req with
  | Some (NotUUID _) =>
      (fail 500 "Failed to approve comment"
         "An error occurred while approving the comment", db)
  | None => (not_found, db)
  | Some (IsUUID id) =>
      match update_approved db id (now w) with
      | ([], db') => (not_found, db')
      | (row :: _, db') =>
          (json (ApprovedBody "Comment approved successfully"
                   (c_id row) (c_is_approved row)),
           db')
      end
  end.

Definition approveComment : Handler :=
  route [authenticateToken; requireOwnershipOrAdmin] approveComment_handler.

(** [FROM comments c JOIN users u ON c.user_id = u.id
     JOIN articles a ON c.article_id = a.id
     WHERE c.is_approved = false ORDER BY c.created_at ASC] *)
Definition pending_rows (db : DB) : list (Comment * User * Article) :=
  order_by
    (fun x y => c_created_at (fst (fst x)) <=? c_created_at (fst (fst y)))
    (flat_map
       (fun cu =>
          map (fun a => (cu, a))
            (filter (fun a => N.eqb (c_article_id (fst cu)) (a_id a))
               (articles db)))
       (join_users db
          (filter (fun c => negb (c_is_approved c)) (comments db)))).

(** The handler of [GET /api/comments/pending]. *)
Definition getPendingComments_handler : Handler := fun w req db =>
  let pendingComments :=
    map (fun x =>
           let c := fst (fst x) in
           let u := snd (fst x) in
           let a := snd x in
           mkPendingView (c_id c) (c_content c) (c_created_at c)
             (u_username u, u_first_name u, u_last_name u)
             (c_article_id c, a_title a, a_slug a))
      (pending_rows db) in
  (json (PendingBody pendingComments
           (Z.of_nat (List.length pendingComments))),
   db).

Definition getPendingComments : Handler :=
  route [authenticateToken; requireOwnershipOrAdmin] getPendingComments_handler.

(** The routes of the comment router. *)
Inductive Route :=
| GET_article_comments
| POST_comment
| PUT_comment
| DELETE_comment
| POST_like
| PUT_approve
| GET_pending.

Definition router (r : Route) : Handler :=
  match r with
  | GET_article_comments => getArticleComments
  | POST_comment => createComment
  | PUT_comment => updateComment
  | DELETE_comment => deleteComment
  | POST_like => toggleLike
  | PUT_approve => approveComment
  | GET_pending => getPendingComments
  end.

(** One served request: the route it hits, the world at that moment and the
    request itself. *)
Definition Call := (Route * World * Request)%type.

Definition serve (db : DB) (c : Call) : DB :=
  snd (router (fst (fst c)) (snd (fst c)) (snd c) db).

(** The store after a sequence of requests served one after the other. *)
Definition serve_all (calls : list Call) (db : DB) : DB :=
  fold_left serve calls db.

Definition is_delete (r : Route) : bool :=
  match r with DELETE_comment => true | _ => false end.

(** ** A small archive used by the examples *)

Module Sample.

Definition alice : User :=
  mkUser 1 "alice" "alice@naath.test" "Alice" "Deng" role_user true.
Definition bob : User :=
  mkUser 2 "bob" "bob@naath.test" "Bob" "Gatluak" role_user true.
Definition root : User :=
  mkUser 3 "root" "root@naath.test" "Rose" "Nyakong" role_admin true.

Definition heritage : Article :=
  mkArticle 10 "Cattle camps" "cattle-camps" 3 published.
Definition notes : Article :=
  mkArticle 11 "Field notes" "field-notes" 3 draft.

Definition comment_rows : list Comment :=
  [ mkComment 100 (js "First") 10 1 None true 1000 1000;
    mkComment 101 (js "Late reply") 10 2 (Some 100%N) true 1010 1010;
    mkComment 102 (js "Early reply") 10 1 (Some 100%N) true 1005 1005;
    mkComment 103 (js "Waiting") 10 1 None false 1020 1020;
    mkComment 104 (js "Nested") 10 2 (Some 101%N) true 1030 1030;
    mkComment 105 (js "Second") 10 2 None true 1040 1040 ].

Definition like_rows : list CommentLike :=
  [ mkLike 500 100 2 1001;
    mkLike 501 101 1 1011;
    mkLike 502 104 1 1031 ].

Definition db : DB :=
  mkDB [alice; bob; root] [heritage; notes] comment_rows like_rows.

(** A verifier that knows three sessions and one expired token, and
    rejects everything else as [jsonwebtoken] rejects a malformed token or
    a bad signature. *)
Definition verify (token : string) : VerifyResult :=
  if String.eqb token "alice.jwt" then Decoded 1
  else if String.eqb token "bob.jwt" then Decoded 2
  else if String.eqb token "root.jwt" then Decoded 3
  else if String.eqb token "old.jwt" then VerifyError "TokenExpiredError"
  else VerifyError "JsonWebTokenError".

Definition world (clock : timestamp) (fresh : uuid) : World :=
  mkWorld verify clock fresh.

Definition blank : Request :=
  mkRequest None None None None None None None None None None None.

Definition bearer (token : string) : Request :=
  mkRequest (Some ("Bearer " ++ token)) None None None None None None None
    None None None.

(** A request on [/:id] carrying a token. *)
Definition on_comment (token : string) (id : uuid) : Request :=
  mkRequest (Some ("Bearer " ++ token)) (Some (IsUUID id)) None None None
    None None None None None None.

Definition update_request (token : string) (id : uuid) (content : jsstring)
    : Request :=
  mkRequest (Some ("Bearer " ++ token)) (Some (IsUUID id)) None None None
    None (Some content) None None None None.

Definition create_request (token : string) (article : uuid)
    (content : jsstring) (parent : option uuid) : Request :=
  mkRequest (Some ("Bearer " ++ token)) None None None None None
    (Some content) (Some (IsUUID article)) (option_map IsUUID parent) None
    None.

Definition list_request (article : uuid) (page limit : Z) (sort : string)
    : Request :=
  mkRequest None None (Some (IsUUID article)) (Some (IsInt page))
    (Some (IsInt limit)) (Some sort) None None None None None.

(** A text that begins with a no-break space and ends with a smiling face
    (a surrogate pair), a surrogate that has no partner and an em space. *)
Definition greeting : jsstring :=
  ([0xA0%N] ++ js " I agree "
   ++ [0xD83D%N; 0xDE42%N; 0xD83D%N; 0x2003%N])%list.

End Sample.

(** ** Vocabulary of the statements *)

Definition same_pair (c u c' u' : uuid) : bool := N.eqb c' c && N.eqb u' u.

Definition mem (x : uuid) (ids : list uuid) : bool := existsb (N.eqb x) ids.

(** The store without the comments whose id is in [ids] and without the
    like rows of those comments. *)
Definition prune (ids : list uuid) (db : DB) : DB :=
  mkDB (users db) (articles db)
    (filter (fun c => negb (mem (c_id c) ids)) (comments db))
    (filter (fun l => negb (mem (l_comment_id l) ids)) (comment_likes db)).

(** No row of [db] refers to a comment that is not in [db]. *)
Definition no_dangling (db : DB) : Prop :=
  (forall c p, In c (comments db) -> c_parent_id c = Some p ->
               has_comment db p = true)
  /\ (forall l, In l (comment_likes db) ->
                has_comment db (l_comment_id l) = true).

(** [db'] is [db] without some comments and their like rows, and no row
    kept in [db'] lost the comment it refers to on the way. *)
Definition cascade_closed (db db' : DB) : Prop :=
  (exists ids, db' = prune ids db)
  /\ (forall c p, In c (comments db') -> c_parent_id c = Some p ->
                  has_comment db p = true -> has_comment db' p = true)
  /\ (forall l, In l (comment_likes db') ->
                has_comment db (l_comment_id l) = true ->
                has_comment db' (l_comment_id l) = true).

(** [authenticateToken] let the request through as [u]. *)
Definition authenticated (w : World) (req : Request) (db : DB) (u : User)
    : Prop :=
  authenticateToken w req db = inr (with_user req u).

(** ** The rest of the middleware and the other callers of the guards *)

(** [optionalAuth]: never answers; attaches the user when the token verifies
    and [SELECT ... FROM users WHERE id = $1 AND is_active = true] finds a
    row. *)
Definition optionalAuth : Middleware := fun w req db =>
  match bearer_token req with
  | None | Some EmptyString => inr req
  | Some token =>
      match jwt_verify w token with
      | VerifyError _ => inr req
      | Decoded userId =>
          match filter (fun u => N.eqb (u_id u) userId && u_is_active u)
                  (users db) with
          | [] => inr req
          | u :: _ => inr (with_user req u)
          end
      end
  end.

(** The resource tables the routers hand to [requireOwnershipOrAdmin]:
    [comments] (comments.js), [articles], [oral_histories] and
    [artifacts]. *)
Inductive Table :=
| comments_table
| articles_table
| oral_histories_table
| artifacts_table.

(** [SELECT user_id FROM ${resourceTable} WHERE id = $1]. Of the four
    tables only [comments] has a [user_id] column in schema.sql ([articles]
    has [author_id], [oral_histories] has [interviewer_id], [artifacts] has
    [donor_id]); on the other three the query raises PostgreSQL's undefined
    column error, written [None]. *)
Definition select_user_id (resourceTable : Table) (db : DB) (id : uuid)
    : option (list uuid) :=
  match resourceTable with
  | comments_table => Some (select_owner db id)
  | _ => None
  end.

(** [requireOwnershipOrAdmin(resourceTable)] for any of the resource
    tables. *)
Definition requireOwnershipOrAdminOn (resourceTable : Table) : Middleware :=
  fun w req db =>
  match user req with
  | None =>
      inl (fail 401 "Authentication required"
             "You must be logged in to access this resource")
  | Some u =>
      if is_admin (u_role u) then inr req
      else
        let resourceId :=
          if truthy (params_id req) then params_id req else body_id req in
        if negb (truthy resourceId) then
          inl (fail 400 "Resource ID required"
                 "Resource ID is required to verify ownership")
        else
          match resourceId with
          | Some (IsUUID id) =>
              match select_user_id resourceTable db id with
              | Some [] =>
                  inl (fail 404 "Resource not found"
                         "The requested resource does not exist")
              | Some (owner :: _) =>
                  if negb (N.eqb owner (u_id u)) then
                    inl (fail 403 "Access denied"
                           "You can only modify your own resources")
                  else inr req
              | None =>
                  inl (fail 500 "Ownership verification error"
                         "An error occurred while verifying resource ownership")
              end
          | _ =>
              inl (fail 500 "Ownership verification error"
                     "An error occurred while verifying resource ownership")
          end
  end.

(** [DELETE FROM articles WHERE id = $1 RETURNING id]: the article goes and,
    through [article_id UUID NOT NULL REFERENCES articles(id) ON DELETE
    CASCADE], each of its comments with that comment's own cascade. *)
Definition delete_article (db : DB) (id : uuid) : list uuid * DB :=
  (map a_id (filter (fun a => N.eqb (a_id a) id) (articles db)),
   if has_article db id then
     fold_left
       (fun d r => delete_cascade (S (List.length (comments db))) r d)
       (map c_id (filter (fun c => N.eqb (c_article_id c) id) (comments db)))
       (mkDB (users db)
          (filter (fun a => negb (N.eqb (a_id a) id)) (articles db))
          (comments db) (comment_likes db))
   else db).

(** The handler of [DELETE /api/articles/:id] (routes/articles.js). *)
Definition deleteArticle_handler : Handler := fun w req db =>
  let not_found :=
    fail 404 "Article not found"
      "The article you are trying to delete does not exist" in
  match params_id req with
  | Some (NotUUID _) =>
      (fail 500 "Failed to delete article"
         "An error occurred while deleting the article", db)
  | None => (not_found, db)
  | Some (IsUUID id) =>
      match delete_article db id with
      | ([], db') => (not_found, db')
      | (_ :: _, db') => (json (MessageBody "Article deleted successfully"), db')
      end
  end.

Definition deleteArticle : Handler :=
  route [authenticateToken; requireOwnershipOrAdminOn articles_table]
    deleteArticle_handler.

(** The slug of a new article (routes/articles.js):
    [title.toLowerCase().replace(/[^a-z0-9\s-]/g, '').replace(/\s+/g, '-')
       .replace(/-+/g, '-').trim('-')]. *)
Definition hyphen : N := 45.

(** The lower case of a code unit, as far as the slug can show it: the
    letters [A-Z], and the two characters outside ASCII whose lower case
    holds an ASCII letter, the Kelvin sign U+212A ([k]) and the dotted
    capital I U+0130 ([i] and the combining dot U+0307). Every other
    letter that has a lower case changes to letters outside ASCII, which
    the first [replace] of the slug removes as it removes the letter
    itself; such letters are left as they are. *)
Definition lower (c : N) : jsstring :=
  if ((65 <=? c) && (c <=? 90))%N then [(c + 32)%N]
  else if (c =? 0x212A)%N then [107%N]
  else if (c =? 0x130)%N then [105%N; 0x307%N]
  else [c].

Definition is_lower_or_digit (c : N) : bool :=
  (((97 <=? c) && (c <=? 122)) || ((48 <=? c) && (c <=? 57)))%N.

Definition is_hyphen (c : N) : bool := N.eqb c hyphen.

Definition toLowerCase (s : jsstring) : jsstring := flat_map lower s.

(** [.replace(/[^a-z0-9\s-]/g, '')] *)
Definition strip_other (s : jsstring) : jsstring :=
  filter (fun c => is_lower_or_digit c || is_space c || is_hyphen c) s.

(** [.replace(/X+/g, '-')] for a class [X] of code units: every maximal run
    of them becomes one hyphen. *)
Fixpoint squeeze (X : N -> bool) (s : jsstring) : jsstring :=
  match s with
  | [] => []
  | c :: rest =>
      if X c then
        match rest with
        | [] => [hyphen]
        | d :: _ => if X d then squeeze X rest else hyphen :: squeeze X rest
        end
      else c :: squeeze X rest
  end.

(** [String.prototype.trim] takes no argument: the ['-'] is ignored and
    white space is trimmed. *)
Definition slug_of (title : jsstring) : jsstring :=
  trim (squeeze is_hyphen (squeeze is_space (strip_other (toLowerCase title)))).

(** ** More vocabulary *)

Fixpoint string_forallb (p : ascii -> bool) (s : string) : bool :=
  match s with
  | EmptyString => true
  | String c rest => p c && string_forallb p rest
  end.

Fixpoint no_double_hyphen (s : jsstring) : bool :=
  match s with
  | c :: (d :: _) as rest =>
      negb (is_hyphen c && is_hyphen d) && no_double_hyphen rest
  | _ => true
  end.

(** [x] is the comment [id] or one of its replies, replies of replies, and
    so on, in [db]. *)
Inductive descends (db : DB) (id : uuid) : uuid -> Prop :=
| descends_self : descends db id id
| descends_reply c p :
    descends db id p -> In c (comments db) -> c_parent_id c = Some p ->
    descends db id (c_id c).

Definition no_space (s : string) : bool :=
  string_forallb (fun c => negb (Ascii.eqb c " "%char)) s.

(** [ORDER BY likes_count DESC, c.created_at DESC] on the objects of the
    answer. *)
Definition most_liked_first (a b : CommentView) : Prop :=
  cv_likesCount b < cv_likesCount a \/
  (cv_likesCount a = cv_likesCount b /\ cv_createdAt b <= cv_createdAt a).

Definition starts_with_hyphen (s : jsstring) : bool :=
  match s with
  | c :: _ => is_hyphen c
  | [] => false
  end.

(** The characters of a slug: [a-z], [0-9] and the hyphen. *)
Definition slug_char (c : N) : bool := is_lower_or_digit c || is_hyphen c.


(** A stored text is one the store can hold: UTF-8 without the character
    U+0000. *)
Definition stored_text (s : jsstring) : Prop := text_param s = Rows s.

(** The [offset] the list handler computes. *)
Definition offset_of (req : Request) : Z :=
  number_mul (number_sub (page_of req) 1) (limit_of req).

(** The integer a query parameter asks for: the one its text denotes, or
    the default of the handler when the parameter is absent. *)
Definition asks (q : option QueryInt) (default n : Z) : Prop :=
  q = Some (IsInt n) \/ (q = None /\ n = default).

(** What the keys and constraints of schema.sql say about a store. *)
Record consistent (db : DB) : Prop := mkConsistent {
  users_pkey : NoDup (map u_id (users db));
  articles_pkey : NoDup (map a_id (articles db));
  comments_pkey : NoDup (map c_id (comments db));
  comment_likes_pkey : NoDup (map l_id (comment_likes db));
  comment_likes_unique :
    NoDup (map (fun l => (l_comment_id l, l_user_id l)) (comment_likes db));
  comments_article_fkey :
    forall c, In c (comments db) -> has_article db (c_article_id c) = true;
  comments_user_fkey :
    forall c, In c (comments db) -> has_user db (c_user_id c) = true;
  comments_parent_fkey :
    forall c p, In c (comments db) -> c_parent_id c = Some p ->
                has_comment db p = true;
  comment_likes_comment_fkey :
    forall l, In l (comment_likes db) -> has_comment db (l_comment_id l) = true;
  comment_likes_user_fkey :
    forall l, In l (comment_likes db) -> has_user db (l_user_id l) = true
}.

(** The routes of the comment router and the article delete. *)
Definition serve_any (db : DB) (c : Call + World * Request) : DB :=
  match c with
  | inl call => serve db call
  | inr (w, req) => snd (deleteArticle w req db)
  end.

(** * Properties *)

(** ** Numbers and text *)

Lemma to_number_exact n : 0 <= n <= 2 ^ 53 -> to_number n = n.
Proof.
  intros [L U]. unfold to_number.
  destruct (Z.eq_dec n (2 ^ 53)) as [->|N]; [reflexivity|].
  destruct (Z.eq_dec n 0) as [->|P]; [reflexivity|].
  assert (Z.log2 (Z.abs n) < 53) as B.
  { rewrite Z.abs_eq by lia. apply Z.log2_lt_pow2; lia. }
  destruct (Z.leb_spec (Z.log2 (Z.abs n) - 52) 0); [reflexivity|lia].
Qed.

Lemma to_number_beyond n : 2 ^ 53 <= n -> 2 ^ 53 <= to_number n.
Proof.
  intros L. unfold to_number. rewrite Z.abs_eq by lia.
  set (k := Z.log2 n - 52).
  destruct (Z.leb_spec k 0) as [K|K]; [exact L|].
  assert (P : 0 < 2 ^ k) by (apply Z.pow_pos_nonneg; lia).
  assert (Q : 2 ^ 52 <= n / 2 ^ k).
  { apply Z.div_le_lower_bound; [exact P|].
    rewrite Z.mul_comm, <- Z.pow_add_r by lia.
    replace (52 + k) with (Z.log2 n) by (unfold k; lia).
    apply Z.log2_spec. lia. }
  assert (T : 2 <= 2 ^ k).
  { change 2 with (2 ^ 1) at 1. apply Z.pow_le_mono_r; lia. }
  assert (2 ^ 53 <= n / 2 ^ k * 2 ^ k).
  { change (2 ^ 53) with (2 ^ 52 * 2). apply Z.mul_le_mono_nonneg; lia. }
  destruct (_ || _); lia.
Qed.

Lemma to_number_min n : 0 <= n -> Z.min n (2 ^ 53) <= to_number n.
Proof.
  intros L. destruct (Z.le_gt_cases n (2 ^ 53)) as [H|H].
  - rewrite to_number_exact; lia.
  - pose proof (to_number_beyond n ltac:(lia)). lia.
Qed.

Lemma offset_exact p l :
  1 <= p -> 1 <= l -> (p - 1) * l < 2 ^ 53 ->
  number_mul (number_sub (to_number p) 1) l = (p - 1) * l.
Proof.
  intros P L B. assert (p - 1 < 2 ^ 53) by nia.
  unfold number_mul, number_sub.
  rewrite (to_number_exact p) by lia.
  rewrite (to_number_exact (p - 1)) by lia.
  apply to_number_exact. nia.
Qed.

Lemma offset_beyond p l :
  1 <= p -> 1 <= l -> 2 ^ 53 <= (p - 1) * l ->
  2 ^ 53 - 1 <= number_mul (number_sub (to_number p) 1) l.
Proof.
  intros P L B. unfold number_mul, number_sub.
  pose proof (to_number_min p ltac:(lia)) as M1.
  pose proof (to_number_min (to_number p - 1) ltac:(lia)) as M2.
  set (s := to_number (to_number p - 1)) in *.
  assert (S1 : Z.min (p - 1) (2 ^ 53 - 1) <= s) by lia.
  assert (S2 : 2 ^ 53 - 1 <= s * l).
  { destruct (Z.le_gt_cases (p - 1) (2 ^ 53 - 1)) as [H|H].
    - assert ((p - 1) * l <= s * l) by (apply Z.mul_le_mono_nonneg_r; lia). lia.
    - assert ((2 ^ 53 - 1) * 1 <= s * l) by (apply Z.mul_le_mono_nonneg; lia).
      lia. }
  pose proof (to_number_min (s * l) ltac:(lia)). lia.
Qed.

(** Up to [2 ^ 53] a page is held exactly; beyond, it is rounded to a
    neighbour, on a tie to the even one. *)
Example numbers_round :
  to_number 9007199254740992 = 9007199254740992 /\
  to_number 9007199254740993 = 9007199254740992 /\
  to_number 9007199254740995 = 9007199254740996 /\
  to_number 9223372036854775807 = 9223372036854775808.
Proof. repeat split. Qed.





Lemma high_not_low c :
  is_high_surrogate c = true -> is_low_surrogate c = false.
Proof.
  unfold is_low_surrogate, is_high_surrogate. intros H.
  apply andb_prop in H. destruct H as [H1 H2].
  apply N.leb_le in H1, H2. apply andb_false_iff. left. apply N.leb_gt. lia.
Qed.









(** ** The guards *)

Lemma authenticateToken_next w req db req' :
  authenticateToken w req db = inr req' ->
  exists token uid u,
    bearer_token req = Some token /\ jwt_verify w token = Decoded uid /\
    select_user db uid = Some u /\ u_is_active u = true /\
    req' = with_user req u.
Proof.
  unfold authenticateToken.
  destruct (bearer_token req) as [[|c token]|]; try discriminate.
  destruct (jwt_verify w (String c token)) as [uid|name] eqn:V.
  - destruct (select_user db uid) as [u|] eqn:U; try discriminate.
    destruct (u_is_active u) eqn:A; simpl; try discriminate.
    intros [= <-]. now exists (String c token), uid, u.
  - destruct (String.eqb name "TokenExpiredError"); discriminate.
Qed.

Lemma authenticated_active w req db u :
  authenticated w req db u ->
  In u (users db) /\ has_user db (u_id u) = true /\ u_is_active u = true.
Proof.
  intros H. apply authenticateToken_next in H.
  destruct H as (token & uid & u' & _ & _ & U & A & E).
  assert (u' = u) as -> by (unfold with_user in E; congruence).
  unfold select_user in U. apply find_some in U. destruct U as [I Q].
  repeat split; auto.
  unfold has_user. apply existsb_exists. exists u. split; auto.
  apply N.eqb_eq. apply N.eqb_eq in Q. now rewrite Q.
Qed.

(** The guard reads the [users] table and nothing else. *)
Lemma authenticateToken_users w req db db' :
  users db' = users db ->
  authenticateToken w req db' = authenticateToken w req db.
Proof.
  intros E. unfold authenticateToken, select_user. now rewrite E.
Qed.

(** A missing token is answered 401. *)
Lemma authenticateToken_missing w req db :
  bearer_token req = None \/ bearer_token req = Some "" ->
  authenticateToken w req db =
  inl (fail 401 "Access token required"
         "Please provide a valid authentication token").
Proof.
  unfold authenticateToken. now intros [-> | ->].
Qed.

(** An expired token is answered 401. *)
Lemma authenticateToken_expired w req db token :
  bearer_token req = Some token -> token <> "" ->
  jwt_verify w token = VerifyError "TokenExpiredError" ->
  authenticateToken w req db =
  inl (fail 401 "Token expired"
         "Your authentication token has expired. Please log in again.").
Proof.
  unfold authenticateToken. intros -> N V.
  destruct token; [contradiction|]. now rewrite V.
Qed.

(** C2, as the code has it: a bearer token that the verifier rejects for any
    reason other than its expiry (a malformed token, a bad signature) is
    answered with status 403 and the error [Invalid token]; 401 is kept for
    the missing and the expired token. *)
Theorem authenticateToken_invalid_token w req db token name :
  bearer_token req = Some token -> token <> "" ->
  jwt_verify w token = VerifyError name ->
  name <> "TokenExpiredError" ->
  authenticateToken w req db =
  inl (fail 403 "Invalid token" "The provided authentication token is invalid").
Proof.
  unfold authenticateToken. intros -> N V E.
  destruct token; [contradiction|]. rewrite V.
  apply String.eqb_neq in E. now rewrite E.
Qed.

Lemma authenticateToken_invalid_token_witness :
  authenticateToken (Sample.world 2000 900) (Sample.bearer "tampered.jwt")
    Sample.db =
  inl (fail 403 "Invalid token" "The provided authentication token is invalid").
Proof.
  apply (authenticateToken_invalid_token (Sample.world 2000 900)
           (Sample.bearer "tampered.jwt") Sample.db "tampered.jwt"
           "JsonWebTokenError").
  - reflexivity.
  - discriminate.
  - reflexivity.
  - discriminate.
Defined.

(** C2 as it is written fails: the verifier rejects the token below with a
    [JsonWebTokenError], and the guard answers 403, not 401. *)
Lemma invalid_token_is_not_401 :
  jwt_verify (Sample.world 2000 900) "invalid-token"
  = VerifyError "JsonWebTokenError" /\
  exists resp,
    authenticateToken (Sample.world 2000 900) (Sample.bearer "invalid-token")
      Sample.db = inl resp
    /\ status resp = 403 /\ status resp <> 401.
Proof.
  split; [reflexivity|].
  eexists. split; [reflexivity|]. split; [reflexivity|discriminate].
Qed.

(** C1 at a failing input: Alice has the role [user], her comment 103 waits
    for moderation, and her own [PUT /comments/103/approve] is answered 200
    and leaves the comment approved. *)
Theorem approve_by_owner_without_admin_role :
  u_role Sample.alice = role_user /\
  authenticated (Sample.world 2000 900)
    (Sample.on_comment "alice.jwt" 103) Sample.db Sample.alice /\
  approval Sample.db 103 = Some false /\
  fst (approveComment (Sample.world 2000 900)
         (Sample.on_comment "alice.jwt" 103) Sample.db)
  = json (ApprovedBody "Comment approved successfully" 103 true) /\
  approval
    (snd (approveComment (Sample.world 2000 900)
            (Sample.on_comment "alice.jwt" 103) Sample.db)) 103
  = Some true.
Proof. repeat split. Qed.

Lemma route_authenticated h w req db u :
  authenticated w req db u ->
  route [authenticateToken] h w req db = h w (with_user req u) db.
Proof. unfold authenticated. simpl. now intros ->. Qed.

Lemma route_rejected ms h w req db resp :
  authenticateToken w req db = inl resp ->
  route (authenticateToken :: ms) h w req db = (resp, db).
Proof. simpl. now intros ->. Qed.

(** ** Toggle like *)

Lemma select_like_has_like db c u :
  select_like db c u = [] <-> has_like db c u = false.
Proof.
  unfold select_like, has_like.
  induction (comment_likes db) as [|l ls IH]; simpl; [tauto|].
  destruct (N.eqb (l_comment_id l) c && N.eqb (l_user_id l) u); simpl.
  - split; discriminate.
  - exact IH.
Qed.

Lemma select_approved_has_comment db id :
  select_approved_comment db id <> [] -> has_comment db id = true.
Proof.
  unfold select_approved_comment, has_comment.
  induction (comments db) as [|c cs IH]; simpl; [congruence|].
  destruct (N.eqb (c_id c) id); simpl; auto.
Qed.

(** C3, as the code has it: when the [INSERT] of the like row raises the
    uniqueness violation (another request wrote the row of the same comment
    and user after this request looked for it), the operation answers 500
    [Failed to toggle comment like] and writes nothing. *)
Theorem toggleLike_unique_violation before_check before_write w req db u id :
  authenticated w req db u ->
  params_id req = Some (IsUUID id) ->
  select_approved_comment db id <> [] ->
  select_like (before_check db) id (u_id u) = [] ->
  insert_like (before_write (before_check db)) (gen_uuid w) (now w) id (u_id u)
  = Raised unique_violation ->
  toggleLike_among before_check before_write w req db
  = (fail 500 "Failed to toggle comment like"
       "An error occurred while processing your like",
     before_write (before_check db)).
Proof.
  intros A P C L I. unfold toggleLike_among.
  rewrite (route_authenticated _ _ _ _ _ A).
  unfold toggleLike_handler_among. cbn [params_id user with_user]. rewrite P.
  destruct (select_approved_comment db id); [congruence|].
  now rewrite L, I.
Qed.

Lemma toggleLike_unique_violation_witness :
  toggleLike_among (fun d => d)
    (fun d => serve d (POST_like, Sample.world 2000 900,
                       Sample.on_comment "alice.jwt" 100))
    (Sample.world 2001 901) (Sample.on_comment "alice.jwt" 100) Sample.db
  = (fail 500 "Failed to toggle comment like"
       "An error occurred while processing your like",
     serve Sample.db (POST_like, Sample.world 2000 900,
                      Sample.on_comment "alice.jwt" 100)).
Proof.
  apply (toggleLike_unique_violation (fun d => d)
           (fun d => serve d (POST_like, Sample.world 2000 900,
                              Sample.on_comment "alice.jwt" 100))
           (Sample.world 2001 901) (Sample.on_comment "alice.jwt" 100)
           Sample.db Sample.alice 100%N).
  - reflexivity.
  - reflexivity.
  - discriminate.
  - reflexivity.
  - reflexivity.
Defined.

(** C3 as it is written fails. Alice sends the same like twice at once; both
    requests find no like row; the first one inserts it; the [INSERT] of the
    second one then violates [UNIQUE(comment_id, user_id)], although its own
    generated key is new, and the second request is answered 500. *)
Lemma like_race_loser_is_answered_500 :
  let req := Sample.on_comment "alice.jwt" 100 in
  let winner d := serve d (POST_like, Sample.world 2000 900, req) in
  has_like Sample.db 100 1 = false /\
  has_like_id (winner Sample.db) 901 = false /\
  insert_like (winner Sample.db) 901 2001 100 1 = Raised unique_violation /\
  status (fst (toggleLike_among (fun d => d) winner (Sample.world 2001 901)
                 req Sample.db)) = 500 /\
  status (fst (toggleLike_among (fun d => d) winner (Sample.world 2001 901)
                 req Sample.db)) <> 200.
Proof. repeat split. discriminate. Qed.

Lemma has_like_delete_like db c u c' u' :
  has_like (delete_like db c u) c' u'
  = has_like db c' u' && negb (same_pair c u c' u').
Proof.
  unfold has_like, delete_like, same_pair. simpl.
  induction (comment_likes db) as [|l ls IH]; simpl; [reflexivity|].
  destruct (N.eqb (l_comment_id l) c && N.eqb (l_user_id l) u) eqn:E1;
    simpl; rewrite IH;
    destruct (N.eqb (l_comment_id l) c' && N.eqb (l_user_id l) u') eqn:E2;
    simpl; try reflexivity;
    apply andb_prop in E2; destruct E2 as [Ec Eu];
    apply N.eqb_eq in Ec, Eu; subst c' u'.
  - rewrite E1. simpl. now rewrite andb_false_r.
  - now rewrite E1.
Qed.

Lemma has_like_append db g t c u c' u' :
  has_like (set_likes db (comment_likes db ++ [mkLike g c u t])) c' u'
  = has_like db c' u' || same_pair c u c' u'.
Proof.
  unfold has_like, set_likes, same_pair. simpl.
  rewrite existsb_app. simpl. rewrite orb_false_r.
  now rewrite (N.eqb_sym c c'), (N.eqb_sym u u').
Qed.

Lemma has_like_id_delete_like db c u g :
  has_like_id db g = false -> has_like_id (delete_like db c u) g = false.
Proof.
  unfold has_like_id, delete_like. simpl.
  induction (comment_likes db) as [|l ls IH]; simpl; [reflexivity|].
  intros H. apply orb_false_elim in H. destruct H as [H1 H2].
  destruct (negb _); simpl; [rewrite H1|]; auto.
Qed.

(** One toggle, served alone by a user the guard let through, on an
    approved comment; when a row is to be inserted, its generated key is
    new. *)
Lemma toggleLike_once w req db u id :
  authenticated w req db u ->
  params_id req = Some (IsUUID id) ->
  select_approved_comment db id <> [] ->
  (has_like db id (u_id u) = false -> has_like_id db (gen_uuid w) = false) ->
  toggleLike w req db =
  if has_like db id (u_id u)
  then (json (LikeBody "Comment unliked successfully" false),
        delete_like db id (u_id u))
  else (json (LikeBody "Comment liked successfully" true),
        set_likes db
          (comment_likes db ++ [mkLike (gen_uuid w) id (u_id u) (now w)])).
Proof.
  intros A P C G. unfold toggleLike, toggleLike_among.
  rewrite (route_authenticated _ _ _ _ _ A).
  unfold toggleLike_handler_among. cbn [params_id user with_user]. rewrite P.
  pose proof (select_approved_has_comment _ _ C) as HC.
  destruct (select_approved_comment db id); [congruence|].
  destruct (has_like db id (u_id u)) eqn:L.
  - destruct (select_like db id (u_id u)) eqn:S; [|reflexivity].
    apply select_like_has_like in S. congruence.
  - specialize (G eq_refl).
    apply select_like_has_like in L. rewrite L.
    apply select_like_has_like in L.
    destruct (authenticated_active _ _ _ _ A) as (_ & HU & _).
    unfold insert_like. now rewrite G, L, HC, HU.
Qed.

(** C7: on an approved comment, one toggle by an authenticated user reports
    the negation of "the like row of (comment, user) existed" and flips the
    existence of that row; a second toggle by the same user reports the
    original value and puts the like relation back where it was, for every
    (comment, user) pair. The keys the store generates for new like rows
    are new. *)
Theorem toggleLike_twice verify t1 g1 t2 g2 req db u id :
  authenticated (mkWorld verify t1 g1) req db u ->
  params_id req = Some (IsUUID id) ->
  select_approved_comment db id <> [] ->
  has_like_id db g1 = false ->
  has_like_id db g2 = false ->
  let liked := has_like db id (u_id u) in
  let first := toggleLike (mkWorld verify t1 g1) req db in
  let second := toggleLike (mkWorld verify t2 g2) req (snd first) in
  (exists m, fst first = json (LikeBody m (negb liked))) /\
  has_like (snd first) id (u_id u) = negb liked /\
  (exists m, fst second = json (LikeBody m liked)) /\
  (forall c' u', has_like (snd second) c' u' = has_like db c' u').
Proof.
  intros A P C G1 G2 liked first second.
  assert (F : first =
    if liked
    then (json (LikeBody "Comment unliked successfully" false),
          delete_like db id (u_id u))
    else (json (LikeBody "Comment liked successfully" true),
          set_likes db (comment_likes db ++ [mkLike g1 id (u_id u) t1]))).
  { subst first liked.
    now rewrite (toggleLike_once _ _ _ _ _ A P C (fun _ => G1)). }
  assert (A2 : authenticated (mkWorld verify t2 g2) req (snd first) u).
  { unfold authenticated.
    rewrite (authenticateToken_users _ _ db (snd first)); [exact A|].
    rewrite F. now destruct liked. }
  assert (C2 : select_approved_comment (snd first) id <> []).
  { rewrite F. now destruct liked. }
  assert (L1 : has_like (snd first) id (u_id u) = negb liked).
  { rewrite F. destruct liked; simpl snd.
    - rewrite has_like_delete_like. unfold same_pair.
      rewrite !N.eqb_refl. simpl. now rewrite andb_false_r.
    - rewrite has_like_append. unfold same_pair.
      rewrite !N.eqb_refl. simpl. now rewrite orb_true_r. }
  assert (G : has_like (snd first) id (u_id u) = false ->
              has_like_id (snd first) (gen_uuid (mkWorld verify t2 g2)) = false).
  { intros H. rewrite L1 in H. destruct liked; [|discriminate].
    rewrite F. simpl. now apply has_like_id_delete_like. }
  pose proof (toggleLike_once _ _ _ _ _ A2 P C2 G) as S.
  fold second in S. rewrite L1 in S. clear G A2 C2.
  assert (R : forall c' u',
             same_pair id (u_id u) c' u' = true -> has_like db c' u' = liked).
  { unfold same_pair. intros c' u' E. apply andb_prop in E.
    destruct E as [E1 E2]. apply N.eqb_eq in E1, E2. now subst. }
  destruct liked; simpl in S, F; (split; [|split; [|split]]);
    try (rewrite F; simpl; eauto; fail);
    try (rewrite S; simpl; eauto; fail);
    try exact L1;
    intros c' u'; specialize (R c' u'); rewrite S; simpl snd;
    cbn [gen_uuid now].
  - rewrite has_like_append, F. simpl snd. rewrite has_like_delete_like.
    destruct (same_pair id (u_id u) c' u'); simpl.
    + rewrite andb_false_r. simpl. symmetry. now apply R.
    + now rewrite andb_true_r, orb_false_r.
  - rewrite has_like_delete_like, F. simpl snd. rewrite has_like_append.
    destruct (same_pair id (u_id u) c' u'); simpl.
    + rewrite andb_false_r. symmetry. now apply R.
    + now rewrite andb_true_r, orb_false_r.
Qed.

Lemma toggleLike_twice_witness :
  let first :=
    toggleLike (Sample.world 2000 900) (Sample.on_comment "bob.jwt" 100)
      Sample.db in
  let second :=
    toggleLike (Sample.world 2001 901) (Sample.on_comment "bob.jwt" 100)
      (snd first) in
  (exists m, fst first = json (LikeBody m false)) /\
  has_like (snd first) 100 2 = false /\
  (exists m, fst second = json (LikeBody m true)) /\
  (forall c' u', has_like (snd second) c' u' = has_like Sample.db c' u').
Proof.
  apply (toggleLike_twice Sample.verify 2000 900%N 2001 901%N
           (Sample.on_comment "bob.jwt" 100) Sample.db Sample.bob 100%N).
  - reflexivity.
  - reflexivity.
  - discriminate.
  - reflexivity.
  - reflexivity.
Defined.

(** ** The guarded routes *)

Lemma authenticateToken_answer w req db resp :
  authenticateToken w req db = inl resp -> 400 <= status resp.
Proof.
  unfold authenticateToken.
  destruct (bearer_token req) as [[|c token]|];
    try (intros [= <-]; simpl; lia).
  destruct (jwt_verify w (String c token)) as [uid|name].
  - destruct (select_user db uid) as [u|]; try (intros [= <-]; simpl; lia).
    destruct (u_is_active u); simpl; [discriminate|].
    intros [= <-]; simpl; lia.
  - destruct (String.eqb name "TokenExpiredError"); intros [= <-]; simpl; lia.
Qed.

Lemma requireOwnershipOrAdmin_answer w req db resp :
  requireOwnershipOrAdmin w req db = inl resp -> 400 <= status resp.
Proof.
  unfold requireOwnershipOrAdmin.
  destruct (user req) as [u|]; [|intros [= <-]; simpl; lia].
  destruct (is_admin (u_role u)); [discriminate|].
  destruct (negb (truthy _)); [intros [= <-]; simpl; lia|].
  destruct (if truthy (params_id req) then params_id req else body_id req)
    as [[id|raw]|]; try (intros [= <-]; simpl; lia).
  destruct (select_owner db id) as [|owner rest];
    [intros [= <-]; simpl; lia|].
  destruct (negb (N.eqb owner (u_id u))); [intros [= <-]; simpl; lia|].
  discriminate.
Qed.

Lemma requireOwnershipOrAdmin_next w req db req' :
  requireOwnershipOrAdmin w req db = inr req' -> req' = req.
Proof.
  unfold requireOwnershipOrAdmin.
  destruct (user req) as [u|]; [|discriminate].
  destruct (is_admin (u_role u)); [now intros [= <-]|].
  destruct (negb (truthy _)); [discriminate|].
  destruct (if truthy (params_id req) then params_id req else body_id req)
    as [[id|raw]|]; try discriminate.
  destruct (select_owner db id) as [|owner rest]; [discriminate|].
  destruct (negb (N.eqb owner (u_id u))); [discriminate|].
  now intros [= <-].
Qed.

(** A route behind both guards answers below 400 only when both guards let
    the request through. *)
Lemma guarded_route_served h w req db resp db' :
  route [authenticateToken; requireOwnershipOrAdmin] h w req db = (resp, db') ->
  status resp < 400 ->
  exists u,
    authenticated w req db u /\
    requireOwnershipOrAdmin w (with_user req u) db = inr (with_user req u) /\
    h w (with_user req u) db = (resp, db').
Proof.
  simpl. intros R St.
  destruct (authenticateToken w req db) as [r|req1] eqn:A.
  - injection R as <- <-. apply authenticateToken_answer in A. lia.
  - destruct (authenticateToken_next _ _ _ _ A) as (_ & _ & u & _ & _ & _ & _ & ->).
    destruct (requireOwnershipOrAdmin w (with_user req u) db) as [r|req2] eqn:O.
    + injection R as <- <-. apply requireOwnershipOrAdmin_answer in O. lia.
    + pose proof (requireOwnershipOrAdmin_next _ _ _ _ O) as ->.
      exists u. now repeat split.
Qed.

(** ** Delete and its cascade *)

Lemma filter_filter {A} (f g : A -> bool) (l : list A) :
  filter g (filter f l) = filter (fun x => f x && g x) l.
Proof.
  induction l as [|x l IH]; simpl; [reflexivity|].
  destruct (f x); simpl; [destruct (g x)|]; now rewrite IH.
Qed.

Lemma filter_all {A} (l : list A) : filter (fun _ => true) l = l.
Proof. induction l; simpl; congruence. Qed.

Lemma mem_app x s1 s2 : mem x (s1 ++ s2) = mem x s1 || mem x s2.
Proof. unfold mem. apply existsb_app. Qed.

Lemma prune_nil db : prune [] db = db.
Proof. destruct db. unfold prune. simpl. now rewrite !filter_all. Qed.

Lemma prune_prune s1 s2 db : prune s2 (prune s1 db) = prune (s1 ++ s2) db.
Proof.
  unfold prune. simpl. rewrite !filter_filter. f_equal; apply filter_ext;
    intros x; rewrite mem_app; now rewrite negb_orb.
Qed.

Lemma prune_one id db :
  mkDB (users db) (articles db)
    (filter (fun c => negb (N.eqb (c_id c) id)) (comments db))
    (filter (fun l => negb (N.eqb (l_comment_id l) id)) (comment_likes db))
  = prune [id] db.
Proof.
  unfold prune, mem. f_equal; apply filter_ext; intros x; simpl;
    now rewrite orb_false_r.
Qed.

Lemma fold_prune (step : DB -> uuid -> DB) :
  (forall d r, exists ids, step d r = prune ids d) ->
  forall l d, exists ids, fold_left step l d = prune ids d.
Proof.
  intros H l. induction l as [|r l IH]; intros d; simpl.
  - exists []. now rewrite prune_nil.
  - destruct (H d r) as [s1 E1]. destruct (IH (step d r)) as [s2 E2].
    exists (s1 ++ s2)%list. now rewrite E2, E1, prune_prune.
Qed.

Lemma delete_cascade_S f id db :
  delete_cascade (S f) id db =
  if has_comment db id then
    fold_left (fun d r => delete_cascade f r d)
      (map c_id (filter (fun c => opt_uuid_is (c_parent_id c) id) (comments db)))
      (prune [id] db)
  else db.
Proof. cbn [delete_cascade]. now rewrite prune_one. Qed.

(** Whatever the fuel, a cascade only removes comments, by id, and the like
    rows of the comments it removes. *)
Lemma delete_cascade_prune fuel :
  forall id db, exists ids, delete_cascade fuel id db = prune ids db.
Proof.
  induction fuel as [|f IH]; intros id db.
  - exists []. now rewrite prune_nil.
  - rewrite delete_cascade_S. destruct (has_comment db id).
    + destruct (fold_prune (fun d r => delete_cascade f r d)
                  (fun d r => IH r d)
                  (map c_id
                     (filter (fun c => opt_uuid_is (c_parent_id c) id)
                        (comments db)))
                  (prune [id] db)) as [s E].
      exists ([id] ++ s)%list. now rewrite E, prune_prune.
    + exists []. now rewrite prune_nil.
Qed.

Lemma has_comment_In db id :
  has_comment db id = true <-> exists c, In c (comments db) /\ c_id c = id.
Proof.
  unfold has_comment. rewrite existsb_exists.
  split; intros (c & I & E); exists c; split; auto; now apply N.eqb_eq.
Qed.

Lemma prune_comments ids db c :
  In c (comments (prune ids db)) ->
  In c (comments db) /\ mem (c_id c) ids = false.
Proof.
  unfold prune. simpl. rewrite filter_In. intros [I M]. split; auto.
  now apply negb_true_iff.
Qed.

Lemma prune_likes ids db l :
  In l (comment_likes (prune ids db)) ->
  In l (comment_likes db) /\ mem (l_comment_id l) ids = false.
Proof.
  unfold prune. simpl. rewrite filter_In. intros [I M]. split; auto.
  now apply negb_true_iff.
Qed.

Lemma prune_has_comment ids db id :
  has_comment db id = false -> has_comment (prune ids db) id = false.
Proof.
  intros H. destruct (has_comment (prune ids db) id) eqn:E; [|reflexivity].
  apply has_comment_In in E. destruct E as (c & I & Q).
  apply prune_comments in I. destruct I as [I _].
  assert (has_comment db id = true) by (apply has_comment_In; eauto).
  congruence.
Qed.

Lemma prune_one_has_comment id db : has_comment (prune [id] db) id = false.
Proof.
  destruct (has_comment (prune [id] db) id) eqn:E; [|reflexivity].
  apply has_comment_In in E. destruct E as (c & I & Q).
  apply prune_comments in I. destruct I as [_ M].
  unfold mem in M. simpl in M. rewrite Q, N.eqb_refl in M. discriminate.
Qed.

(** With fuel left, the comment itself is gone after its cascade. *)
Lemma delete_cascade_removes f id db :
  has_comment (delete_cascade (S f) id db) id = false.
Proof.
  rewrite delete_cascade_S. destruct (has_comment db id) eqn:H; [|exact H].
  destruct (fold_prune (fun d r => delete_cascade f r d)
              (fun d r => delete_cascade_prune f r d)
              (map c_id
                 (filter (fun c => opt_uuid_is (c_parent_id c) id)
                    (comments db)))
              (prune [id] db)) as [s E].
  rewrite E. apply prune_has_comment, prune_one_has_comment.
Qed.

Lemma fold_cascade_removes f replies :
  forall d r, In r replies ->
  has_comment (fold_left (fun d r => delete_cascade (S f) r d) replies d) r
  = false.
Proof.
  induction replies as [|r0 l IH]; intros d r I; [contradiction|].
  cbn [fold_left]. destruct I as [-> | I]; [|now apply IH].
  destruct (fold_prune (fun d r => delete_cascade (S f) r d)
              (fun d r => delete_cascade_prune (S f) r d) l
              (delete_cascade (S f) r d)) as [s E].
  rewrite E. apply prune_has_comment, delete_cascade_removes.
Qed.

(** What [DELETE FROM comments WHERE id = $1] leaves when the comment is
    there: neither the comment, nor a like row of it, nor a reply to it. *)
Lemma delete_comment_cascades db id :
  has_comment db id = true ->
  let db' := snd (delete_comment db id) in
  users db' = users db /\ articles db' = articles db /\
  has_comment db' id = false /\
  (forall l, In l (comment_likes db') -> l_comment_id l <> id) /\
  (forall c, In c (comments db') -> c_parent_id c <> Some id).
Proof.
  intros H. unfold delete_comment. cbn [snd].
  destruct (delete_cascade_prune (S (List.length (comments db))) id db)
    as [s0 E0].
  repeat split.
  - now rewrite E0.
  - now rewrite E0.
  - apply delete_cascade_removes.
  - intros l I Q.
    revert I. rewrite delete_cascade_S, H.
    destruct (fold_prune (fun d r => delete_cascade (List.length (comments db)) r d)
                (fun d r => delete_cascade_prune _ r d)
                (map c_id
                   (filter (fun c => opt_uuid_is (c_parent_id c) id)
                      (comments db)))
                (prune [id] db)) as [s E].
    rewrite E. intros I. apply prune_likes in I. destruct I as [I _].
    apply prune_likes in I. destruct I as [_ M].
    unfold mem in M. simpl in M. rewrite Q, N.eqb_refl in M. discriminate.
  - intros c I Q.
    assert (Ic : In c (comments db)).
    { rewrite E0 in I. now apply prune_comments in I. }
    assert (has_comment (delete_cascade (S (List.length (comments db))) id db)
              (c_id c) = true) as T by (apply has_comment_In; eauto).
    assert (has_comment (delete_cascade (S (List.length (comments db))) id db)
              (c_id c) = false) as F; [|congruence].
    clear T I. rewrite delete_cascade_S, H.
    assert (exists n, List.length (comments db) = S n) as [n ->].
    { destruct (comments db); [contradiction|]. simpl. eauto. }
    apply fold_cascade_removes.
    apply in_map, filter_In. split; [exact Ic|].
    rewrite Q. simpl. apply N.eqb_refl.
Qed.

(** *** The cascade is complete *)

Lemma cascade_closed_refl db : cascade_closed db db.
Proof.
  repeat split; auto. exists []. now rewrite prune_nil.
Qed.

Lemma cascade_closed_trans a b c :
  cascade_closed a b -> cascade_closed b c -> cascade_closed a c.
Proof.
  intros ([s1 E1] & P1 & L1) ([s2 E2] & P2 & L2). repeat split.
  - exists (s1 ++ s2)%list. now rewrite E2, E1, prune_prune.
  - intros x p I Q H. apply (P2 x p I Q). apply (P1 x p); auto.
    rewrite E2 in I. now apply prune_comments in I.
  - intros l I H. apply (L2 l I). apply (L1 l); auto.
    rewrite E2 in I. now apply prune_likes in I.
Qed.

Lemma prune_length ids db :
  (List.length (comments (prune ids db)) <= List.length (comments db))%nat.
Proof. unfold prune. simpl. apply filter_length_le. Qed.

Lemma filter_drops_one {A} (keep : A -> bool) (l : list A) x :
  In x l -> keep x = false ->
  (List.length (filter keep l) < List.length l)%nat.
Proof.
  induction l as [|y l IH]; simpl; [contradiction|].
  intros [-> | I] K.
  - rewrite K. pose proof (filter_length_le keep l). lia.
  - specialize (IH I K). destruct (keep y); simpl; lia.
Qed.

Lemma prune_one_length id db :
  has_comment db id = true ->
  (List.length (comments (prune [id] db)) < List.length (comments db))%nat.
Proof.
  intros H. apply has_comment_In in H. destruct H as (c & I & Q).
  unfold prune. simpl. apply (filter_drops_one _ _ c I).
  unfold mem. simpl. now rewrite Q, N.eqb_refl.
Qed.

Lemma prune_one_keeps id db p :
  p <> id -> has_comment db p = true -> has_comment (prune [id] db) p = true.
Proof.
  intros N H. apply has_comment_In in H. destruct H as (c & I & Q).
  apply has_comment_In. exists c. split; [|exact Q].
  unfold prune. simpl. apply filter_In. split; [exact I|].
  unfold mem. simpl. rewrite Q, orb_false_r.
  apply negb_true_iff. now apply N.eqb_neq.
Qed.

Lemma fold_cascade_closed f :
  (forall id d, (List.length (comments d) < f)%nat ->
                cascade_closed d (delete_cascade f id d)) ->
  forall replies d,
    (List.length (comments d) < f)%nat ->
    cascade_closed d (fold_left (fun d r => delete_cascade f r d) replies d).
Proof.
  intros IH replies.
  induction replies as [|r l IHl]; intros d B; cbn [fold_left].
  - apply cascade_closed_refl.
  - pose proof (IH r d B) as C1.
    apply (cascade_closed_trans _ _ _ C1). apply IHl.
    destruct C1 as ([s E] & _). rewrite E.
    pose proof (prune_length s d). lia.
Qed.

(** With more fuel than comments the cascade never stops early: whatever
    referred to a removed comment has been removed as well. *)
Lemma delete_cascade_closed fuel :
  forall id db,
    (List.length (comments db) < fuel)%nat ->
    cascade_closed db (delete_cascade fuel id db).
Proof.
  induction fuel as [|f IH]; intros id db B; [lia|].
  rewrite delete_cascade_S.
  destruct (has_comment db id) eqn:H; [|apply cascade_closed_refl].
  pose proof (prune_one_length _ _ H) as B1.
  assert (exists n, f = S n) as [n Ef] by (destruct f; [lia|eauto]).
  pose proof (fold_cascade_closed f IH
                (map c_id
                   (filter (fun c => opt_uuid_is (c_parent_id c) id)
                      (comments db)))
                (prune [id] db) ltac:(lia)) as C.
  set (db' := fold_left _ _ _) in *.
  destruct C as ([s E] & P & L). repeat split.
  - exists ([id] ++ s)%list. now rewrite E, prune_prune.
  - intros c p I Q Hp.
    destruct (N.eq_dec p id) as [-> | Np].
    + exfalso.
      assert (Ic : In c (comments db)).
      { rewrite E in I. apply prune_comments in I. destruct I as [I _].
        now apply prune_comments in I. }
      assert (has_comment db' (c_id c) = true) as T
          by (apply has_comment_In; eauto).
      assert (has_comment db' (c_id c) = false) as F; [|congruence].
      subst db' f. apply fold_cascade_removes.
      apply in_map, filter_In. split; [exact Ic|].
      rewrite Q. simpl. apply N.eqb_refl.
    + apply (P c p I Q). now apply prune_one_keeps.
  - intros l I Hl. apply (L l I). apply prune_one_keeps; [|exact Hl].
    rewrite E in I. apply prune_likes in I. destruct I as [I _].
    apply prune_likes in I. destruct I as [_ M].
    unfold mem in M. simpl in M. rewrite orb_false_r in M.
    now apply N.eqb_neq.
Qed.

(** A delete keeps the store free of dangling references: the foreign keys
    [parent_id] and [comment_id] hold after it when they held before. *)
Lemma delete_comment_no_dangling db id :
  no_dangling db -> no_dangling (snd (delete_comment db id)).
Proof.
  intros [P L]. unfold delete_comment. cbn [snd].
  destruct (delete_cascade_closed (S (List.length (comments db))) id db
              ltac:(lia)) as ([s E] & P' & L').
  split.
  - intros c p I Q. apply (P' c p I Q). apply (P c p); auto.
    rewrite E in I. now apply prune_comments in I.
  - intros l I. apply (L' l I). apply L.
    rewrite E in I. now apply prune_likes in I.
Qed.

Lemma deleted_rows db id :
  fst (delete_comment db id) = [] <-> has_comment db id = false.
Proof.
  unfold delete_comment, has_comment. cbn [fst].
  induction (comments db) as [|c cs IH]; simpl; [tauto|].
  destruct (N.eqb (c_id c) id); simpl; [split; discriminate|exact IH].
Qed.

(** C4: a delete that is answered 200 was a delete of an existing comment,
    and the store it leaves holds neither that comment, nor a like row that
    refers to it, nor a comment whose parent it was. *)
Theorem deleteComment_cascades w req db resp db' :
  deleteComment w req db = (resp, db') ->
  status resp = 200 ->
  exists id,
    params_id req = Some (IsUUID id) /\
    has_comment db id = true /\
    has_comment db' id = false /\
    (forall l, In l (comment_likes db') -> l_comment_id l <> id) /\
    (forall c, In c (comments db') -> c_parent_id c <> Some id).
Proof.
  intros R St. unfold deleteComment in R.
  apply guarded_route_served in R; [|lia].
  destruct R as (u & _ & _ & R). unfold deleteComment_handler in R.
  cbn [params_id with_user] in R.
  destruct (params_id req) as [[id|raw]|];
    try (injection R as <- <-; discriminate).
  destruct (has_comment db id) eqn:H.
  - pose proof (delete_comment_cascades db id H) as (_ & _ & D1 & D2 & D3).
    destruct (delete_comment db id) as [[|r rows] d] eqn:E;
      injection R as <- <-; [discriminate|].
    exists id. cbn [snd] in *. now repeat split.
  - apply deleted_rows in H.
    destruct (delete_comment db id) as [rows d]. cbn [fst] in H. subst rows.
    injection R as <- <-. discriminate.
Qed.

Lemma deleteComment_cascades_witness :
  exists id,
    params_id (Sample.on_comment "alice.jwt" 100) = Some (IsUUID id) /\
    has_comment Sample.db id = true /\
    has_comment
      (snd (deleteComment (Sample.world 2000 900)
              (Sample.on_comment "alice.jwt" 100) Sample.db)) id = false /\
    (forall l,
        In l (comment_likes
                (snd (deleteComment (Sample.world 2000 900)
                        (Sample.on_comment "alice.jwt" 100) Sample.db))) ->
        l_comment_id l <> id) /\
    (forall c,
        In c (comments
                (snd (deleteComment (Sample.world 2000 900)
                        (Sample.on_comment "alice.jwt" 100) Sample.db))) ->
        c_parent_id c <> Some id).
Proof.
  apply (deleteComment_cascades (Sample.world 2000 900)
           (Sample.on_comment "alice.jwt" 100) Sample.db
           (fst (deleteComment (Sample.world 2000 900)
                   (Sample.on_comment "alice.jwt" 100) Sample.db))).
  - reflexivity.
  - reflexivity.
Defined.

(** The owner of a comment and every admin do get their delete served. *)
Lemma deleteComment_served w req db u id :
  authenticated w req db u ->
  params_id req = Some (IsUUID id) ->
  has_comment db id = true ->
  is_admin (u_role u) = true \/ hd_error (select_owner db id) = Some (u_id u) ->
  fst (deleteComment w req db) = json (MessageBody "Comment deleted successfully").
Proof.
  intros A P H O. unfold deleteComment. cbn [route].
  unfold authenticated in A. rewrite A.
  assert (G : requireOwnershipOrAdmin w (with_user req u) db
              = inr (with_user req u)).
  { unfold requireOwnershipOrAdmin. cbn [user params_id body_id with_user].
    destruct (is_admin (u_role u)); [reflexivity|].
    destruct O as [O|O]; [discriminate|].
    rewrite P. cbn [truthy negb].
    destruct (select_owner db id) as [|owner rest]; [discriminate|].
    injection O as ->. now rewrite N.eqb_refl. }
  rewrite G. unfold deleteComment_handler. cbn [params_id with_user].
  rewrite P.
  destruct (delete_comment db id) as [[|r rows] d] eqn:E; [|reflexivity].
  assert (fst (delete_comment db id) = []) as Z by now rewrite E.
  apply deleted_rows in Z. congruence.
Qed.

(** ** Create *)

Lemma approval_appended db row :
  has_comment db (c_id row) = false ->
  approval (set_comments db (comments db ++ [row])) (c_id row)
  = Some (c_is_approved row).
Proof.
  unfold has_comment, approval, set_comments. cbn [comments].
  induction (comments db) as [|c cs IH]; simpl.
  - now rewrite N.eqb_refl.
  - intros H. apply orb_false_elim in H. destruct H as [H1 H2].
    rewrite H1. now apply IH.
Qed.

Lemma approval_appended_other db row id :
  c_id row <> id ->
  approval (set_comments db (comments db ++ [row])) id = approval db id.
Proof.
  unfold approval, set_comments. cbn [comments]. intros N.
  induction (comments db) as [|c cs IH]; simpl.
  - apply N.eqb_neq in N. now rewrite N.
  - destruct (N.eqb (c_id c) id); [reflexivity|exact IH].
Qed.

Lemma insert_comment_rows db id t content article usr parent approved row db' :
  insert_comment db id t content article usr parent approved = Rows (row, db') ->
  has_comment db id = false /\
  row = mkComment id content article usr parent approved t t /\
  db' = set_comments db (comments db ++ [row]).
Proof.
  unfold insert_comment.
  destruct (has_comment db id); [discriminate|].
  destruct (negb (has_article db article)); [discriminate|].
  destruct (negb (has_user db usr)); [discriminate|].
  destruct (match parent with Some p => negb (has_comment db p) | None => false end);
    [discriminate|].
  intros [= <- <-]. auto.
Qed.

(** What the create handler does to the store: nothing, or one comment
    appended under the generated key, flagged by the role of the author. *)
Lemma createComment_handler_effect w req db resp db' :
  createComment_handler w req db = (resp, db') ->
  (db' = db /\ status resp <> 201) \/
  exists u row m,
    user req = Some u /\
    has_comment db (gen_uuid w) = false /\
    c_id row = gen_uuid w /\
    c_is_approved row = is_admin (u_role u) /\
    db' = set_comments db (comments db ++ [row]) /\
    resp = mkResponse 201
             (CreatedBody m
                (mkCreatedView (c_id row) (c_content row) (c_created_at row)
                   (c_parent_id row) (is_admin (u_role u)) (author_of u))).
Proof.
  unfold createComment_handler.
  destruct (negb (valid_create_body req));
    [intros [= <- <-]; left; split; [reflexivity|discriminate]|].
  destruct (body_articleId req) as [[a|raw]|];
    try (intros [= <- <-]; left; split; [reflexivity|discriminate]).
  destruct (select_published_article db a) as [|found rest];
    [intros [= <- <-]; left; split; [reflexivity|discriminate]|].
  match goal with |- context [if ?b then (fail 404 _ _, db) else _] =>
    destruct b end;
    [intros [= <- <-]; left; split; [reflexivity|discriminate]|].
  destruct (user req) as [u|];
    [|intros [= <- <-]; left; split; [reflexivity|discriminate]].
  destruct (text_param (sanitized_content req)) as [content|e];
    [|intros [= <- <-]; left; split; [reflexivity|discriminate]].
  match goal with |- context [insert_comment ?d ?i ?t ?c ?ar ?us ?p ?ap] =>
    destruct (insert_comment d i t c ar us p ap) as [[row d']|e] eqn:I end;
    [|intros [= <- <-]; left; split; [reflexivity|discriminate]].
  intros [= <- <-]. right.
  apply insert_comment_rows in I. destruct I as (F & R & D).
  exists u, row, (if is_admin (u_role u)
                  then "Comment created successfully"
                  else "Comment submitted for approval").
  subst row. cbn [c_id c_is_approved c_content c_created_at c_parent_id] in *.
  repeat split; auto. now destruct (is_admin (u_role u)).
Qed.

(** C5: a create that is answered 201 came from an authenticated user [u];
    the flag in the answer and the flag of the row stored under the
    generated key are both [role u == admin]. *)
Theorem createComment_approval w req db resp db' :
  createComment w req db = (resp, db') ->
  status resp = 201 ->
  exists u m view,
    authenticated w req db u /\
    body resp = CreatedBody m view /\
    cr_id view = gen_uuid w /\
    cr_isApproved view = is_admin (u_role u) /\
    approval db (gen_uuid w) = None /\
    approval db' (gen_uuid w) = Some (is_admin (u_role u)).
Proof.
  unfold createComment. cbn [route]. intros R St.
  destruct (authenticateToken w req db) as [r|req1] eqn:A.
  - injection R as <- <-. apply authenticateToken_answer in A. lia.
  - destruct (authenticateToken_next _ _ _ _ A)
      as (_ & _ & u & _ & _ & _ & _ & ->).
    apply createComment_handler_effect in R.
    destruct R as [[_ N] | (u' & row & m & U & F & I & P & D & ->)];
      [contradiction|].
    cbn [user with_user] in U. injection U as <-.
    exists u, m, (mkCreatedView (c_id row) (c_content row) (c_created_at row)
                    (c_parent_id row) (is_admin (u_role u)) (author_of u)).
    repeat split; auto.
    + unfold approval. rewrite <- I in *.
      unfold has_comment in F.
      destruct (find (fun c => N.eqb (c_id c) (c_id row)) (comments db)) eqn:E;
        [|reflexivity].
      apply find_some in E. destruct E as [E1 E2].
      assert (existsb (fun c => N.eqb (c_id c) (c_id row)) (comments db) = true)
        by (apply existsb_exists; eauto).
      congruence.
    + rewrite D, <- I, <- P. apply approval_appended. now rewrite I.
Qed.

Lemma createComment_approval_witness :
  exists u m view,
    authenticated (Sample.world 2000 900)
      (Sample.create_request "alice.jwt" 10 (js " Thank you ") (Some 100%N))
      Sample.db u /\
    body (fst (createComment (Sample.world 2000 900)
                 (Sample.create_request "alice.jwt" 10 (js " Thank you ")
                    (Some 100%N)) Sample.db))
    = CreatedBody m view /\
    cr_id view = 900%N /\
    cr_isApproved view = is_admin (u_role u) /\
    approval Sample.db 900 = None /\
    approval
      (snd (createComment (Sample.world 2000 900)
              (Sample.create_request "alice.jwt" 10 (js " Thank you ")
                 (Some 100%N)) Sample.db)) 900
    = Some (is_admin (u_role u)).
Proof.
  apply (createComment_approval (Sample.world 2000 900)
           (Sample.create_request "alice.jwt" 10 (js " Thank you ") (Some 100%N))
           Sample.db
           (fst (createComment (Sample.world 2000 900)
                   (Sample.create_request "alice.jwt" 10 (js " Thank you ")
                      (Some 100%N)) Sample.db))
           (snd (createComment (Sample.world 2000 900)
                   (Sample.create_request "alice.jwt" 10 (js " Thank you ")
                      (Some 100%N)) Sample.db))).
  - reflexivity.
  - reflexivity.
Defined.

(** The two sides of C5 on the sample archive: Alice's comment waits, the
    admin's is approved at once. *)
Example create_by_user_is_pending :
  let r := createComment (Sample.world 2000 900)
             (Sample.create_request "alice.jwt" 10 (js " Thank you ") None)
             Sample.db in
  status (fst r) = 201 /\ approval (snd r) 900 = Some false.
Proof. split; reflexivity. Qed.

Example create_by_admin_is_approved :
  let r := createComment (Sample.world 2000 900)
             (Sample.create_request "root.jwt" 10 (js " Thank you ") None)
             Sample.db in
  status (fst r) = 201 /\ approval (snd r) 900 = Some true.
Proof. split; reflexivity. Qed.

Lemma select_published_has_article db a :
  select_published_article db a <> [] -> has_article db a = true.
Proof.
  unfold select_published_article, has_article.
  induction (articles db) as [|x xs IH]; simpl; [congruence|].
  destruct (N.eqb (a_id x) a); simpl; auto.
Qed.

Lemma select_parent_has_comment db p a :
  select_parent db p a <> [] -> has_comment db p = true.
Proof.
  unfold select_parent, has_comment.
  induction (comments db) as [|x xs IH]; simpl; [congruence|].
  destruct (N.eqb (c_id x) p); simpl; auto.
Qed.

(** Every valid create request is served: an authenticated author, a valid
    body whose text the store can hold, a published article, an approved
    parent on the same article when a parent is named, and a generated key
    that is new. *)
Lemma createComment_served w req db u a :
  authenticated w req db u ->
  valid_create_body req = true ->
  existsb (N.eqb 0) (sanitized_content req) = false ->
  body_articleId req = Some (IsUUID a) ->
  select_published_article db a <> [] ->
  (forall p, body_parentId req = Some (IsUUID p) -> select_parent db p a <> []) ->
  has_comment db (gen_uuid w) = false ->
  status (fst (createComment w req db)) = 201.
Proof.
  intros A V Nul B P Par F. unfold createComment.
  rewrite (route_authenticated _ _ _ _ _ A).
  unfold createComment_handler.
  replace (valid_create_body (with_user req u)) with true by now rewrite <- V.
  cbn [negb body_articleId user with_user body_parentId]. rewrite B.
  pose proof (select_published_has_article _ _ P) as HA.
  destruct (select_published_article db a); [congruence|].
  destruct (authenticated_active _ _ _ _ A) as (_ & HU & _).
  assert (V' : is_uuid (body_parentId req) = true \/ body_parentId req = None).
  { unfold valid_create_body in V. apply andb_prop in V. destruct V as [_ V].
    destruct (body_parentId req); auto. }
  destruct (body_parentId req) as [[p|raw]|] eqn:E.
  - specialize (Par p eq_refl).
    pose proof (select_parent_has_comment _ _ _ Par) as HP.
    destruct (select_parent db p a); [congruence|].
    change (sanitized_content (with_user req u)) with (sanitized_content req).
    unfold text_param. rewrite Nul.
    unfold insert_comment. now rewrite F, HA, HU, HP.
  - destruct V' as [V'|V']; discriminate.
  - change (sanitized_content (with_user req u)) with (sanitized_content req).
    unfold text_param. rewrite Nul.
    unfold insert_comment. now rewrite F, HA, HU.
Qed.

(** ** List *)

Lemma valid_list_query_bounds req :
  valid_list_query req = true ->
  1 <= page_of req /\ 1 <= limit_of req <= 100.
Proof.
  unfold valid_list_query, page_of, limit_of. intros V.
  apply andb_prop in V. destruct V as [V _].
  apply andb_prop in V. destruct V as [Vp Vl].
  destruct (query_page req) as [[n|raw]|];
    destruct (query_limit req) as [[m|raw']|]; try discriminate;
    try (apply Z.leb_le in Vp;
         pose proof (to_number_min n ltac:(lia))); lia.
Qed.

(** The page and the limit of a valid list request are the ones the query
    asks for, the page as a number. *)
Lemma asked_page_and_limit req page limit :
  valid_list_query req = true ->
  asks (query_page req) 1 page ->
  asks (query_limit req) 20 limit ->
  1 <= page /\ 1 <= limit <= 100 /\
  page_of req = to_number page /\ limit_of req = limit.
Proof.
  unfold valid_list_query, page_of, limit_of, asks. intros V Ap Al.
  apply andb_prop in V. destruct V as [V _].
  apply andb_prop in V. destruct V as [Vp Vl].
  destruct Ap as [Ap|[Ap ->]], Al as [Al|[Al ->]]; rewrite Ap in *;
    rewrite Al in *; repeat split; try reflexivity; lia.
Qed.

Lemma offset_rows_skipn {A} (l : list A) :
  forall offset, offset_rows offset l = skipn (Z.to_nat offset) l.
Proof.
  induction l as [|x l IH]; intros offset; cbn [offset_rows].
  - now rewrite skipn_nil.
  - destruct (Z.ltb_spec 0 offset) as [P|P].
    + rewrite IH. replace (Z.to_nat offset) with (S (Z.to_nat (offset - 1)))
        by lia. reflexivity.
    + replace (Z.to_nat offset) with O by lia. reflexivity.
Qed.

Lemma limit_offset_skipn {A} limit offset (l : list A) :
  limit_offset limit offset l
  = firstn (Z.to_nat limit) (skipn (Z.to_nat offset) l).
Proof. unfold limit_offset. now rewrite offset_rows_skipn. Qed.

(** What a served list request answers. *)
Lemma getArticleComments_served w req db cs pg db' :
  getArticleComments w req db = (json (ListBody cs pg), db') ->
  exists article,
    valid_list_query req = true /\
    params_articleId req = Some (IsUUID article) /\
    select_published_article db article <> [] /\
    cs = map (comment_view db)
           (limit_offset (limit_of req) (offset_of req)
              (order_by (orderByClause (sort_of req))
                 (top_level_rows db article))) /\
    pg = (let total := count (top_level article) (comments db) in
          let pages := ceil_div total (limit_of req) in
          mkPagination (page_of req) pages total (page_of req <? pages)
            (1 <? page_of req)) /\
    db' = db /\
    offset_of req <= bigint_max.
Proof.
  unfold getArticleComments. fold (offset_of req).
  destruct (valid_list_query req); [|discriminate]. cbn [negb].
  destruct (params_articleId req) as [[a|raw]|]; try discriminate.
  destruct (select_published_article db a) eqn:E; [discriminate|].
  destruct (Z.ltb_spec bigint_max (offset_of req)) as [B|B]; [discriminate|].
  intros [= <- <- <-]. exists a. repeat split; congruence.
Qed.

Lemma count_nonneg {A} (p : A -> bool) l : 0 <= count p l.
Proof. unfold count. lia. Qed.

(** [page < Math.ceil(total / limit)] says that rows are left after the
    page. *)
Lemma ceil_div_lt page limit total :
  0 < limit -> 0 <= total ->
  (page <? ceil_div total limit) = true <-> page * limit < total.
Proof.
  intros L T. rewrite Z.ltb_lt. unfold ceil_div.
  pose proof (Z.div_mod total limit ltac:(lia)) as D.
  pose proof (Z.mod_pos_bound total limit L) as B.
  destruct (Z.eqb_spec (total mod limit) 0) as [E|E]; split; intros H; nia.
Qed.

Lemma ceil_div_le limit total :
  0 < limit -> 0 <= total -> ceil_div total limit <= total.
Proof.
  intros L T. unfold ceil_div.
  pose proof (Z.div_mod total limit ltac:(lia)) as D.
  pose proof (Z.mod_pos_bound total limit L) as B.
  assert (0 <= total / limit) by (apply Z.div_pos; lia).
  destruct (Z.eqb_spec (total mod limit) 0) as [E|E]; nia.
Qed.

(** The comparison [page < totalPages] reads the page as a number; against
    a number of pages that JavaScript holds exactly it decides as the page
    itself does. *)
Lemma page_lt_pages page pages :
  0 <= page -> pages < 2 ^ 53 ->
  (to_number page <? pages) = (page <? pages).
Proof.
  intros P B. destruct (Z.le_gt_cases page (2 ^ 53)) as [H|H].
  - now rewrite to_number_exact by lia.
  - pose proof (to_number_beyond page ltac:(lia)).
    destruct (Z.ltb_spec (to_number page) pages),
      (Z.ltb_spec page pages); try reflexivity; lia.
Qed.

(** C6: a list request asks for a page and a limit, in its query string or
    by the defaults 1 and 20. Whenever the route answers it with a
    pagination object, the page and the limit asked for are positive,
    [totalComments] counts the approved top-level comments of the article,
    [currentPage] is the page as a number and, the count being one that
    JavaScript holds exactly, [hasNextPage] holds exactly when
    [page * limit < totalComments]. *)
Theorem hasNextPage_iff w req db cs pg db' page limit :
  asks (query_page req) 1 page ->
  asks (query_limit req) 20 limit ->
  getArticleComments w req db = (json (ListBody cs pg), db') ->
  exists article,
    params_articleId req = Some (IsUUID article) /\
    0 < page /\ 0 < limit /\
    currentPage pg = to_number page /\
    totalComments pg = count (top_level article) (comments db) /\
    totalPages pg = ceil_div (totalComments pg) limit /\
    (totalComments pg < 2 ^ 53 ->
     (hasNextPage pg = true <-> page * limit < totalComments pg)).
Proof.
  intros Ap Al R. apply getArticleComments_served in R.
  destruct R as (a & V & P & _ & _ & -> & _).
  destruct (asked_page_and_limit req page limit V Ap Al)
    as (Pp & Pl & -> & ->).
  exists a. cbn [currentPage totalComments totalPages hasNextPage].
  pose proof (count_nonneg (top_level a) (comments db)) as T.
  split; [exact P|]. split; [lia|]. split; [lia|].
  split; [reflexivity|]. split; [reflexivity|]. split; [reflexivity|].
  intros B. pose proof (ceil_div_le limit _ ltac:(lia) T) as C.
  rewrite page_lt_pages by lia. apply ceil_div_lt; lia.
Qed.

Lemma hasNextPage_iff_witness :
  let req := Sample.list_request 10 2 1 "likes" in
  let pg := mkPagination 2 3 3 true true in
  let db := snd (approveComment (Sample.world 1999 899)
                   (Sample.on_comment "root.jwt" 103) Sample.db) in
  exists article,
    params_articleId req = Some (IsUUID article) /\
    0 < 2 /\ 0 < 1 /\
    currentPage pg = to_number 2 /\
    totalComments pg = count (top_level article) (comments db) /\
    totalPages pg = ceil_div (totalComments pg) 1 /\
    totalComments pg < 2 ^ 53 /\
    (hasNextPage pg = true <-> 2 * 1 < totalComments pg).
Proof.
  destruct (hasNextPage_iff (Sample.world 2000 900)
              (Sample.list_request 10 2 1 "likes")
              (snd (approveComment (Sample.world 1999 899)
                      (Sample.on_comment "root.jwt" 103) Sample.db))
              (map (comment_view
                      (snd (approveComment (Sample.world 1999 899)
                              (Sample.on_comment "root.jwt" 103) Sample.db)))
                 (limit_offset 1 1
                    (order_by (orderByClause "likes")
                       (top_level_rows
                          (snd (approveComment (Sample.world 1999 899)
                                  (Sample.on_comment "root.jwt" 103)
                                  Sample.db))
                          10))))
              (mkPagination 2 3 3 true true)
              (snd (approveComment (Sample.world 1999 899)
                      (Sample.on_comment "root.jwt" 103) Sample.db))
              2 1 (or_introl eq_refl) (or_introl eq_refl) eq_refl)
    as (article & P & Pp & Pl & C & T & Tp & H).
  exists article.
  split; [exact P|]. split; [exact Pp|]. split; [exact Pl|].
  split; [exact C|]. split; [exact T|]. split; [exact Tp|].
  split; [reflexivity|]. apply H. reflexivity.
Defined.

(** Two comments, one per page: page 1 has a next page, pages 2 and 3 have
    none. A page beyond [2 ^ 53] is answered as the number it rounds to,
    and a page whose offset is no [bigint] is answered 500. *)
Example pages_of_the_sample :
  let answer page :=
    fst (getArticleComments (Sample.world 2000 900)
           (Sample.list_request 10 page 1 "newest") Sample.db) in
  let pagination page :=
    match body (answer page) with
    | ListBody _ pg => Some pg
    | _ => None
    end in
  pagination 1 = Some (mkPagination 1 2 2 true false) /\
  pagination 2 = Some (mkPagination 2 2 2 false true) /\
  pagination 3 = Some (mkPagination 3 2 2 false true) /\
  pagination 9007199254740993
  = Some (mkPagination 9007199254740992 2 2 false true) /\
  status (answer 9223372036854775809) = 500.
Proof. repeat split. Qed.

(** Every valid list request on a published article whose offset is a
    [bigint] is served. *)
Lemma getArticleComments_total w req db article :
  valid_list_query req = true ->
  params_articleId req = Some (IsUUID article) ->
  select_published_article db article <> [] ->
  offset_of req <= bigint_max ->
  exists cs pg, getArticleComments w req db = (json (ListBody cs pg), db).
Proof.
  intros V P A B. unfold getArticleComments. fold (offset_of req).
  rewrite V, P. cbn [negb].
  destruct (select_published_article db article); [congruence|].
  destruct (Z.ltb_spec bigint_max (offset_of req)) as [B'|B']; [lia|].
  eauto.
Qed.

(** The offset of a list request is the product [(page - 1) * limit] as
    long as JavaScript holds that exactly, and is beyond every such number
    when it does not. *)
Lemma offset_of_asked req page limit :
  valid_list_query req = true ->
  asks (query_page req) 1 page ->
  asks (query_limit req) 20 limit ->
  ((page - 1) * limit < 2 ^ 53 /\ offset_of req = (page - 1) * limit) \/
  (2 ^ 53 <= (page - 1) * limit /\ 2 ^ 53 - 1 <= offset_of req).
Proof.
  intros V Ap Al.
  destruct (asked_page_and_limit req page limit V Ap Al)
    as (Pp & Pl & Ep & El).
  unfold offset_of. rewrite Ep, El.
  destruct (Z.lt_ge_cases ((page - 1) * limit) (2 ^ 53)) as [H|H].
  - left. split; [exact H|]. apply offset_exact; lia.
  - right. split; [exact H|]. apply offset_beyond; lia.
Qed.

(** *** [ORDER BY] sorts *)

Section OrderBy.

Variable A : Type.
Variable le : A -> A -> bool.
Hypothesis le_total : forall a b, le a b = true \/ le b a = true.

Let before (a b : A) : Prop := le a b = true.

Lemma insert_by_HdRel x y l :
  before y x -> HdRel before y l -> HdRel before y (insert_by le x l).
Proof.
  intros Hyx Hl. destruct l as [|z l]; simpl.
  - now constructor.
  - destruct (le x z); constructor; auto. now inversion Hl.
Qed.

Lemma insert_by_Sorted x l :
  Sorted before l -> Sorted before (insert_by le x l).
Proof.
  induction 1 as [|y l S IH H]; simpl.
  - repeat constructor.
  - destruct (le x y) eqn:E.
    + constructor; [now constructor|]. now constructor.
    + constructor; [exact IH|].
      apply insert_by_HdRel; [|exact H].
      destruct (le_total x y) as [T|T]; [congruence|exact T].
Qed.

Lemma order_by_Sorted l : Sorted before (order_by le l).
Proof.
  induction l as [|x l IH]; simpl.
  - constructor.
  - now apply insert_by_Sorted.
Qed.

End OrderBy.

Lemma Sorted_map_key {A} (key : A -> Z) (l : list A) :
  Sorted (fun a b => (key a <=? key b) = true) l ->
  Sorted Z.le (map key l).
Proof.
  induction 1 as [|x l S IH H]; simpl; constructor; auto.
  destruct H as [|y l' H]; simpl; constructor. now apply Z.leb_le.
Qed.

(** The replies of a comment come oldest first. *)
Lemma select_replies_sorted db id :
  Sorted Z.le (map rv_createdAt (select_replies db id)).
Proof.
  unfold select_replies. rewrite map_map. cbn [rv_createdAt].
  apply (Sorted_map_key (fun cu : Comment * User => c_created_at (fst cu))).
  apply order_by_Sorted. intros a b.
  destruct (Z.leb_spec (c_created_at (fst a)) (c_created_at (fst b)));
    [now left|right]. apply Z.leb_le. lia.
Qed.

(** C10: in every answer of the list route, the replies of each top-level
    comment are the result of the replies query of that comment, a query
    the [sort] parameter does not reach, and they are ordered by ascending
    [createdAt]. *)
Theorem replies_oldest_first w req db cs pg db' :
  getArticleComments w req db = (json (ListBody cs pg), db') ->
  Forall (fun v =>
            cv_replies v = select_replies db (cv_id v) /\
            Sorted Z.le (map rv_createdAt (cv_replies v)))
    cs.
Proof.
  intros R. apply getArticleComments_served in R.
  destruct R as (a & _ & _ & _ & -> & _).
  apply Forall_forall. intros v I. apply in_map_iff in I.
  destruct I as (row & <- & _). cbn [cv_replies cv_id comment_view].
  split; [reflexivity|apply select_replies_sorted].
Qed.

Lemma replies_oldest_first_witness :
  Forall (fun v =>
            cv_replies v = select_replies Sample.db (cv_id v) /\
            Sorted Z.le (map rv_createdAt (cv_replies v)))
    (map (comment_view Sample.db)
       (limit_offset 20 0
          (order_by (orderByClause "newest") (top_level_rows Sample.db 10)))).
Proof.
  apply (replies_oldest_first (Sample.world 2000 900)
           (Sample.list_request 10 1 20 "newest") Sample.db
           (map (comment_view Sample.db)
              (limit_offset 20 0
                 (order_by (orderByClause "newest")
                    (top_level_rows Sample.db 10))))
           (mkPagination 1 1 2 false false) Sample.db).
  reflexivity.
Defined.

(** On the sample archive the three sort orders list the top-level comments
    100 and 105 differently, and the replies of 100 always come as 102
    (written at 1005) before 101 (written at 1010). *)
Example replies_under_each_sort :
  let answer sort :=
    match body (fst (getArticleComments (Sample.world 2000 900)
                       (Sample.list_request 10 1 20 sort) Sample.db)) with
    | ListBody cs _ => map (fun v => (cv_id v, map rv_id (cv_replies v))) cs
    | _ => []
    end in
  answer "newest" = [(105%N, []); (100%N, [102%N; 101%N])] /\
  answer "oldest" = [(100%N, [102%N; 101%N]); (105%N, [])] /\
  answer "likes" = [(100%N, [102%N; 101%N]); (105%N, [])].
Proof. repeat split. Qed.

(** ** Update *)

Lemma guarded_route_cases h w req db resp db' :
  route [authenticateToken; requireOwnershipOrAdmin] h w req db = (resp, db') ->
  (db' = db /\ 400 <= status resp) \/
  exists u,
    authenticated w req db u /\ h w (with_user req u) db = (resp, db').
Proof.
  cbn [route]. intros R.
  destruct (authenticateToken w req db) as [r|req1] eqn:A.
  - injection R as <- <-. left. split; [reflexivity|].
    now apply authenticateToken_answer in A.
  - destruct (authenticateToken_next _ _ _ _ A)
      as (_ & _ & u & _ & _ & _ & _ & ->).
    destruct (requireOwnershipOrAdmin w (with_user req u) db) as [r|req2] eqn:O.
    + injection R as <- <-. left. split; [reflexivity|].
      now apply requireOwnershipOrAdmin_answer in O.
    + pose proof (requireOwnershipOrAdmin_next _ _ _ _ O) as ->.
      right. now exists u.
Qed.

Lemma Forall2_map_same {A} (R : A -> A -> Prop) (f : A -> A) (l : list A) :
  (forall x, R x (f x)) -> Forall2 R l (map f l).
Proof. intros H. induction l; simpl; constructor; auto. Qed.

Lemma updated_rows db id t content :
  fst (update_content db id t content) = [] <-> has_comment db id = false.
Proof.
  unfold update_content, has_comment. cbn [fst].
  induction (comments db) as [|c cs IH]; simpl; [tauto|].
  destruct (N.eqb (c_id c) id) eqn:E; simpl.
  - rewrite E. split; discriminate.
  - rewrite E. exact IH.
Qed.

(** C9: whatever the answer, an update leaves the [users], [articles] and
    [comment_likes] tables as they were and keeps every comment row in
    place with its id, article, author, parent, approval flag and creation
    time; a row that differs from what it was is a row of the comment named
    in the request, and carries the new content, as the store keeps it, and
    the current time. When the answer is 200 the named comment exists and
    its rows carry both. *)
Theorem updateComment_frame w req db resp db' :
  updateComment w req db = (resp, db') ->
  users db' = users db /\
  articles db' = articles db /\
  comment_likes db' = comment_likes db /\
  Forall2
    (fun c c' =>
       c_id c' = c_id c /\ c_article_id c' = c_article_id c /\
       c_user_id c' = c_user_id c /\ c_parent_id c' = c_parent_id c /\
       c_is_approved c' = c_is_approved c /\
       c_created_at c' = c_created_at c /\
       (c' = c \/
        (params_id req = Some (IsUUID (c_id c)) /\
         text_param (sanitized_content req) = Rows (c_content c') /\
         c_updated_at c' = now w)))
    (comments db) (comments db') /\
  (status resp = 200 ->
   exists id,
     params_id req = Some (IsUUID id) /\ has_comment db id = true /\
     forall c', In c' (comments db') -> c_id c' = id ->
                text_param (sanitized_content req) = Rows (c_content c') /\
                c_updated_at c' = now w).
Proof.
  assert (Same : forall d : DB,
    Forall2
      (fun c c' =>
         c_id c' = c_id c /\ c_article_id c' = c_article_id c /\
         c_user_id c' = c_user_id c /\ c_parent_id c' = c_parent_id c /\
         c_is_approved c' = c_is_approved c /\
         c_created_at c' = c_created_at c /\
         (c' = c \/
          (params_id req = Some (IsUUID (c_id c)) /\
           text_param (sanitized_content req) = Rows (c_content c') /\
           c_updated_at c' = now w)))
      (comments d) (comments d)).
  { intros d. rewrite <- (map_id (comments d)) at 2.
    apply Forall2_map_same. intros c. repeat split; auto. }
  intros R. unfold updateComment in R. apply guarded_route_cases in R.
  destruct R as [[-> St] | (u & _ & R)].
  { repeat split; auto. intros E. lia. }
  unfold updateComment_handler in R.
  change (valid_content (with_user req u)) with (valid_content req) in R.
  change (sanitized_content (with_user req u)) with (sanitized_content req) in R.
  cbn [params_id with_user] in R.
  destruct (negb (valid_content req)).
  { injection R as <- <-. repeat split; auto. discriminate. }
  destruct (text_param (sanitized_content req)) as [content|e] eqn:T.
  2: { injection R as <- <-. repeat split; auto. discriminate. }
  destruct (params_id req) as [[id|raw]|] eqn:P;
    try (injection R as <- <-; repeat split; auto; discriminate).
  pose proof (updated_rows db id (now w) content) as Z.
  destruct (update_content db id (now w) content) as [rows d] eqn:E.
  assert (D : d = snd (update_content db id (now w) content))
    by now rewrite E.
  assert (db' = d) as -> by (destruct rows; now injection R).
  unfold update_content in D. cbn [snd] in D. subst d.
  cbn [users articles comment_likes comments set_comments].
  repeat split; auto.
  - apply Forall2_map_same. intros c.
    destruct (N.eqb_spec (c_id c) id) as [Q|Q]; cbn; repeat split; auto.
    right. now rewrite Q.
  - cbn [fst] in Z. intros St. exists id. split; [reflexivity|]. split.
    + destruct rows; [injection R as <-; discriminate St|].
      destruct (has_comment db id); [reflexivity|].
      destruct Z as [_ Z]. specialize (Z eq_refl). discriminate.
    + intros c' I Q. apply in_map_iff in I. destruct I as (c & <- & _).
      destruct (N.eqb_spec (c_id c) id) as [_|N]; cbn in *; auto.
      contradiction.
Qed.

Lemma updateComment_frame_witness :
  let w := Sample.world 2000 900 in
  let req := Sample.update_request "alice.jwt" 100 (js " Edited ") in
  let resp := fst (updateComment w req Sample.db) in
  let db' := snd (updateComment w req Sample.db) in
  users db' = users Sample.db /\
  articles db' = articles Sample.db /\
  comment_likes db' = comment_likes Sample.db /\
  Forall2
    (fun c c' =>
       c_id c' = c_id c /\ c_article_id c' = c_article_id c /\
       c_user_id c' = c_user_id c /\ c_parent_id c' = c_parent_id c /\
       c_is_approved c' = c_is_approved c /\
       c_created_at c' = c_created_at c /\
       (c' = c \/
        (params_id req = Some (IsUUID (c_id c)) /\
         text_param (sanitized_content req) = Rows (c_content c') /\
         c_updated_at c' = now w)))
    (comments Sample.db) (comments db') /\
  (status resp = 200 ->
   exists id,
     params_id req = Some (IsUUID id) /\ has_comment Sample.db id = true /\
     forall c', In c' (comments db') -> c_id c' = id ->
                text_param (sanitized_content req) = Rows (c_content c') /\
                c_updated_at c' = now w).
Proof.
  apply (updateComment_frame (Sample.world 2000 900)
           (Sample.update_request "alice.jwt" 100 (js " Edited ")) Sample.db).
  reflexivity.
Defined.

Example update_on_the_sample :
  let r := updateComment (Sample.world 2000 900)
             (Sample.update_request "alice.jwt" 100 (js " Edited "))
             Sample.db in
  fst r
  = json (UpdatedBody "Comment updated successfully" 100 (js "Edited") 2000) /\
  nth_error (comments (snd r)) 0
  = Some (mkComment 100 (js "Edited") 10 1 None true 1000 2000) /\
  skipn 1 (comments (snd r)) = skipn 1 (comments Sample.db).
Proof. repeat split. Qed.

(** The owner of a comment and every admin do get a valid update served,
    when the store can hold the text. *)
Lemma updateComment_served w req db u id :
  authenticated w req db u ->
  params_id req = Some (IsUUID id) ->
  has_comment db id = true ->
  valid_content req = true ->
  existsb (N.eqb 0) (sanitized_content req) = false ->
  is_admin (u_role u) = true \/ hd_error (select_owner db id) = Some (u_id u) ->
  status (fst (updateComment w req db)) = 200.
Proof.
  intros A P H V Nul O. unfold updateComment. cbn [route].
  unfold authenticated in A. rewrite A.
  assert (G : requireOwnershipOrAdmin w (with_user req u) db
              = inr (with_user req u)).
  { unfold requireOwnershipOrAdmin. cbn [user params_id body_id with_user].
    destruct (is_admin (u_role u)); [reflexivity|].
    destruct O as [O|O]; [discriminate|].
    rewrite P. cbn [truthy negb].
    destruct (select_owner db id) as [|owner rest]; [discriminate|].
    injection O as ->. now rewrite N.eqb_refl. }
  rewrite G. unfold updateComment_handler.
  change (valid_content (with_user req u)) with (valid_content req).
  rewrite V. cbn [negb params_id with_user]. rewrite P.
  change (sanitized_content (with_user req u)) with (sanitized_content req).
  unfold text_param. rewrite Nul.
  pose proof (updated_rows db id (now w) (well_formed (sanitized_content req)))
    as Z.
  destruct (update_content db id (now w)
              (well_formed (sanitized_content req)))
    as [[|r rows] d]; [|reflexivity].
  destruct Z as [Z _]. specialize (Z eq_refl). congruence.
Qed.

(** ** The approval flag over time *)

Lemma approval_same_comments db db' id :
  comments db' = comments db -> approval db' id = approval db id.
Proof. unfold approval. now intros ->. Qed.

Lemma approval_has_comment db id b :
  approval db id = Some b -> has_comment db id = true.
Proof.
  unfold approval, has_comment.
  destruct (find (fun c => N.eqb (c_id c) id) (comments db)) eqn:E;
    [|discriminate].
  intros _. apply find_some in E. apply existsb_exists. eauto.
Qed.

(** A row-wise rewrite of [comments] that keeps ids and never clears the
    flag keeps approved comments approved. *)
Lemma approval_map_keeps (f : Comment -> Comment) db id :
  (forall c, c_id (f c) = c_id c) ->
  (forall c, c_is_approved c = true -> c_is_approved (f c) = true) ->
  approval db id = Some true ->
  approval (set_comments db (map f (comments db))) id = Some true.
Proof.
  intros Hid Hap. unfold approval, set_comments. cbn [comments].
  induction (comments db) as [|c cs IH]; simpl; [discriminate|].
  rewrite Hid. destruct (N.eqb (c_id c) id); simpl; [|exact IH].
  intros [= E]. now rewrite (Hap c E).
Qed.

Lemma approval_prune ids db id :
  approval (prune ids db) id = if mem id ids then None else approval db id.
Proof.
  unfold approval, prune. cbn [comments].
  induction (comments db) as [|c cs IH]; simpl.
  - now destruct (mem id ids).
  - destruct (N.eqb_spec (c_id c) id) as [E|E].
    + rewrite E. destruct (mem id ids) eqn:M; simpl.
      * exact IH.
      * now rewrite E, N.eqb_refl.
    + destruct (negb (mem (c_id c) ids)); simpl; [|exact IH].
      apply N.eqb_neq in E. now rewrite E.
Qed.

Lemma getArticleComments_reads w req db :
  snd (getArticleComments w req db) = db.
Proof.
  unfold getArticleComments.
  destruct (negb (valid_list_query req)); [reflexivity|].
  destruct (params_articleId req) as [[a|raw]|]; try reflexivity.
  destruct (select_published_article db a); [reflexivity|].
  now destruct (bigint_max <? _).
Qed.

Lemma guarded_route_effect h w req db :
  snd (route [authenticateToken; requireOwnershipOrAdmin] h w req db) = db \/
  exists u, snd (route [authenticateToken; requireOwnershipOrAdmin] h w req db)
            = snd (h w (with_user req u) db).
Proof.
  destruct (route [authenticateToken; requireOwnershipOrAdmin] h w req db)
    as [resp db'] eqn:R.
  apply guarded_route_cases in R. destruct R as [[-> _]|(u & _ & R)]; auto.
  right. exists u. now rewrite R.
Qed.

Lemma getPendingComments_reads w req db :
  snd (getPendingComments w req db) = db.
Proof.
  unfold getPendingComments.
  destruct (guarded_route_effect getPendingComments_handler w req db)
    as [E|[u E]]; rewrite E; reflexivity.
Qed.

Lemma toggleLike_comments w req db :
  comments (snd (toggleLike w req db)) = comments db.
Proof.
  unfold toggleLike, toggleLike_among. cbn [route].
  destruct (authenticateToken w req db) as [r|req1]; [reflexivity|].
  unfold toggleLike_handler_among.
  destruct (params_id req1) as [[id|raw]|]; try reflexivity.
  destruct (select_approved_comment db id) as [|found rest]; [reflexivity|].
  destruct (user req1) as [u|]; [|reflexivity].
  destruct (select_like db id (u_id u)) as [|like likes]; [|reflexivity].
  unfold insert_like.
  destruct (has_like_id db (gen_uuid w)); [reflexivity|].
  destruct (has_like db id (u_id u)); [reflexivity|].
  destruct (negb (has_comment db id)); [reflexivity|].
  now destruct (negb (has_user db (u_id u))).
Qed.

Lemma updateComment_effect w req db :
  snd (updateComment w req db) = db \/
  exists id content,
    snd (updateComment w req db) = snd (update_content db id (now w) content).
Proof.
  unfold updateComment.
  destruct (guarded_route_effect updateComment_handler w req db) as [E|[u E]];
    rewrite E; auto.
  unfold updateComment_handler.
  destruct (negb (valid_content (with_user req u))); auto.
  cbn [params_id with_user].
  destruct (text_param (sanitized_content (with_user req u)))
    as [content|e]; auto.
  destruct (params_id req) as [[id|raw]|]; auto.
  right. exists id, content.
  now destruct (update_content db id (now w) content) as [[|r rows] d].
Qed.

Lemma approveComment_effect w req db :
  snd (approveComment w req db) = db \/
  exists id, snd (approveComment w req db) = snd (update_approved db id (now w)).
Proof.
  unfold approveComment.
  destruct (guarded_route_effect approveComment_handler w req db) as [E|[u E]];
    rewrite E; auto.
  unfold approveComment_handler. cbn [params_id with_user].
  destruct (params_id req) as [[id|raw]|]; auto.
  right. exists id.
  now destruct (update_approved db id (now w)) as [[|r rows] d].
Qed.

Lemma deleteComment_effect w req db :
  exists ids, snd (deleteComment w req db) = prune ids db.
Proof.
  assert (Z : exists ids, db = prune ids db)
    by (exists []; now rewrite prune_nil).
  unfold deleteComment.
  destruct (guarded_route_effect deleteComment_handler w req db) as [E|[u E]];
    rewrite E; auto.
  unfold deleteComment_handler. cbn [params_id with_user].
  destruct (params_id req) as [[id|raw]|]; auto.
  destruct (delete_cascade_prune (S (List.length (comments db))) id db)
    as [ids D].
  exists ids. unfold delete_comment.
  now destruct (map c_id (filter (fun c => N.eqb (c_id c) id) (comments db))).
Qed.

Lemma createComment_effect w req db :
  snd (createComment w req db) = db \/
  exists row,
    has_comment db (c_id row) = false /\
    snd (createComment w req db) = set_comments db (comments db ++ [row]).
Proof.
  unfold createComment. cbn [route].
  destruct (authenticateToken w req db) as [r|req1]; auto.
  destruct (createComment_handler w req1 db) as [resp db'] eqn:R.
  apply createComment_handler_effect in R.
  destruct R as [[-> _]|(u & row & m & _ & F & I & _ & -> & _)]; auto.
  right. exists row. rewrite I. auto.
Qed.

(** Every route but the delete keeps an approved comment approved. *)
Lemma serve_keeps_approved db call id :
  is_delete (fst (fst call)) = false ->
  approval db id = Some true ->
  approval (serve db call) id = Some true.
Proof.
  destruct call as [[r w] req]. unfold serve. cbn [fst snd].
  intros D A. destruct r; try discriminate; cbn [router].
  - now rewrite getArticleComments_reads.
  - destruct (createComment_effect w req db) as [E|(row & F & E)];
      rewrite E; auto.
    rewrite approval_appended_other; auto.
    intros Q. apply approval_has_comment in A. congruence.
  - destruct (updateComment_effect w req db) as [E|(i & content & E)];
      rewrite E; auto.
    unfold update_content. cbn [snd].
    apply approval_map_keeps; auto; intros c;
      now destruct (N.eqb (c_id c) i).
  - rewrite (approval_same_comments _ _ _ (toggleLike_comments w req db)); auto.
  - destruct (approveComment_effect w req db) as [E|(i & E)]; rewrite E; auto.
    unfold update_approved. cbn [snd].
    apply approval_map_keeps; auto; intros c;
      now destruct (N.eqb (c_id c) i).
  - now rewrite getPendingComments_reads.
Qed.

(** A delete leaves an approved comment approved or removes it. *)
Lemma delete_keeps_or_removes w req db id :
  approval db id = Some true ->
  approval (snd (deleteComment w req db)) id = Some true \/
  approval (snd (deleteComment w req db)) id = None.
Proof.
  intros A. destruct (deleteComment_effect w req db) as [ids E].
  rewrite E, approval_prune. destruct (mem id ids); auto.
Qed.

Lemma serve_all_keeps_approved calls :
  forall db id,
    forallb (fun c => negb (is_delete (fst (fst c)))) calls = true ->
    approval db id = Some true ->
    approval (serve_all calls db) id = Some true.
Proof.
  unfold serve_all.
  induction calls as [|c calls IH]; intros db id N A; [exact A|].
  cbn [fold_left]. simpl in N. apply andb_prop in N. destruct N as [N1 N2].
  apply IH; [exact N2|]. apply serve_keeps_approved; [|exact A].
  now apply negb_true_iff.
Qed.

(** C8: once a comment is approved, it is approved after every sequence of
    requests served by the list, create, update, like, approve and pending
    routes; and no single request to any route of the router, the delete
    included, leaves it pending (a delete leaves it approved or removes
    it). *)
Theorem approval_is_never_revoked calls call db id :
  approval db id = Some true ->
  forallb (fun c => negb (is_delete (fst (fst c)))) calls = true ->
  approval (serve_all calls db) id = Some true /\
  approval (serve db call) id <> Some false.
Proof.
  intros A N. split.
  - now apply serve_all_keeps_approved.
  - destruct (is_delete (fst (fst call))) eqn:D.
    + destruct call as [[r w] req]. destruct r; try discriminate.
      unfold serve. cbn [fst snd router].
      destruct (delete_keeps_or_removes w req db id A) as [E|E];
        rewrite E; discriminate.
    + rewrite (serve_keeps_approved _ _ _ D A). discriminate.
Qed.

Lemma approval_is_never_revoked_witness :
  let w := Sample.world 2000 900 in
  let calls :=
    [ (PUT_comment, w, Sample.update_request "alice.jwt" 100 (js "Edited"));
      (POST_like, w, Sample.on_comment "alice.jwt" 100);
      (PUT_approve, w, Sample.on_comment "root.jwt" 100);
      (GET_article_comments, w, Sample.list_request 10 1 20 "newest");
      (POST_comment, w, Sample.create_request "bob.jwt" 10 (js "More") (Some 100%N));
      (GET_pending, w, Sample.bearer "root.jwt") ] in
  approval (serve_all calls Sample.db) 100 = Some true /\
  approval
    (serve Sample.db (DELETE_comment, w, Sample.on_comment "alice.jwt" 100)) 100
  <> Some false.
Proof.
  apply (approval_is_never_revoked _ _ Sample.db 100%N).
  - reflexivity.
  - reflexivity.
Defined.

(** ** Approve *)

Lemma approval_update_approved db id t :
  has_comment db id = true ->
  approval (snd (update_approved db id t)) id = Some true.
Proof.
  unfold has_comment, approval, update_approved. cbn [snd set_comments comments].
  induction (comments db) as [|c cs IH]; simpl; [discriminate|].
  destruct (N.eqb (c_id c) id) eqn:E; simpl.
  - now rewrite E.
  - now rewrite E.
Qed.

Lemma approved_rows db id t :
  fst (update_approved db id t) = [] <-> has_comment db id = false.
Proof.
  unfold update_approved, has_comment. cbn [fst].
  induction (comments db) as [|c cs IH]; simpl; [tauto|].
  destruct (N.eqb (c_id c) id) eqn:E; simpl.
  - rewrite E. split; discriminate.
  - rewrite E. exact IH.
Qed.

(** What the guard of the approve route lets through besides admins: the
    author of the comment, whatever the role. The request is served and the
    comment is approved. *)
Lemma approveComment_by_author w req db u id :
  authenticated w req db u ->
  params_id req = Some (IsUUID id) ->
  hd_error (select_owner db id) = Some (u_id u) ->
  status (fst (approveComment w req db)) = 200 /\
  approval (snd (approveComment w req db)) id = Some true.
Proof.
  intros A P O. unfold approveComment. cbn [route].
  unfold authenticated in A. rewrite A.
  assert (H : has_comment db id = true).
  { unfold select_owner in O. unfold has_comment.
    induction (comments db) as [|c cs IH]; simpl in *; [discriminate|].
    destruct (N.eqb (c_id c) id); simpl in *; auto. }
  assert (G : requireOwnershipOrAdmin w (with_user req u) db
              = inr (with_user req u)).
  { unfold requireOwnershipOrAdmin. cbn [user params_id body_id with_user].
    destruct (is_admin (u_role u)); [reflexivity|].
    rewrite P. cbn [truthy negb].
    destruct (select_owner db id) as [|owner rest]; [discriminate|].
    injection O as ->. now rewrite N.eqb_refl. }
  rewrite G. unfold approveComment_handler. cbn [params_id with_user].
  rewrite P.
  pose proof (approved_rows db id (now w)) as Z.
  pose proof (approval_update_approved db id (now w) H) as T.
  destruct (update_approved db id (now w)) as [[|r rows] d].
  - destruct Z as [Z _]. specialize (Z eq_refl). congruence.
  - split; [reflexivity|exact T].
Qed.

(** The part of C1 that the code keeps: a user who is neither an admin nor
    the author of the comment is answered 403 and nothing is written. *)
Lemma approveComment_by_stranger w req db u id owner rest :
  authenticated w req db u ->
  params_id req = Some (IsUUID id) ->
  is_admin (u_role u) = false ->
  select_owner db id = owner :: rest ->
  owner <> u_id u ->
  approveComment w req db
  = (fail 403 "Access denied" "You can only modify your own resources", db).
Proof.
  intros A P R O N. unfold approveComment. cbn [route].
  unfold authenticated in A. rewrite A.
  unfold requireOwnershipOrAdmin. cbn [user params_id body_id with_user].
  rewrite R, P. cbn [truthy negb]. rewrite O.
  apply N.eqb_neq in N. now rewrite N.
Qed.

(** * More of the middleware *)

Lemma split_space_word s : no_space s = true -> split_space s = [s].
Proof.
  induction s as [|c s IH]; simpl; [reflexivity|].
  intros H. apply andb_prop in H. destruct H as [Hc Hs].
  apply negb_true_iff in Hc. rewrite Hc, (IH Hs). reflexivity.
Qed.

Lemma split_space_first a b :
  no_space a = true ->
  split_space (a ++ String " "%char b) = a :: split_space b.
Proof.
  induction a as [|c a IH]; simpl; [reflexivity|].
  intros H. apply andb_prop in H. destruct H as [Hc Ha].
  apply negb_true_iff in Hc. rewrite Hc, (IH Ha). reflexivity.
Qed.

(** X1: the guard reads the token as the second word of the header. From a
    header made of one word, one space and a token without spaces it
    recovers the token, whatever the first word is. *)
Theorem bearer_token_second_word req scheme token :
  authorization req = Some (scheme ++ String " "%char token) ->
  no_space scheme = true ->
  no_space token = true ->
  bearer_token req = Some token.
Proof.
  intros A S T. unfold bearer_token. rewrite A.
  destruct (String.eqb_spec (scheme ++ String " "%char token) "") as [E|_].
  - destruct scheme; discriminate.
  - now rewrite (split_space_first _ _ S), (split_space_word _ T).
Qed.

Lemma bearer_token_second_word_witness :
  bearer_token (Sample.bearer "alice.jwt") = Some "alice.jwt".
Proof.
  apply (bearer_token_second_word (Sample.bearer "alice.jwt") "Bearer"
           "alice.jwt").
  - reflexivity.
  - reflexivity.
  - reflexivity.
Defined.

(** X2: a request the authentication guard lets through carries a user who
    is an active row of [users] and whose id is the [userId] of the verified
    token; no other field of the request is changed: the header, the path
    parameters, the query and the body are those of the request that came
    in. *)
Theorem authenticateToken_attaches_active_user w req db req' :
  authenticateToken w req db = inr req' ->
  exists token u,
    bearer_token req = Some token /\
    jwt_verify w token = Decoded (u_id u) /\
    In u (users db) /\ u_is_active u = true /\
    req' = mkRequest (authorization req) (params_id req)
             (params_articleId req) (query_page req) (query_limit req)
             (query_sort req) (body_content req) (body_articleId req)
             (body_parentId req) (body_id req) (Some u).
Proof.
  intros H. apply authenticateToken_next in H.
  destruct H as (token & uid & u & B & V & U & A & ->).
  unfold select_user in U. apply find_some in U. destruct U as [I Q].
  apply N.eqb_eq in Q. subst uid.
  exists token, u. repeat split; auto.
Qed.

Lemma authenticateToken_attaches_active_user_witness :
  let req :=
    mkRequest (Some "Bearer bob.jwt") (Some (IsUUID 100))
      (Some (IsUUID 10)) (Some (IsInt 2)) (Some (IsInt 5)) (Some "likes")
      (Some (js "Hello")) (Some (IsUUID 10)) (Some (IsUUID 100))
      (Some (IsUUID 101)) None in
  exists token u,
    bearer_token req = Some token /\
    jwt_verify (Sample.world 2000 900) token = Decoded (u_id u) /\
    In u (users Sample.db) /\ u_is_active u = true /\
    mkRequest (Some "Bearer bob.jwt") (Some (IsUUID 100))
      (Some (IsUUID 10)) (Some (IsInt 2)) (Some (IsInt 5)) (Some "likes")
      (Some (js "Hello")) (Some (IsUUID 10)) (Some (IsUUID 100))
      (Some (IsUUID 101)) (Some Sample.bob)
    = mkRequest (authorization req) (params_id req)
        (params_articleId req) (query_page req) (query_limit req)
        (query_sort req) (body_content req) (body_articleId req)
        (body_parentId req) (body_id req) (Some u).
Proof.
  apply (authenticateToken_attaches_active_user (Sample.world 2000 900)
           (mkRequest (Some "Bearer bob.jwt") (Some (IsUUID 100))
              (Some (IsUUID 10)) (Some (IsInt 2)) (Some (IsInt 5))
              (Some "likes") (Some (js "Hello")) (Some (IsUUID 10))
              (Some (IsUUID 100)) (Some (IsUUID 101)) None)
           Sample.db).
  reflexivity.
Defined.

(** X3: a token that verifies but names a user who is gone, or whose account
    is deactivated, is answered 401. *)
Theorem authenticateToken_unavailable_account w req db token uid :
  bearer_token req = Some token -> token <> "" ->
  jwt_verify w token = Decoded uid ->
  (forall u, select_user db uid = Some u -> u_is_active u = false) ->
  exists resp, authenticateToken w req db = inl resp /\ status resp = 401.
Proof.
  intros B N V U. unfold authenticateToken. rewrite B.
  destruct token; [contradiction|]. rewrite V.
  destruct (select_user db uid) as [u|]; [|eexists; split; reflexivity].
  rewrite (U u eq_refl). eexists; split; reflexivity.
Qed.

Lemma authenticateToken_unavailable_account_witness :
  exists resp,
    authenticateToken (Sample.world 2000 900) (Sample.bearer "alice.jwt")
      (mkDB [] (articles Sample.db) (comments Sample.db)
         (comment_likes Sample.db)) = inl resp
    /\ status resp = 401.
Proof.
  apply (authenticateToken_unavailable_account (Sample.world 2000 900)
           (Sample.bearer "alice.jwt") _ "alice.jwt" 1%N).
  - reflexivity.
  - discriminate.
  - reflexivity.
  - discriminate.
Defined.

Lemma role_eqb_eq a b : role_eqb a b = true <-> a = b.
Proof. destruct a, b; simpl; split; congruence. Qed.

(** X4: [requireRole(roles)] lets a request through exactly when it carries
    a user whose role is one of [roles], and hands it on unchanged; so
    [requireAdmin] serves admins only and [requireContributor] serves
    contributors and admins only. *)
Theorem requireRole_lets_through roles w req db req' :
  requireRole roles w req db = inr req' <->
  req' = req /\ exists u, user req = Some u /\ In (u_role u) roles.
Proof.
  unfold requireRole. destruct (user req) as [u|].
  - destruct (existsb (role_eqb (u_role u)) roles) eqn:E; simpl.
    + apply existsb_exists in E. destruct E as (r & I & Q).
      apply role_eqb_eq in Q. subst r.
      split; [intros [= <-]; eauto|]. now intros [-> _].
    + split; [discriminate|]. intros [_ (u' & [= <-] & I)].
      assert (existsb (role_eqb (u_role u)) roles = true); [|congruence].
      apply existsb_exists. exists (u_role u). split; auto.
      now apply role_eqb_eq.
  - split; [discriminate|]. now intros [_ (u & U & _)].
Qed.

Lemma requireOwnershipOrAdminOn_comments w req db :
  requireOwnershipOrAdminOn comments_table w req db
  = requireOwnershipOrAdmin w req db.
Proof.
  unfold requireOwnershipOrAdminOn, requireOwnershipOrAdmin.
  destruct (user req) as [u|]; [|reflexivity].
  destruct (is_admin (u_role u)); [reflexivity|].
  destruct (negb (truthy _)); [reflexivity|].
  now destruct (if truthy (params_id req) then params_id req else body_id req)
    as [[id|raw]|].
Qed.

(** X5: the ownership guard of the comment routes lets a request through
    exactly when its user is an admin, or is the author of the comment named
    by [req.params.id] (by [req.body.id] when there is no such parameter);
    the request is handed on unchanged. *)
Theorem requireOwnershipOrAdmin_lets_through w req db req' :
  requireOwnershipOrAdmin w req db = inr req' <->
  req' = req /\
  exists u,
    user req = Some u /\
    (is_admin (u_role u) = true \/
     exists id,
       (if truthy (params_id req) then params_id req else body_id req)
       = Some (IsUUID id) /\
       hd_error (select_owner db id) = Some (u_id u)).
Proof.
  unfold requireOwnershipOrAdmin. destruct (user req) as [u|].
  2:{ split; [discriminate|]. now intros [_ (u & U & _)]. }
  destruct (is_admin (u_role u)) eqn:A.
  { split; [intros [= <-]; eauto|]. now intros [-> _]. }
  set (rid := if truthy (params_id req) then params_id req else body_id req).
  assert (Out : forall r : Response,
    (forall id, rid = Some (IsUUID id) ->
                hd_error (select_owner db id) <> Some (u_id u)) ->
    (inl r : Response + Request) = inr req' <->
    req' = req /\
    exists u0, Some u = Some u0 /\
      (is_admin (u_role u0) = true \/
       exists id, rid = Some (IsUUID id) /\
                  hd_error (select_owner db id) = Some (u_id u0))).
  { intros r No. split; [discriminate|].
    intros [_ (u0 & [= <-] & [F | (id & R & O)])]; [congruence|].
    now apply No in R. }
  destruct rid as [[id|raw]|] eqn:R; simpl;
    try (apply Out; intros; discriminate).
  - destruct (select_owner db id) as [|owner rest] eqn:O.
    + apply Out. intros id' [= <-]. rewrite O. discriminate.
    + destruct (N.eqb_spec owner (u_id u)) as [->|N]; simpl.
      * split; [intros [= <-]|now intros [-> _]].
        split; [reflexivity|]. exists u. split; [reflexivity|].
        right. exists id. rewrite O. auto.
      * apply Out. intros id' [= <-]. rewrite O. simpl. congruence.
  - destruct raw; simpl; apply Out; intros; discriminate.
Qed.

(** X6: on [articles], [oral_histories] and [artifacts] the ownership guard
    asks for a [user_id] column these tables do not have. A user who is not
    an admin and names a resource by a uuid is therefore answered 500,
    owner or not, on every route behind that guard. *)
Theorem requireOwnershipOrAdminOn_without_user_id t w req db u id :
  t <> comments_table ->
  user req = Some u ->
  is_admin (u_role u) = false ->
  params_id req = Some (IsUUID id) ->
  requireOwnershipOrAdminOn t w req db
  = inl (fail 500 "Ownership verification error"
           "An error occurred while verifying resource ownership").
Proof.
  intros T U A P. unfold requireOwnershipOrAdminOn. rewrite U, A, P.
  simpl. now destruct t.
Qed.

Lemma requireOwnershipOrAdminOn_without_user_id_witness :
  requireOwnershipOrAdminOn articles_table (Sample.world 2000 900)
    (with_user (Sample.on_comment "alice.jwt" 10) Sample.alice) Sample.db
  = inl (fail 500 "Ownership verification error"
           "An error occurred while verifying resource ownership").
Proof.
  apply (requireOwnershipOrAdminOn_without_user_id articles_table
           (Sample.world 2000 900)
           (with_user (Sample.on_comment "alice.jwt" 10) Sample.alice)
           Sample.db Sample.alice 10%N).
  - discriminate.
  - reflexivity.
  - reflexivity.
  - reflexivity.
Defined.

Lemma select_active_user us uid u :
  NoDup (map u_id us) ->
  find (fun x => N.eqb (u_id x) uid) us = Some u ->
  filter (fun x => N.eqb (u_id x) uid && u_is_active x) us
  = if u_is_active u then [u] else [].
Proof.
  induction us as [|x us IH]; simpl; [discriminate|].
  intros D F. inversion D as [|? ? Nx Dus]; subst.
  destruct (N.eqb_spec (u_id x) uid) as [E|E]; simpl.
  - injection F as ->.
    assert (Z : filter (fun x => N.eqb (u_id x) uid && u_is_active x) us = []).
    { clear IH Dus D. induction us as [|y us IH]; simpl; [reflexivity|].
      simpl in Nx. destruct (N.eqb_spec (u_id y) uid) as [Q|Q]; simpl.
      - exfalso. apply Nx. left. congruence.
      - apply IH. intros I. apply Nx. now right. }
    rewrite Z. now destruct (u_is_active u).
  - now apply IH.
Qed.

Lemma select_no_user us uid :
  find (fun x => N.eqb (u_id x) uid) us = None ->
  filter (fun x => N.eqb (u_id x) uid && u_is_active x) us = [].
Proof.
  induction us as [|x us IH]; simpl; [reflexivity|].
  destruct (N.eqb (u_id x) uid); simpl; [discriminate|exact IH].
Qed.

(** X7: [optionalAuth] never answers. On a [users] table with unique ids it
    attaches exactly the user [authenticateToken] would attach, and hands
    the request on untouched where [authenticateToken] would refuse it. *)
Theorem optionalAuth_agrees w req db :
  NoDup (map u_id (users db)) ->
  optionalAuth w req db
  = inr match authenticateToken w req db with
        | inl _ => req
        | inr req' => req'
        end.
Proof.
  intros D. unfold optionalAuth, authenticateToken, select_user.
  destruct (bearer_token req) as [[|c token]|]; try reflexivity.
  destruct (jwt_verify w (String c token)) as [uid|name].
  - destruct (find (fun u => N.eqb (u_id u) uid) (users db)) as [u|] eqn:F.
    + rewrite (select_active_user _ _ _ D F). now destruct (u_is_active u).
    + now rewrite (select_no_user _ _ F).
  - now destruct (String.eqb name "TokenExpiredError").
Qed.

Lemma optionalAuth_agrees_witness :
  optionalAuth (Sample.world 2000 900) (Sample.bearer "alice.jwt") Sample.db
  = inr (with_user (Sample.bearer "alice.jwt") Sample.alice).
Proof.
  apply (optionalAuth_agrees (Sample.world 2000 900)
           (Sample.bearer "alice.jwt") Sample.db).
  repeat constructor; simpl; intuition discriminate.
Defined.

(** * More of the comment router *)

(** ** What the list shows *)

Lemma insert_by_perm {A} (le : A -> A -> bool) x l :
  Permutation (insert_by le x l) (x :: l).
Proof.
  induction l as [|y l IH]; simpl; [reflexivity|].
  destruct (le x y); [reflexivity|].
  rewrite IH. apply perm_swap.
Qed.

(** [ORDER BY] neither drops nor invents rows. *)
Lemma order_by_perm {A} (le : A -> A -> bool) l :
  Permutation (order_by le l) l.
Proof.
  induction l as [|x l IH]; simpl; [reflexivity|].
  rewrite insert_by_perm. now constructor.
Qed.

Lemma limit_offset_In {A} limit offset (l : list A) x :
  In x (limit_offset limit offset l) -> In x l.
Proof.
  rewrite limit_offset_skipn. intros I.
  rewrite <- (firstn_skipn (Z.to_nat offset) l). apply in_or_app. right.
  rewrite <- (firstn_skipn (Z.to_nat limit) (skipn (Z.to_nat offset) l)).
  apply in_or_app. now left.
Qed.

Lemma join_users_In db cs c u :
  In (c, u) (join_users db cs) ->
  In c cs /\ In u (users db) /\ c_user_id c = u_id u.
Proof.
  unfold join_users. rewrite in_flat_map. intros (c' & I & M).
  apply in_map_iff in M. destruct M as (u' & [= <- <-] & F).
  apply filter_In in F. destruct F as [F Q]. apply N.eqb_eq in Q. auto.
Qed.

Lemma select_replies_In db id r :
  In r (select_replies db id) ->
  exists c,
    In c (comments db) /\ c_id c = rv_id r /\ c_parent_id c = Some id /\
    c_is_approved c = true /\ rv_content r = c_content c.
Proof.
  unfold select_replies. rewrite in_map_iff. intros ([c u] & <- & I).
  apply (Permutation_in _ (order_by_perm _ _)) in I.
  apply join_users_In in I. destruct I as (I & _ & _).
  apply filter_In in I. destruct I as [I P].
  apply andb_prop in P. destruct P as [P A].
  exists c. cbn. repeat split; auto.
  destruct (c_parent_id c) as [p|]; [|discriminate].
  simpl in P. apply N.eqb_eq in P. now subst.
Qed.

(** X8: the list route shows moderated content only. Every comment of the
    answer is an approved top-level comment of the requested article, and
    every reply under it is an approved comment whose parent it is; a
    pending comment is never shown, at either level. *)
Theorem list_shows_approved_only w req db cs pg db' :
  getArticleComments w req db = (json (ListBody cs pg), db') ->
  exists article,
    params_articleId req = Some (IsUUID article) /\
    Forall
      (fun v =>
         (exists c,
             In c (comments db) /\ c_id c = cv_id v /\
             c_article_id c = article /\ c_parent_id c = None /\
             c_is_approved c = true /\ cv_content v = c_content c) /\
         Forall
           (fun r =>
              exists c,
                In c (comments db) /\ c_id c = rv_id r /\
                c_parent_id c = Some (cv_id v) /\ c_is_approved c = true /\
                rv_content r = c_content c)
           (cv_replies v))
      cs.
Proof.
  intros R. apply getArticleComments_served in R.
  destruct R as (a & _ & P & _ & -> & _).
  exists a. split; [exact P|].
  apply Forall_forall. intros v I. apply in_map_iff in I.
  destruct I as (row & <- & I). apply limit_offset_In in I.
  apply (Permutation_in _ (order_by_perm _ _)) in I.
  unfold top_level_rows in I. apply in_map_iff in I.
  destruct I as ([c u] & <- & I). apply join_users_In in I.
  destruct I as (I & _ & _). apply filter_In in I. destruct I as [I T].
  unfold top_level in T. apply andb_prop in T. destruct T as [T A].
  apply andb_prop in T. destruct T as [T N]. apply N.eqb_eq in T.
  cbn. split.
  - exists c. repeat split; auto. now destruct (c_parent_id c).
  - apply Forall_forall. intros r Ir. now apply select_replies_In.
Qed.

Lemma list_shows_approved_only_witness :
  exists article,
    params_articleId (Sample.list_request 10 1 20 "oldest")
    = Some (IsUUID article) /\
    Forall
      (fun v =>
         (exists c,
             In c (comments Sample.db) /\ c_id c = cv_id v /\
             c_article_id c = article /\ c_parent_id c = None /\
             c_is_approved c = true /\ cv_content v = c_content c) /\
         Forall
           (fun r =>
              exists c,
                In c (comments Sample.db) /\ c_id c = rv_id r /\
                c_parent_id c = Some (cv_id v) /\ c_is_approved c = true /\
                rv_content r = c_content c)
           (cv_replies v))
      (map (comment_view Sample.db)
         (limit_offset 20 0
            (order_by (orderByClause "oldest") (top_level_rows Sample.db 10)))).
Proof.
  apply (list_shows_approved_only (Sample.world 2000 900)
           (Sample.list_request 10 1 20 "oldest") Sample.db _
           (mkPagination 1 1 2 false false) Sample.db).
  reflexivity.
Defined.

Lemma Sorted_skipn {A} (R : A -> A -> Prop) n :
  forall l, Sorted R l -> Sorted R (skipn n l).
Proof.
  induction n as [|n IH]; intros l S; [exact S|].
  destruct l as [|x l]; [constructor|]. simpl. apply IH. now inversion S.
Qed.

Lemma Sorted_firstn {A} (R : A -> A -> Prop) n :
  forall l, Sorted R l -> Sorted R (firstn n l).
Proof.
  induction n as [|n IH]; intros l S; [constructor|].
  destruct l as [|x l]; [constructor|]. simpl.
  inversion S as [|? ? S' H]; subst. constructor; [now apply IH|].
  destruct n; [constructor|].
  destruct l as [|y l]; simpl; constructor. now inversion H.
Qed.

Lemma Sorted_map_rel {A B} (R : A -> A -> Prop) (Q : B -> B -> Prop)
    (f : A -> B) l :
  (forall a b, R a b -> Q (f a) (f b)) ->
  Sorted R l -> Sorted Q (map f l).
Proof.
  intros H. induction 1 as [|x l S IH Hd]; simpl; constructor; auto.
  destruct Hd; simpl; constructor; auto.
Qed.

Lemma orderByClause_total sort a b :
  orderByClause sort a b = true \/ orderByClause sort b a = true.
Proof.
  unfold orderByClause.
  destruct (String.eqb sort "oldest"); [|destruct (String.eqb sort "likes")].
  - rewrite !Z.leb_le. lia.
  - rewrite !orb_true_iff, !andb_true_iff, !Z.ltb_lt, !Z.eqb_eq, !Z.leb_le.
    lia.
  - rewrite !Z.leb_le. lia.
Qed.

(** X9: the top-level comments of an answer come in the order the [sort]
    parameter names: [oldest] is ascending [createdAt]; [likes] is
    descending [likesCount] with the newer comment first among equals; and
    anything else, the default [newest] included, is descending
    [createdAt]. *)
Theorem list_order_follows_sort w req db cs pg db' :
  getArticleComments w req db = (json (ListBody cs pg), db') ->
  (sort_of req = "oldest" -> Sorted Z.le (map cv_createdAt cs)) /\
  (sort_of req = "likes" -> Sorted most_liked_first cs) /\
  (sort_of req <> "oldest" -> sort_of req <> "likes" ->
   Sorted Z.ge (map cv_createdAt cs)).
Proof.
  intros R. apply getArticleComments_served in R.
  destruct R as (a & _ & _ & _ & -> & _).
  pose proof (order_by_Sorted _ (orderByClause (sort_of req))
                (orderByClause_total (sort_of req))
                (top_level_rows db a)) as S.
  apply (Sorted_skipn _ (Z.to_nat (offset_of req))) in S.
  apply (Sorted_firstn _ (Z.to_nat (limit_of req))) in S.
  rewrite <- limit_offset_skipn in S.
  repeat split.
  - intros E. rewrite map_map. revert S. apply Sorted_map_rel.
    intros x y. unfold orderByClause. rewrite E. cbn. apply Z.leb_le.
  - intros E. revert S. apply Sorted_map_rel.
    intros x y. unfold orderByClause, most_liked_first. rewrite E. cbn.
    rewrite orb_true_iff, andb_true_iff, Z.ltb_lt, Z.eqb_eq, Z.leb_le.
    unfold r_created_at. tauto.
  - intros E1 E2. rewrite map_map. revert S. apply Sorted_map_rel.
    intros x y. unfold orderByClause.
    apply String.eqb_neq in E1, E2. rewrite E1, E2. cbn.
    rewrite Z.leb_le. unfold r_created_at. lia.
Qed.

Lemma list_order_follows_sort_witness :
  (sort_of (Sample.list_request 10 1 20 "likes") = "oldest" ->
   Sorted Z.le
     (map cv_createdAt
        (map (comment_view Sample.db)
           (limit_offset 20 0
              (order_by (orderByClause "likes")
                 (top_level_rows Sample.db 10)))))) /\
  (sort_of (Sample.list_request 10 1 20 "likes") = "likes" ->
   Sorted most_liked_first
     (map (comment_view Sample.db)
        (limit_offset 20 0
           (order_by (orderByClause "likes") (top_level_rows Sample.db 10))))) /\
  (sort_of (Sample.list_request 10 1 20 "likes") <> "oldest" ->
   sort_of (Sample.list_request 10 1 20 "likes") <> "likes" ->
   Sorted Z.ge
     (map cv_createdAt
        (map (comment_view Sample.db)
           (limit_offset 20 0
              (order_by (orderByClause "likes")
                 (top_level_rows Sample.db 10)))))).
Proof.
  apply (list_order_follows_sort (Sample.world 2000 900)
           (Sample.list_request 10 1 20 "likes") Sample.db _
           (mkPagination 1 1 2 false false) Sample.db).
  reflexivity.
Defined.

Lemma has_user_In db id :
  has_user db id = true <-> In id (map u_id (users db)).
Proof.
  unfold has_user. rewrite existsb_exists, in_map_iff.
  split; intros (u & A & B).
  - apply N.eqb_eq in B. eauto.
  - exists u. split; [exact B|]. now apply N.eqb_eq.
Qed.

Lemma filter_key_none {A} (key : A -> uuid) k (l : list A) :
  ~ In k (map key l) -> filter (fun x => N.eqb k (key x)) l = [].
Proof.
  induction l as [|x l IH]; simpl; [reflexivity|].
  intros N. destruct (N.eqb_spec k (key x)) as [E|E].
  - exfalso. apply N. now left.
  - apply IH. intros I. apply N. now right.
Qed.

(** A key that is unique and present selects exactly one row. *)
Lemma filter_key_one {A} (key : A -> uuid) k (l : list A) :
  NoDup (map key l) -> In k (map key l) ->
  exists x, filter (fun x => N.eqb k (key x)) l = [x].
Proof.
  induction l as [|x l IH]; simpl; [contradiction|].
  intros D I. inversion D as [|? ? Nx Dl]; subst.
  destruct (N.eqb_spec k (key x)) as [E|E].
  - exists x. rewrite filter_key_none; [reflexivity|]. now rewrite E.
  - destruct I as [I|I]; [congruence|]. now apply IH.
Qed.

(** With [users.id] unique and [comments.user_id] referring to it, the join
    with [users] keeps every comment once, in order. *)
Lemma join_users_exact db cs :
  NoDup (map u_id (users db)) ->
  (forall c, In c cs -> has_user db (c_user_id c) = true) ->
  map fst (join_users db cs) = cs.
Proof.
  intros D. unfold join_users.
  induction cs as [|c cs IH]; intros F; simpl; [reflexivity|].
  rewrite map_app, IH by (intros; apply F; now right).
  destruct (filter_key_one u_id (c_user_id c) (users db) D) as [u E].
  { apply has_user_In, F. now left. }
  now rewrite E.
Qed.

Lemma join_users_length db cs :
  NoDup (map u_id (users db)) ->
  (forall c, In c cs -> has_user db (c_user_id c) = true) ->
  List.length (join_users db cs) = List.length cs.
Proof.
  intros D F. rewrite <- (join_users_exact db cs D F) at 2.
  now rewrite length_map.
Qed.

(** X10: on a store that satisfies its keys, a page holds exactly the rows
    that are left after the pages before it, at most [limit] of them:
    [min(limit, max(0, totalComments - (page - 1) * limit))], for the page
    and the limit the query asks for and a count that JavaScript holds
    exactly. In particular a page never holds more than [limit] comments
    and a page beyond the last one is empty. *)
Theorem list_page_size w req db cs pg db' page limit :
  consistent db ->
  asks (query_page req) 1 page ->
  asks (query_limit req) 20 limit ->
  getArticleComments w req db = (json (ListBody cs pg), db') ->
  totalComments pg < 2 ^ 53 ->
  Z.of_nat (List.length cs)
  = Z.min limit (Z.max 0 (totalComments pg - (page - 1) * limit)).
Proof.
  intros K Ap Al R. apply getArticleComments_served in R.
  destruct R as (a & V & _ & _ & -> & -> & _).
  pose proof (offset_of_asked req page limit V Ap Al) as O.
  destruct (asked_page_and_limit req page limit V Ap Al)
    as (Pp & Pl & _ & ->).
  cbn [totalComments]. intros B. rewrite limit_offset_skipn.
  unfold count, top_level_rows in *.
  rewrite !length_map, length_firstn, length_skipn.
  rewrite (Permutation_length (order_by_perm _ _)), length_map.
  rewrite join_users_length.
  - assert (0 <= (page - 1) * limit) by nia. lia.
  - apply (users_pkey _ K).
  - intros c I. apply (comments_user_fkey _ K). now apply filter_In in I.
Qed.

Lemma sample_db_consistent : consistent Sample.db.
Proof.
  constructor; simpl;
    try (repeat constructor; simpl; intuition discriminate);
    intros; repeat match goal with
                   | H : _ \/ _ |- _ => destruct H
                   | H : False |- _ => contradiction
                   end; subst; try discriminate; try reflexivity;
    match goal with H : _ = Some _ |- _ => injection H as <- end; reflexivity.
Qed.

Lemma list_page_size_witness :
  Z.of_nat
    (List.length
       (map (comment_view Sample.db)
          (limit_offset 1 1
             (order_by (orderByClause "newest")
                (top_level_rows Sample.db 10)))))
  = Z.min 1 (Z.max 0 (2 - (2 - 1) * 1)).
Proof.
  apply (list_page_size (Sample.world 2000 900)
           (Sample.list_request 10 2 1 "newest") Sample.db _
           (mkPagination 2 2 2 false true) Sample.db 2 1).
  - exact sample_db_consistent.
  - left. reflexivity.
  - left. reflexivity.
  - reflexivity.
  - reflexivity.
Defined.

Lemma select_replies_length db id :
  consistent db ->
  Z.of_nat (List.length (select_replies db id)) = replies_count db id.
Proof.
  intros K. unfold select_replies, replies_count, count.
  rewrite length_map, (Permutation_length (order_by_perm _ _)).
  rewrite join_users_length; [reflexivity|apply (users_pkey _ K)|].
  intros c I. apply (comments_user_fkey _ K). now apply filter_In in I.
Qed.

(** X11: on a store that satisfies its keys, the [repliesCount] of every
    listed comment is the number of replies listed under it, and its
    [likesCount] is the number of like rows of the comment. *)
Theorem list_counts_match w req db cs pg db' :
  consistent db ->
  getArticleComments w req db = (json (ListBody cs pg), db') ->
  Forall
    (fun v =>
       cv_repliesCount v = Z.of_nat (List.length (cv_replies v)) /\
       cv_likesCount v
       = Z.of_nat
           (List.length
              (filter (fun l => N.eqb (l_comment_id l) (cv_id v))
                 (comment_likes db))))
    cs.
Proof.
  intros K R. apply getArticleComments_served in R.
  destruct R as (a & _ & _ & _ & -> & _).
  apply Forall_forall. intros v I. apply in_map_iff in I.
  destruct I as (row & <- & I). apply limit_offset_In in I.
  apply (Permutation_in _ (order_by_perm _ _)) in I.
  unfold top_level_rows in I. apply in_map_iff in I.
  destruct I as ([c u] & <- & _). cbn.
  split; [|reflexivity]. symmetry. now apply select_replies_length.
Qed.

Lemma list_counts_match_witness :
  Forall
    (fun v =>
       cv_repliesCount v = Z.of_nat (List.length (cv_replies v)) /\
       cv_likesCount v
       = Z.of_nat
           (List.length
              (filter (fun l => N.eqb (l_comment_id l) (cv_id v))
                 (comment_likes Sample.db))))
    (map (comment_view Sample.db)
       (limit_offset 20 0
          (order_by (orderByClause "newest") (top_level_rows Sample.db 10)))).
Proof.
  apply (list_counts_match (Sample.world 2000 900)
           (Sample.list_request 10 1 20 "newest") Sample.db _
           (mkPagination 1 1 2 false false) Sample.db).
  - exact sample_db_consistent.
  - reflexivity.
Defined.

(** ** Create *)

(** The list route reads [users], [articles], [comment_likes] and the
    approved rows of [comments], nothing else. *)
Lemma list_reads_approved_rows w req db db' :
  users db' = users db ->
  articles db' = articles db ->
  comment_likes db' = comment_likes db ->
  (forall p : Comment -> bool,
      (forall c, p c = true -> c_is_approved c = true) ->
      filter p (comments db') = filter p (comments db)) ->
  fst (getArticleComments w req db') = fst (getArticleComments w req db).
Proof.
  intros U A L C.
  assert (Lc : forall id, likes_count db' id = likes_count db id)
    by (intros; unfold likes_count; now rewrite L).
  assert (Rc : forall id, replies_count db' id = replies_count db id).
  { intros id. unfold replies_count, count. rewrite C; [reflexivity|].
    intros c H. now apply andb_prop in H. }
  assert (J : forall cs, join_users db' cs = join_users db cs)
    by (intros; unfold join_users; now rewrite U).
  assert (Sr : forall id, select_replies db' id = select_replies db id).
  { intros id. unfold select_replies. rewrite J, C.
    - apply map_ext. intros cu. now rewrite Lc.
    - intros c H. now apply andb_prop in H. }
  assert (T : forall a, filter (top_level a) (comments db')
                        = filter (top_level a) (comments db)).
  { intros a. apply C. intros c H. now apply andb_prop in H. }
  unfold getArticleComments.
  destruct (negb (valid_list_query req)); [reflexivity|].
  destruct (params_articleId req) as [[a|raw]|]; try reflexivity.
  unfold select_published_article. rewrite A.
  destruct (map a_id _); [reflexivity|].
  destruct (bigint_max <? _); [reflexivity|]. cbn [fst]. unfold json. f_equal.
  unfold count, top_level_rows. rewrite T, J. f_equal.
  rewrite (map_ext (comment_view db') (comment_view db)).
  - do 3 f_equal. apply map_ext. intros cu. now rewrite Lc, Rc.
  - intros r. unfold comment_view. now rewrite Sr.
Qed.

Lemma createComment_by w req db u :
  authenticated w req db u ->
  snd (createComment w req db) = db \/
  exists row,
    c_id row = gen_uuid w /\
    has_comment db (gen_uuid w) = false /\
    c_is_approved row = is_admin (u_role u) /\
    c_user_id row = u_id u /\
    snd (createComment w req db) = set_comments db (comments db ++ [row]).
Proof.
  intros A. unfold createComment. rewrite (route_authenticated _ _ _ _ _ A).
  destruct (createComment_handler w (with_user req u) db) as [resp db'] eqn:R.
  pose proof R as R'. apply createComment_handler_effect in R.
  destruct R as [[-> _]|(u' & row & m & U & F & I & P & -> & ->)]; auto.
  cbn [user with_user] in U. injection U as <-.
  right. exists row. cbn [snd]. repeat split; auto.
  revert R'. unfold createComment_handler.
  destruct (negb (valid_create_body (with_user req u))); [discriminate|].
  destruct (body_articleId (with_user req u)) as [[a|raw]|]; try discriminate.
  destruct (select_published_article db a) as [|x xs]; [discriminate|].
  match goal with |- context [if ?b then (fail 404 _ _, db) else _] =>
    destruct b end; [discriminate|].
  cbn [user with_user].
  destruct (text_param _) as [content|e0]; [|discriminate].
  match goal with |- context [insert_comment ?d ?i ?t ?c ?ar ?us ?p ?ap] =>
    destruct (insert_comment d i t c ar us p ap) as [[row' d']|e] eqn:E end;
    [|discriminate].
  apply insert_comment_rows in E. destruct E as (_ & -> & ->).
  intros [= _ _ _ _ _ E]. apply app_inj_tail in E. destruct E as [_ <-].
  reflexivity.
Qed.

(** X12: a comment created by a user who is not an admin waits for
    moderation out of sight: after the create, every list request is
    answered exactly as it was answered before it. *)
Theorem pending_comment_is_not_listed w req db u w' req' :
  authenticated w req db u ->
  is_admin (u_role u) = false ->
  fst (getArticleComments w' req' (snd (createComment w req db)))
  = fst (getArticleComments w' req' db).
Proof.
  intros A N.
  destruct (createComment_by w req db u A) as [E|(row & _ & _ & P & _ & E)];
    rewrite E; [reflexivity|].
  apply list_reads_approved_rows; try reflexivity.
  intros p H. cbn [comments set_comments]. rewrite filter_app. simpl.
  destruct (p row) eqn:Q; [|apply app_nil_r].
  apply H in Q. congruence.
Qed.

Lemma pending_comment_is_not_listed_witness :
  fst (getArticleComments (Sample.world 2001 901)
         (Sample.list_request 10 1 20 "newest")
         (snd (createComment (Sample.world 2000 900)
                 (Sample.create_request "alice.jwt" 10 (js "Hello") None)
                 Sample.db)))
  = fst (getArticleComments (Sample.world 2001 901)
           (Sample.list_request 10 1 20 "newest") Sample.db).
Proof.
  apply (pending_comment_is_not_listed (Sample.world 2000 900)
           (Sample.create_request "alice.jwt" 10 (js "Hello") None) Sample.db
           Sample.alice).
  - reflexivity.
  - reflexivity.
Defined.

(** X13: a create request that is not answered 201 writes nothing. *)
Theorem createComment_writes_only_on_201 w req db resp db' :
  createComment w req db = (resp, db') ->
  status resp <> 201 ->
  db' = db.
Proof.
  unfold createComment. cbn [route]. intros R N.
  destruct (authenticateToken w req db) as [r|req1].
  - now injection R as _ <-.
  - apply createComment_handler_effect in R.
    destruct R as [[-> _]|(u & row & m & _ & _ & _ & _ & _ & ->)];
      [reflexivity|]. now contradiction N.
Qed.

Lemma createComment_writes_only_on_201_witness :
  snd (createComment (Sample.world 2000 900)
         (Sample.create_request "alice.jwt" 11 (js "On a draft") None) Sample.db)
  = Sample.db.
Proof.
  apply (createComment_writes_only_on_201 (Sample.world 2000 900)
           (Sample.create_request "alice.jwt" 11 (js "On a draft") None) Sample.db
           (fst (createComment (Sample.world 2000 900)
                   (Sample.create_request "alice.jwt" 11 (js "On a draft") None)
                   Sample.db))).
  - reflexivity.
  - discriminate.
Defined.

Lemma select_parent_none db p a :
  (forall c, In c (comments db) -> c_id c = p ->
             c_article_id c <> a \/ c_is_approved c = false) ->
  select_parent db p a = [].
Proof.
  unfold select_parent. intros H.
  induction (comments db) as [|c cs IH]; simpl; [reflexivity|].
  destruct (N.eqb_spec (c_id c) p) as [E|E]; simpl.
  - destruct (H c (or_introl eq_refl) E) as [N|N].
    + apply N.eqb_neq in N. rewrite N. simpl. apply IH.
      intros c' I. apply H. now right.
    + rewrite N, andb_false_r. apply IH. intros c' I. apply H. now right.
  - apply IH. intros c' I. apply H. now right.
Qed.

(** X14: a reply can only be hung under an approved comment of the same
    article. When the comment named as parent is missing, is still pending
    or belongs to another article, the create is answered 404 [Parent
    comment not found] and writes nothing. *)
Theorem reply_needs_approved_parent w req db u a p :
  authenticated w req db u ->
  valid_create_body req = true ->
  body_articleId req = Some (IsUUID a) ->
  select_published_article db a <> [] ->
  body_parentId req = Some (IsUUID p) ->
  (forall c, In c (comments db) -> c_id c = p ->
             c_article_id c <> a \/ c_is_approved c = false) ->
  createComment w req db
  = (fail 404 "Parent comment not found"
       "The comment you are trying to reply to does not exist", db).
Proof.
  intros A V B P Pa H. unfold createComment.
  rewrite (route_authenticated _ _ _ _ _ A). unfold createComment_handler.
  replace (valid_create_body (with_user req u)) with true by now rewrite <- V.
  cbn [negb body_articleId body_parentId with_user]. rewrite B, Pa.
  destruct (select_published_article db a); [congruence|].
  now rewrite (select_parent_none _ _ _ H).
Qed.

Lemma reply_needs_approved_parent_witness :
  createComment (Sample.world 2000 900)
    (Sample.create_request "bob.jwt" 10 (js "Me too") (Some 103%N)) Sample.db
  = (fail 404 "Parent comment not found"
       "The comment you are trying to reply to does not exist", Sample.db).
Proof.
  apply (reply_needs_approved_parent (Sample.world 2000 900)
           (Sample.create_request "bob.jwt" 10 (js "Me too") (Some 103%N))
           Sample.db Sample.bob 10%N 103%N).
  - reflexivity.
  - reflexivity.
  - reflexivity.
  - discriminate.
  - reflexivity.
  - simpl. intros c I E.
    repeat (destruct I as [<-|I]; [try discriminate E; now right|]).
    contradiction.
Defined.





(** The text of the request above is stored trimmed at both ends, with
    U+FFFD for the surrogate that has no partner, and counts ten
    characters. A text that holds U+0000 is answered 500 and stores
    nothing; 334 euro signs are stored, as are a thousand hearts that
    carry a variation selector each; 1001 euro signs and a text of white
    space only are answered 400. *)
Example text_as_it_is_stored :
  let create content :=
    createComment (Sample.world 2000 900)
      (Sample.create_request "bob.jwt" 10 content None) Sample.db in
  option_map c_content
    (nth_error (comments (snd (create Sample.greeting))) 6)
  = Some (js "I agree " ++ [0xD83D%N; 0xDE42%N; 0xFFFD%N])%list /\
  len (js "I agree " ++ [0xD83D%N; 0xDE42%N; 0xFFFD%N])%list = 10 /\
  status (fst (create (js "a" ++ [0%N] ++ js "b")%list)) = 500 /\
  snd (create (js "a" ++ [0%N] ++ js "b")%list) = Sample.db /\
  status (fst (create (repeat 0x20AC%N 334))) = 201 /\
  status (fst (create (List.concat (repeat [0x2764%N; 0xFE0F%N] 1000))))
  = 201 /\
  status (fst (create (repeat 0x20AC%N 1001))) = 400 /\
  status (fst (create [0xA0%N; 0x2028%N; 0xFEFF%N])) = 400.
Proof. repeat split; vm_compute; reflexivity. Qed.

(** ** Delete *)

Lemma descends_mono d db id x :
  (forall c, In c (comments d) -> In c (comments db)) ->
  descends d id x -> descends db id x.
Proof.
  intros Sub. induction 1 as [|c p _ IH I P]; [constructor|].
  apply (descends_reply db id c p); auto.
Qed.

Lemma descends_trans db a b c :
  descends db a b -> descends db b c -> descends db a c.
Proof.
  intros Hab. induction 1 as [|x p _ IH I P]; [exact Hab|].
  apply (descends_reply db a x p); auto.
Qed.

Lemma descends_has_comment db id x :
  has_comment db id = true -> descends db id x -> has_comment db x = true.
Proof.
  intros H. induction 1 as [|c p _ _ I _]; [exact H|].
  apply has_comment_In. eauto.
Qed.

Lemma fold_prune_descends (step : DB -> uuid -> DB) :
  (forall d r, exists ids,
      step d r = prune ids d /\
      forall x, mem x ids = true -> descends d r x) ->
  forall l d, exists ids,
      fold_left step l d = prune ids d /\
      forall x, mem x ids = true -> exists r, In r l /\ descends d r x.
Proof.
  intros H l. induction l as [|r l IH]; intros d; cbn [fold_left].
  - exists []. split; [now rewrite prune_nil|discriminate].
  - destruct (H d r) as (s1 & E1 & D1).
    destruct (IH (step d r)) as (s2 & E2 & D2).
    exists (s1 ++ s2)%list. split; [now rewrite E2, E1, prune_prune|].
    intros x M. rewrite mem_app in M. apply orb_prop in M.
    destruct M as [M|M].
    + exists r. split; [now left|auto].
    + destruct (D2 x M) as (r' & I & D). exists r'. split; [now right|].
      revert D. apply descends_mono. rewrite E1. intros c Ic.
      now apply prune_comments in Ic.
Qed.

(** A cascade removes nothing but the comment and what descends from it. *)
Lemma delete_cascade_descends fuel :
  forall id db, exists ids,
    delete_cascade fuel id db = prune ids db /\
    forall x, mem x ids = true -> descends db id x.
Proof.
  induction fuel as [|f IH]; intros id db.
  - exists []. split; [now rewrite prune_nil|discriminate].
  - rewrite delete_cascade_S. destruct (has_comment db id).
    + destruct (fold_prune_descends (fun d r => delete_cascade f r d)
                  (fun d r => IH r d)
                  (map c_id
                     (filter (fun c => opt_uuid_is (c_parent_id c) id)
                        (comments db)))
                  (prune [id] db)) as (s & E & D).
      exists ([id] ++ s)%list. split; [now rewrite E, prune_prune|].
      intros x M. rewrite mem_app in M. apply orb_prop in M.
      destruct M as [M|M].
      * unfold mem in M. simpl in M. rewrite orb_false_r in M.
        apply N.eqb_eq in M. subst. constructor.
      * destruct (D x M) as (r & I & Dr).
        apply in_map_iff in I. destruct I as (c & <- & I).
        apply filter_In in I. destruct I as [I P].
        apply (descends_trans db id (c_id c)).
        -- apply (descends_reply db id c id); [constructor|exact I|].
           destruct (c_parent_id c) as [p|]; [|discriminate].
           simpl in P. apply N.eqb_eq in P. now subst.
        -- revert Dr. apply descends_mono. intros c' Ic.
           now apply prune_comments in Ic.
    + exists []. split; [now rewrite prune_nil|discriminate].
Qed.

Lemma prune_keeps_comment ids db c :
  In c (comments db) -> mem (c_id c) ids = false ->
  In c (comments (prune ids db)).
Proof.
  intros I M. unfold prune. simpl. apply filter_In. split; [exact I|].
  now rewrite M.
Qed.

Lemma prune_keeps_like ids db l :
  In l (comment_likes db) -> mem (l_comment_id l) ids = false ->
  In l (comment_likes (prune ids db)).
Proof.
  intros I M. unfold prune. simpl. apply filter_In. split; [exact I|].
  now rewrite M.
Qed.

(** What a [DELETE FROM comments WHERE id = $1] of an existing comment
    leaves: the rows that do not descend from it, and their likes. *)
Lemma delete_comment_exact db id :
  has_comment db id = true ->
  let db' := snd (delete_comment db id) in
  users db' = users db /\ articles db' = articles db /\
  (forall c, In c (comments db') <->
             In c (comments db) /\ ~ descends db id (c_id c)) /\
  (forall l, In l (comment_likes db') <->
             In l (comment_likes db) /\ ~ descends db id (l_comment_id l)).
Proof.
  intros H. unfold delete_comment. cbn [snd].
  set (fuel := S (List.length (comments db))).
  destruct (delete_cascade_descends fuel id db) as (s & E & Sound).
  pose proof (delete_cascade_closed fuel id db ltac:(subst fuel; lia))
    as (_ & Cp & Cl).
  assert (Gone : forall x, descends db id x ->
                           has_comment (delete_cascade fuel id db) x = false).
  { induction 1 as [|c p D IH I P].
    - apply delete_cascade_removes.
    - destruct (has_comment (delete_cascade fuel id db) (c_id c)) eqn:T;
        [|reflexivity].
      exfalso. apply has_comment_In in T. destruct T as (c' & I' & Q).
      rewrite E in I'. apply prune_comments in I'. destruct I' as [_ M].
      rewrite Q in M.
      pose proof (prune_keeps_comment s db c I M) as Ic. rewrite <- E in Ic.
      pose proof (Cp c p Ic P (descends_has_comment _ _ _ H D)). congruence. }
  rewrite E at 1 2. repeat split; try reflexivity.
  - rewrite E in H0. now apply prune_comments in H0.
  - intros D. apply Gone in D.
    assert (has_comment (delete_cascade fuel id db) (c_id c) = true)
      by (apply has_comment_In; eauto). congruence.
  - intros [I N]. rewrite E. apply prune_keeps_comment; [exact I|].
    destruct (mem (c_id c) s) eqn:M; [|reflexivity].
    exfalso. apply N. now apply Sound.
  - rewrite E in H0. now apply prune_likes in H0.
  - intros D. pose proof (Gone _ D) as G.
    pose proof (Cl l H0 (descends_has_comment _ _ _ H D)). congruence.
  - intros [I N]. rewrite E. apply prune_keeps_like; [exact I|].
    destruct (mem (l_comment_id l) s) eqn:M; [|reflexivity].
    exfalso. apply N. now apply Sound.
Qed.

(** X16: a delete that is answered 200 removes the named comment with its
    whole thread and nothing else: the comments left are exactly those that
    are neither the comment nor a reply, at any depth, under it; the like
    rows left are exactly the like rows of the comments left; [users] and
    [articles] are untouched. *)
Theorem deleteComment_removes_the_thread w req db resp db' :
  deleteComment w req db = (resp, db') ->
  status resp = 200 ->
  exists id,
    params_id req = Some (IsUUID id) /\
    users db' = users db /\ articles db' = articles db /\
    (forall c, In c (comments db') <->
               In c (comments db) /\ ~ descends db id (c_id c)) /\
    (forall l, In l (comment_likes db') <->
               In l (comment_likes db) /\ ~ descends db id (l_comment_id l)).
Proof.
  intros R St. unfold deleteComment in R.
  apply guarded_route_served in R; [|lia].
  destruct R as (u & _ & _ & R). unfold deleteComment_handler in R.
  cbn [params_id with_user] in R.
  destruct (params_id req) as [[id|raw]|];
    try (injection R as <- <-; discriminate).
  destruct (has_comment db id) eqn:H.
  - pose proof (delete_comment_exact db id H) as X.
    destruct (delete_comment db id) as [[|r rows] d];
      injection R as <- <-; [discriminate|].
    exists id. cbn [snd] in X. tauto.
  - apply deleted_rows in H.
    destruct (delete_comment db id) as [rows d]. cbn [fst] in H. subst rows.
    injection R as <- <-. discriminate.
Qed.

Lemma deleteComment_removes_the_thread_witness :
  let w := Sample.world 2000 900 in
  let req := Sample.on_comment "root.jwt" 101 in
  let db' := snd (deleteComment w req Sample.db) in
  exists id,
    params_id req = Some (IsUUID id) /\
    users db' = users Sample.db /\ articles db' = articles Sample.db /\
    (forall c, In c (comments db') <->
               In c (comments Sample.db) /\ ~ descends Sample.db id (c_id c)) /\
    (forall l, In l (comment_likes db') <->
               In l (comment_likes Sample.db) /\
               ~ descends Sample.db id (l_comment_id l)).
Proof.
  apply (deleteComment_removes_the_thread (Sample.world 2000 900)
           (Sample.on_comment "root.jwt" 101) Sample.db
           (fst (deleteComment (Sample.world 2000 900)
                   (Sample.on_comment "root.jwt" 101) Sample.db))).
  - reflexivity.
  - reflexivity.
Defined.

(** On the sample archive the delete of reply 101 takes the nested reply 104
    and the like rows of both with it, and nothing else. *)
Example delete_of_a_reply_on_the_sample :
  let db' := snd (deleteComment (Sample.world 2000 900)
                    (Sample.on_comment "root.jwt" 101) Sample.db) in
  map c_id (comments db') = [100%N; 102%N; 103%N; 105%N] /\
  map l_id (comment_likes db') = [500%N].
Proof. split; reflexivity. Qed.

Lemma delete_comment_missing db id :
  has_comment db id = false -> delete_comment db id = ([], db).
Proof.
  intros H. unfold delete_comment. rewrite delete_cascade_S, H.
  f_equal. now apply deleted_rows.
Qed.

(** X17: a delete that is not answered 200 writes nothing. *)
Theorem deleteComment_writes_only_on_200 w req db resp db' :
  deleteComment w req db = (resp, db') ->
  status resp <> 200 ->
  db' = db.
Proof.
  intros R N. unfold deleteComment in R. apply guarded_route_cases in R.
  destruct R as [[-> _]|(u & _ & R)]; [reflexivity|].
  unfold deleteComment_handler in R. cbn [params_id with_user] in R.
  destruct (params_id req) as [[id|raw]|]; try (now injection R as _ <-).
  destruct (has_comment db id) eqn:H.
  - pose proof (deleted_rows db id) as Z.
    destruct (delete_comment db id) as [[|r rows] d]; cbn [fst] in Z.
    + destruct Z as [Z _]. specialize (Z eq_refl). congruence.
    + injection R as <- <-. now contradiction N.
  - rewrite (delete_comment_missing _ _ H) in R. now injection R as _ <-.
Qed.

Lemma deleteComment_writes_only_on_200_witness :
  snd (deleteComment (Sample.world 2000 900)
         (Sample.on_comment "bob.jwt" 100) Sample.db)
  = Sample.db.
Proof.
  apply (deleteComment_writes_only_on_200 (Sample.world 2000 900)
           (Sample.on_comment "bob.jwt" 100) Sample.db
           (fst (deleteComment (Sample.world 2000 900)
                   (Sample.on_comment "bob.jwt" 100) Sample.db))).
  - reflexivity.
  - discriminate.
Defined.

Lemma select_owner_missing db id :
  has_comment db id = false -> select_owner db id = [].
Proof.
  unfold has_comment, select_owner.
  induction (comments db) as [|c cs IH]; simpl; [reflexivity|].
  destruct (N.eqb (c_id c) id); simpl; [discriminate|exact IH].
Qed.

(** X18: a comment can be deleted once. After a delete that was answered
    200, the same request is answered 404 and writes nothing. *)
Theorem deleteComment_twice w req db resp db' :
  deleteComment w req db = (resp, db') ->
  status resp = 200 ->
  status (fst (deleteComment w req db')) = 404 /\
  snd (deleteComment w req db') = db'.
Proof.
  intros R St.
  assert (exists id u,
            params_id req = Some (IsUUID id) /\ authenticated w req db u /\
            has_comment db' id = false /\ users db' = users db)
    as (id & u & P & A & G & U).
  { pose proof R as R'. unfold deleteComment in R'.
    apply guarded_route_served in R'; [|lia].
    destruct R' as (u & A & _ & R'). unfold deleteComment_handler in R'.
    cbn [params_id with_user] in R'.
    destruct (params_id req) as [[id|raw]|];
      try (injection R' as <- <-; discriminate).
    exists id, u. split; [reflexivity|]. split; [exact A|].
    destruct (has_comment db id) eqn:H.
    - pose proof (delete_comment_cascades db id H) as (Us & _ & D & _).
      destruct (delete_comment db id) as [rows d]. cbn [snd] in *.
      assert (db' = d) as -> by (destruct rows; now injection R').
      auto.
    - rewrite (delete_comment_missing _ _ H) in R'.
      injection R' as <- <-. discriminate. }
  unfold deleteComment. cbn [route].
  unfold authenticated in A.
  rewrite (authenticateToken_users w req db db' U), A.
  unfold requireOwnershipOrAdmin. cbn [user params_id body_id with_user].
  rewrite P. cbn [truthy negb].
  rewrite (select_owner_missing _ _ G).
  destruct (is_admin (u_role u)); [|split; reflexivity].
  unfold deleteComment_handler. cbn [params_id with_user]. rewrite P.
  rewrite (delete_comment_missing _ _ G). split; reflexivity.
Qed.

Lemma deleteComment_twice_witness :
  let w := Sample.world 2000 900 in
  let req := Sample.on_comment "alice.jwt" 100 in
  let db' := snd (deleteComment w req Sample.db) in
  status (fst (deleteComment w req db')) = 404 /\
  snd (deleteComment w req db') = db'.
Proof.
  apply (deleteComment_twice (Sample.world 2000 900)
           (Sample.on_comment "alice.jwt" 100) Sample.db
           (fst (deleteComment (Sample.world 2000 900)
                   (Sample.on_comment "alice.jwt" 100) Sample.db))).
  - reflexivity.
  - reflexivity.
Defined.

Lemma guard_refuses_stranger h w req db u id owner rest :
  authenticated w req db u ->
  params_id req = Some (IsUUID id) ->
  is_admin (u_role u) = false ->
  select_owner db id = owner :: rest ->
  owner <> u_id u ->
  route [authenticateToken; requireOwnershipOrAdmin] h w req db
  = (fail 403 "Access denied" "You can only modify your own resources", db).
Proof.
  intros A P R O N. cbn [route]. unfold authenticated in A. rewrite A.
  unfold requireOwnershipOrAdmin. cbn [user params_id body_id with_user].
  rewrite R, P. cbn [truthy negb]. rewrite O.
  apply N.eqb_neq in N. now rewrite N.
Qed.

(** X19: a user who is neither an admin nor the author of a comment can
    neither edit, nor delete, nor approve it: each of the three requests is
    answered 403 [Access denied] and writes nothing. *)
Theorem strangers_are_refused w req db u id owner rest :
  authenticated w req db u ->
  params_id req = Some (IsUUID id) ->
  is_admin (u_role u) = false ->
  select_owner db id = owner :: rest ->
  owner <> u_id u ->
  let refused :=
    (fail 403 "Access denied" "You can only modify your own resources", db) in
  updateComment w req db = refused /\
  deleteComment w req db = refused /\
  approveComment w req db = refused.
Proof.
  intros A P R O N. cbn zeta.
  unfold updateComment, deleteComment, approveComment.
  now rewrite !(guard_refuses_stranger _ w req db u id owner rest A P R O N).
Qed.

Lemma strangers_are_refused_witness :
  let w := Sample.world 2000 900 in
  let req := Sample.update_request "bob.jwt" 100 (js "Mine now") in
  let refused :=
    (fail 403 "Access denied" "You can only modify your own resources",
     Sample.db) in
  updateComment w req Sample.db = refused /\
  deleteComment w req Sample.db = refused /\
  approveComment w req Sample.db = refused.
Proof.
  apply (strangers_are_refused (Sample.world 2000 900)
           (Sample.update_request "bob.jwt" 100 (js "Mine now")) Sample.db
           Sample.bob 100%N 1%N []).
  - reflexivity.
  - reflexivity.
  - reflexivity.
  - reflexivity.
  - discriminate.
Defined.

(** * The keys and constraints of the store are kept *)

Lemma NoDup_map_filter {A B} (f : A -> B) (p : A -> bool) l :
  NoDup (map f l) -> NoDup (map f (filter p l)).
Proof.
  induction l as [|x l IH]; simpl; [auto|].
  intros D. inversion D as [|? ? N D']; subst.
  destruct (p x); simpl; [|auto]. constructor; [|auto].
  intros I. apply N. apply in_map_iff in I. destruct I as (y & E & I).
  apply filter_In in I. apply in_map_iff. exists y. tauto.
Qed.

Lemma NoDup_map_snoc {A B} (f : A -> B) l x :
  NoDup (map f l) -> ~ In (f x) (map f l) -> NoDup (map f (l ++ [x])).
Proof.
  intros D N. rewrite map_app. apply NoDup_app; auto.
  - simpl. constructor; [auto|constructor].
  - intros a I [<-|[]]. contradiction.
Qed.

Lemma has_comment_ids db id :
  has_comment db id = true <-> In id (map c_id (comments db)).
Proof.
  rewrite has_comment_In, in_map_iff.
  split; intros (c & A & B); exists c; tauto.
Qed.

Lemma has_comment_same_ids db db' id :
  map c_id (comments db') = map c_id (comments db) ->
  has_comment db' id = has_comment db id.
Proof.
  intros E. apply eq_true_iff_eq. now rewrite !has_comment_ids, E.
Qed.

Lemma has_like_pairs db c u :
  has_like db c u = true <->
  In (c, u) (map (fun l => (l_comment_id l, l_user_id l)) (comment_likes db)).
Proof.
  unfold has_like. rewrite existsb_exists, in_map_iff.
  split; intros (l & A & B).
  - apply andb_prop in B. destruct B as [B1 B2].
    apply N.eqb_eq in B1, B2. exists l. subst. auto.
  - exists l. injection A as <- <-. now rewrite !N.eqb_refl.
Qed.

Lemma has_like_id_ids db id :
  has_like_id db id = true <-> In id (map l_id (comment_likes db)).
Proof.
  unfold has_like_id. rewrite existsb_exists, in_map_iff.
  split; intros (l & A & B).
  - apply N.eqb_eq in B. eauto.
  - exists l. split; [exact B|]. now apply N.eqb_eq.
Qed.

Lemma not_true_false b : b = false -> b <> true.
Proof. now intros ->. Qed.

(** A successful [INSERT INTO comments] keeps the store consistent. *)
Lemma insert_comment_consistent db id t content a usr parent approved row db' :
  consistent db ->
  insert_comment db id t content a usr parent approved = Rows (row, db') ->
  consistent db'.
Proof.
  intros K. unfold insert_comment.
  destruct (has_comment db id) eqn:F; [discriminate|].
  destruct (has_article db a) eqn:Ha; [|discriminate].
  destruct (has_user db usr) eqn:Hu; [|discriminate]. cbn [negb].
  destruct (match parent with Some p => negb (has_comment db p) | None => false end)
    eqn:Hp; [discriminate|].
  intros [= <- <-].
  set (row := mkComment id content a usr parent approved t t).
  assert (Grow : forall x, has_comment db x = true ->
            has_comment (set_comments db (comments db ++ [row])) x = true).
  { intros x H. unfold has_comment, set_comments. cbn [comments].
    rewrite existsb_app. unfold has_comment in H. now rewrite H. }
  destruct K as [K1 K2 K3 K4 K5 K6 K7 K8 K9 K10].
  constructor; unfold has_article, has_user in *;
    cbn [users articles comments comment_likes set_comments].
  - exact K1.
  - exact K2.
  - apply NoDup_map_snoc; [exact K3|]. cbn [c_id row].
    intros I. apply has_comment_ids in I. congruence.
  - exact K4.
  - exact K5.
  - intros c I. apply in_app_or in I. destruct I as [I|[<-|[]]]; auto.
  - intros c I. apply in_app_or in I. destruct I as [I|[<-|[]]]; auto.
  - intros c p I Q. apply Grow. apply in_app_or in I.
    destruct I as [I|[<-|[]]]; [eauto|]. cbn in Q. rewrite Q in Hp.
    now apply negb_false_iff in Hp.
  - intros l I. apply Grow. auto.
  - exact K10.
Qed.

(** A successful [INSERT INTO comment_likes] keeps the store consistent. *)
Lemma insert_like_consistent db id t c u db' :
  consistent db ->
  insert_like db id t c u = Rows db' ->
  consistent db'.
Proof.
  intros K. unfold insert_like.
  destruct (has_like_id db id) eqn:F; [discriminate|].
  destruct (has_like db c u) eqn:L; [discriminate|].
  destruct (has_comment db c) eqn:Hc; [|discriminate].
  destruct (has_user db u) eqn:Hu; [|discriminate].
  intros [= <-].
  destruct K as [K1 K2 K3 K4 K5 K6 K7 K8 K9 K10].
  constructor; unfold has_article, has_user, has_comment in *;
    cbn [users articles comments comment_likes set_likes].
  - exact K1.
  - exact K2.
  - exact K3.
  - apply NoDup_map_snoc; [exact K4|]. cbn [l_id].
    intros I. apply has_like_id_ids in I. congruence.
  - apply (NoDup_map_snoc (fun l => (l_comment_id l, l_user_id l)));
      [exact K5|]. cbn. intros I. apply has_like_pairs in I. congruence.
  - exact K6.
  - exact K7.
  - exact K8.
  - intros l I. apply in_app_or in I. destruct I as [I|[<-|[]]]; auto.
  - intros l I. apply in_app_or in I. destruct I as [I|[<-|[]]]; auto.
Qed.

Lemma delete_like_consistent db c u :
  consistent db -> consistent (delete_like db c u).
Proof.
  intros K. destruct K as [K1 K2 K3 K4 K5 K6 K7 K8 K9 K10].
  constructor; unfold has_article, has_user, has_comment in *;
    cbn [users articles comments comment_likes delete_like set_likes].
  - exact K1.
  - exact K2.
  - exact K3.
  - now apply NoDup_map_filter.
  - now apply NoDup_map_filter.
  - exact K6.
  - exact K7.
  - exact K8.
  - intros l I. apply filter_In in I. destruct I as [I _]. auto.
  - intros l I. apply filter_In in I. destruct I as [I _]. auto.
Qed.

(** An [UPDATE comments] that rewrites neither the id nor a reference keeps
    the store consistent. *)
Lemma update_consistent (f : Comment -> Comment) db :
  (forall c, c_id (f c) = c_id c /\ c_article_id (f c) = c_article_id c /\
             c_user_id (f c) = c_user_id c /\
             c_parent_id (f c) = c_parent_id c) ->
  consistent db ->
  consistent (set_comments db (map f (comments db))).
Proof.
  intros F K.
  assert (Ids : map c_id (map f (comments db)) = map c_id (comments db)).
  { rewrite map_map. apply map_ext. intros c. apply F. }
  assert (Hc : forall x, has_comment (set_comments db (map f (comments db))) x
                         = has_comment db x).
  { intros x. now apply has_comment_same_ids. }
  destruct K as [K1 K2 K3 K4 K5 K6 K7 K8 K9 K10].
  constructor; unfold has_article, has_user in *;
    cbn [users articles comments comment_likes set_comments].
  - exact K1.
  - exact K2.
  - now rewrite Ids.
  - exact K4.
  - exact K5.
  - intros c I. apply in_map_iff in I. destruct I as (c0 & <- & I).
    destruct (F c0) as (_ & -> & _). auto.
  - intros c I. apply in_map_iff in I. destruct I as (c0 & <- & I).
    destruct (F c0) as (_ & _ & -> & _). auto.
  - intros c p I Q. apply in_map_iff in I. destruct I as (c0 & <- & I).
    destruct (F c0) as (_ & _ & _ & E). rewrite E in Q. rewrite Hc. eauto.
  - intros l I. rewrite Hc. auto.
  - exact K10.
Qed.

(** A complete cascade keeps the store consistent. *)
Lemma cascade_consistent db db' :
  consistent db -> cascade_closed db db' -> consistent db'.
Proof.
  intros K ([ids ->] & Cp & Cl).
  destruct K as [K1 K2 K3 K4 K5 K6 K7 K8 K9 K10].
  constructor; unfold has_article, has_user in *;
    cbn [users articles comments comment_likes prune].
  - exact K1.
  - exact K2.
  - now apply NoDup_map_filter.
  - now apply NoDup_map_filter.
  - now apply NoDup_map_filter.
  - intros c I. apply filter_In in I. destruct I as [I _]. auto.
  - intros c I. apply filter_In in I. destruct I as [I _]. auto.
  - intros c p I Q. apply (Cp c p I Q).
    apply prune_comments in I. destruct I as [I _]. eauto.
  - intros l I. apply (Cl l I).
    apply prune_likes in I. destruct I as [I _]. auto.
  - intros l I. apply filter_In in I. destruct I as [I _]. auto.
Qed.

Lemma createComment_primitive w req db :
  snd (createComment w req db) = db \/
  exists id t content a usr parent approved row,
    insert_comment db id t content a usr parent approved
    = Rows (row, snd (createComment w req db)).
Proof.
  unfold createComment. cbn [route].
  destruct (authenticateToken w req db) as [r|req1]; [now left|].
  unfold createComment_handler.
  destruct (negb (valid_create_body req1)); [now left|].
  destruct (body_articleId req1) as [[a|raw]|]; try (now left).
  destruct (select_published_article db a) as [|x xs]; [now left|].
  match goal with |- context [if ?b then (fail 404 _ _, db) else _] =>
    destruct b end; [now left|].
  destruct (user req1) as [u|]; [|now left].
  destruct (text_param _) as [content|e0]; [|now left].
  match goal with |- context [insert_comment ?d ?i ?t ?c ?ar ?us ?p ?ap] =>
    destruct (insert_comment d i t c ar us p ap) as [[row d']|e] eqn:E end;
    [|now left].
  right. cbn [snd]. eauto 10.
Qed.

Lemma toggleLike_primitive w req db :
  snd (toggleLike w req db) = db \/
  (exists id u, snd (toggleLike w req db) = delete_like db id u) \/
  (exists g t id u, insert_like db g t id u = Rows (snd (toggleLike w req db))).
Proof.
  unfold toggleLike, toggleLike_among. cbn [route].
  destruct (authenticateToken w req db) as [r|req1]; [now left|].
  unfold toggleLike_handler_among.
  destruct (params_id req1) as [[id|raw]|]; try (now left).
  destruct (select_approved_comment db id) as [|found rest]; [now left|].
  destruct (user req1) as [u|]; [|now left].
  destruct (select_like db id (u_id u)) as [|like likes].
  - destruct (insert_like db (gen_uuid w) (now w) id (u_id u)) as [d|e] eqn:E;
      [|now left].
    right. right. cbn [snd]. eauto.
  - right. left. cbn [snd]. eauto.
Qed.

Lemma deleteComment_primitive w req db :
  snd (deleteComment w req db) = db \/
  exists id,
    snd (deleteComment w req db)
    = delete_cascade (S (List.length (comments db))) id db.
Proof.
  unfold deleteComment.
  destruct (guarded_route_effect deleteComment_handler w req db) as [E|[u E]];
    rewrite E; auto.
  unfold deleteComment_handler. cbn [params_id with_user].
  destruct (params_id req) as [[id|raw]|]; auto.
  right. exists id. unfold delete_comment.
  now destruct (map c_id (filter (fun c => N.eqb (c_id c) id) (comments db))).
Qed.

Lemma has_article_filter db id x :
  x <> id ->
  existsb (fun a => N.eqb (a_id a) x)
    (filter (fun a => negb (N.eqb (a_id a) id)) (articles db))
  = has_article db x.
Proof.
  intros N. unfold has_article.
  induction (articles db) as [|a l IH]; simpl; [reflexivity|].
  destruct (N.eqb_spec (a_id a) id) as [E|E]; simpl.
  - rewrite IH. destruct (N.eqb_spec (a_id a) x); [congruence|reflexivity].
  - now rewrite IH.
Qed.

(** [DELETE FROM articles] keeps the store consistent: the comments of the
    article go with it, each with its own thread and likes. *)
Lemma delete_article_consistent db id :
  consistent db -> consistent (snd (delete_article db id)).
Proof.
  intros K. unfold delete_article. cbn [snd].
  destruct (has_article db id) eqn:Ha; [|exact K].
  set (n := List.length (comments db)).
  set (db1 := mkDB (users db)
                (filter (fun a => negb (N.eqb (a_id a) id)) (articles db))
                (comments db) (comment_likes db)).
  set (doomed := map c_id
                   (filter (fun c => N.eqb (c_article_id c) id) (comments db))).
  pose proof (fold_cascade_closed (S n)
                (fun i d => delete_cascade_closed (S n) i d) doomed db1
                ltac:(subst db1 n; cbn [comments]; lia)) as C.
  set (db' := fold_left _ doomed db1) in *.
  destruct C as ([ids E] & Cp & Cl).
  assert (Gone : forall c, In c (comments db') -> c_article_id c <> id).
  { intros c I Q.
    assert (In c (comments db)) as Ic.
    { rewrite E in I. now apply prune_comments in I. }
    assert (has_comment db' (c_id c) = true) as T
        by (apply has_comment_In; eauto).
    assert (has_comment db' (c_id c) = false) as F; [|congruence].
    subst db'. apply fold_cascade_removes. subst doomed.
    apply in_map, filter_In. split; [exact Ic|]. now apply N.eqb_eq. }
  destruct K as [K1 K2 K3 K4 K5 K6 K7 K8 K9 K10].
  assert (Ic : forall c, In c (comments db') -> In c (comments db)).
  { intros c I. rewrite E in I. now apply prune_comments in I. }
  assert (Il : forall l, In l (comment_likes db') -> In l (comment_likes db)).
  { intros l I. rewrite E in I. now apply prune_likes in I. }
  constructor.
  - rewrite E. exact K1.
  - rewrite E. cbn [articles prune db1]. now apply NoDup_map_filter.
  - rewrite E. cbn [comments prune db1]. now apply NoDup_map_filter.
  - rewrite E. cbn [comment_likes prune db1]. now apply NoDup_map_filter.
  - rewrite E. cbn [comment_likes prune db1]. now apply NoDup_map_filter.
  - intros c I. pose proof (Gone c I) as G. unfold has_article.
    rewrite E. cbn [articles prune db1]. rewrite has_article_filter by auto.
    auto.
  - intros c I. unfold has_user. rewrite E. cbn [users prune db1].
    apply K7. auto.
  - intros c p I Q. apply (Cp c p I Q). apply (K8 c p); auto.
  - intros l I. apply (Cl l I). apply K9. auto.
  - intros l I. unfold has_user. rewrite E. cbn [users prune db1].
    apply K10. auto.
Qed.

Lemma serve_consistent db call : consistent db -> consistent (serve db call).
Proof.
  intros K. destruct call as [[r w] req]. unfold serve. cbn [fst snd].
  destruct r; cbn [router].
  - now rewrite getArticleComments_reads.
  - destruct (createComment_primitive w req db)
      as [E|(id & t & content & a & usr & parent & approved & row & E)].
    + now rewrite E.
    + exact (insert_comment_consistent _ _ _ _ _ _ _ _ _ _ K E).
  - destruct (updateComment_effect w req db) as [E|(i & content & E)];
      rewrite E; auto.
    unfold update_content. cbn [snd]. apply update_consistent; auto.
    intros c. now destruct (N.eqb (c_id c) i).
  - apply cascade_consistent with (db := db); [exact K|].
    destruct (deleteComment_primitive w req db) as [E|(i & E)]; rewrite E.
    + apply cascade_closed_refl.
    + apply delete_cascade_closed. lia.
  - destruct (toggleLike_primitive w req db)
      as [E|[(i & u & E)|(g & t & i & u & E)]].
    + now rewrite E.
    + rewrite E. now apply delete_like_consistent.
    + exact (insert_like_consistent _ _ _ _ _ _ K E).
  - destruct (approveComment_effect w req db) as [E|(i & E)]; rewrite E; auto.
    unfold update_approved. cbn [snd]. apply update_consistent; auto.
    intros c. now destruct (N.eqb (c_id c) i).
  - now rewrite getPendingComments_reads.
Qed.

Lemma deleteArticle_effect w req db :
  snd (deleteArticle w req db) = db \/
  exists id, snd (deleteArticle w req db) = snd (delete_article db id).
Proof.
  unfold deleteArticle. cbn [route].
  destruct (authenticateToken w req db) as [r|req1]; [now left|].
  destruct (requireOwnershipOrAdminOn articles_table w req1 db) as [r|req2];
    [now left|].
  unfold deleteArticle_handler.
  destruct (params_id req2) as [[id|raw]|]; try (now left).
  right. exists id. now destruct (delete_article db id) as [[|x xs] d].
Qed.

(** X20: the routes keep the store consistent. Starting from a store that
    satisfies the primary keys, [UNIQUE(comment_id, user_id)] and the
    foreign keys of schema.sql, every sequence of requests to the seven
    comment routes and to the article delete leaves a store that satisfies
    them: no duplicate id, at most one like per comment and user, no
    comment without its article, author or parent, no like without its
    comment or user. *)
Theorem store_stays_consistent calls db :
  consistent db -> consistent (fold_left serve_any calls db).
Proof.
  revert db. induction calls as [|c calls IH]; intros db K; [exact K|].
  cbn [fold_left]. apply IH. destruct c as [call|[w req]]; cbn [serve_any].
  - now apply serve_consistent.
  - destruct (deleteArticle_effect w req db) as [E|(id & E)]; rewrite E; auto.
    now apply delete_article_consistent.
Qed.

Lemma store_stays_consistent_witness :
  let w := Sample.world 2000 900 in
  consistent
    (fold_left serve_any
       [ inl (POST_comment, w,
              Sample.create_request "bob.jwt" 10 (js "More") (Some 100%N));
         inl (POST_like, Sample.world 2001 901,
              Sample.on_comment "alice.jwt" 100);
         inl (DELETE_comment, w, Sample.on_comment "alice.jwt" 100);
         inr (w, Sample.on_comment "root.jwt" 10) ]
       Sample.db).
Proof.
  apply (store_stays_consistent _ Sample.db).
  exact sample_db_consistent.
Defined.

(** The four requests above on the sample archive: a reply, a like, the
    delete of the thread of comment 100 and the delete of article 10 leave
    no comment and no like. *)
Example sample_after_article_delete :
  let w := Sample.world 2000 900 in
  let db' :=
    fold_left serve_any
      [ inl (POST_comment, w,
             Sample.create_request "bob.jwt" 10 (js "More") (Some 100%N));
        inl (POST_like, Sample.world 2001 901,
             Sample.on_comment "alice.jwt" 100);
        inl (DELETE_comment, w, Sample.on_comment "alice.jwt" 100);
        inr (w, Sample.on_comment "root.jwt" 10) ]
      Sample.db in
  map a_id (articles db') = [11%N] /\ comments db' = [] /\
  comment_likes db' = [].
Proof. repeat split. Qed.

(** * The article delete *)

Lemma requireOwnershipOrAdminOn_articles_next w req db req' :
  requireOwnershipOrAdminOn articles_table w req db = inr req' ->
  req' = req /\ exists u, user req = Some u /\ is_admin (u_role u) = true.
Proof.
  unfold requireOwnershipOrAdminOn.
  destruct (user req) as [u|]; [|discriminate].
  destruct (is_admin (u_role u)) eqn:A; [intros [= <-]; eauto|].
  destruct (negb (truthy _)); [discriminate|].
  now destruct (if truthy (params_id req) then params_id req else body_id req)
    as [[id|raw]|].
Qed.

Lemma requireOwnershipOrAdminOn_answer t w req db resp :
  requireOwnershipOrAdminOn t w req db = inl resp -> 400 <= status resp.
Proof.
  unfold requireOwnershipOrAdminOn.
  destruct (user req) as [u|]; [|intros [= <-]; simpl; lia].
  destruct (is_admin (u_role u)); [discriminate|].
  destruct (negb (truthy _)); [intros [= <-]; simpl; lia|].
  destruct (if truthy (params_id req) then params_id req else body_id req)
    as [[id|raw]|]; try (intros [= <-]; simpl; lia).
  destruct (select_user_id t db id) as [[|owner rest]|];
    try (intros [= <-]; simpl; lia).
  destruct (negb (N.eqb owner (u_id u))); [intros [= <-]; simpl; lia|].
  discriminate.
Qed.

Lemma has_article_removed db id :
  existsb (fun a => N.eqb (a_id a) id)
    (filter (fun a => negb (N.eqb (a_id a) id)) (articles db)) = false.
Proof.
  induction (articles db) as [|a l IH]; simpl; [reflexivity|].
  destruct (N.eqb (a_id a) id) eqn:E; simpl; [exact IH|]. now rewrite E.
Qed.

(** X21: an article delete is served to admins only, and when it is
    answered 200 the article is gone together with every comment written
    on it; [users] is untouched. *)
Theorem deleteArticle_takes_its_comments w req db resp db' :
  deleteArticle w req db = (resp, db') ->
  status resp = 200 ->
  exists id u,
    params_id req = Some (IsUUID id) /\
    authenticated w req db u /\ is_admin (u_role u) = true /\
    has_article db id = true /\ has_article db' id = false /\
    (forall c, In c (comments db') -> c_article_id c <> id) /\
    users db' = users db.
Proof.
  unfold deleteArticle. cbn [route]. intros R St.
  destruct (authenticateToken w req db) as [r|req1] eqn:A.
  { injection R as <- <-. apply authenticateToken_answer in A. lia. }
  destruct (authenticateToken_next _ _ _ _ A) as (_ & _ & u & _ & _ & _ & _ & ->).
  destruct (requireOwnershipOrAdminOn articles_table w (with_user req u) db)
    as [r|req2] eqn:G.
  { injection R as <- <-. apply requireOwnershipOrAdminOn_answer in G. lia. }
  apply requireOwnershipOrAdminOn_articles_next in G.
  destruct G as (-> & u' & [= <-] & Ad).
  unfold deleteArticle_handler in R. cbn [params_id with_user] in R.
  destruct (params_id req) as [[id|raw]|];
    try (injection R as <- <-; discriminate).
  exists id, u. split; [reflexivity|]. split; [exact A|]. split; [exact Ad|].
  unfold delete_article in R.
  destruct (has_article db id) eqn:Ha.
  - assert (db' = fold_left
                    (fun d r => delete_cascade (S (List.length (comments db))) r d)
                    (map c_id
                       (filter (fun c => N.eqb (c_article_id c) id)
                          (comments db)))
                    (mkDB (users db)
                       (filter (fun a => negb (N.eqb (a_id a) id)) (articles db))
                       (comments db) (comment_likes db))) as ->.
    { destruct (map a_id (filter (fun a => N.eqb (a_id a) id) (articles db)));
        now injection R. }
    destruct (fold_prune
                (fun d r => delete_cascade (S (List.length (comments db))) r d)
                (fun d r => delete_cascade_prune _ r d)
                (map c_id
                   (filter (fun c => N.eqb (c_article_id c) id) (comments db)))
                (mkDB (users db)
                   (filter (fun a => negb (N.eqb (a_id a) id)) (articles db))
                   (comments db) (comment_likes db))) as [ids E].
    repeat split.
    + unfold has_article. rewrite E. cbn [articles prune].
      apply has_article_removed.
    + intros c I Q.
      assert (In c (comments db)) as Ic.
      { rewrite E in I. now apply prune_comments in I. }
      assert (has_comment (fold_left
                (fun d r => delete_cascade (S (List.length (comments db))) r d)
                (map c_id
                   (filter (fun c => N.eqb (c_article_id c) id) (comments db)))
                (mkDB (users db)
                   (filter (fun a => negb (N.eqb (a_id a) id)) (articles db))
                   (comments db) (comment_likes db))) (c_id c) = false) as F.
      { apply fold_cascade_removes. apply in_map, filter_In.
        split; [exact Ic|]. now apply N.eqb_eq. }
      assert (has_comment (fold_left
                (fun d r => delete_cascade (S (List.length (comments db))) r d)
                (map c_id
                   (filter (fun c => N.eqb (c_article_id c) id) (comments db)))
                (mkDB (users db)
                   (filter (fun a => negb (N.eqb (a_id a) id)) (articles db))
                   (comments db) (comment_likes db))) (c_id c) = true) as T
          by (apply has_comment_In; eauto).
      congruence.
    + now rewrite E.
  - exfalso.
    assert (map a_id (filter (fun a => N.eqb (a_id a) id) (articles db)) = [])
      as Z.
    { unfold has_article in Ha. clear R.
      induction (articles db) as [|x l IH]; simpl in *; [reflexivity|].
      destruct (N.eqb (a_id x) id); simpl in *; [discriminate|auto]. }
    rewrite Z in R. injection R as <- <-. discriminate.
Qed.

Lemma deleteArticle_takes_its_comments_witness :
  let w := Sample.world 2000 900 in
  let req := Sample.on_comment "root.jwt" 10 in
  let db' := snd (deleteArticle w req Sample.db) in
  exists id u,
    params_id req = Some (IsUUID id) /\
    authenticated w req Sample.db u /\ is_admin (u_role u) = true /\
    has_article Sample.db id = true /\ has_article db' id = false /\
    (forall c, In c (comments db') -> c_article_id c <> id) /\
    users db' = users Sample.db.
Proof.
  apply (deleteArticle_takes_its_comments (Sample.world 2000 900)
           (Sample.on_comment "root.jwt" 10) Sample.db
           (fst (deleteArticle (Sample.world 2000 900)
                   (Sample.on_comment "root.jwt" 10) Sample.db))).
  - reflexivity.
  - reflexivity.
Defined.

(** * Create and delete, like and count, approve *)

Lemma filter_keeps_all {A} (p : A -> bool) l :
  (forall x, In x l -> p x = true) -> filter p l = l.
Proof.
  induction l as [|x l IH]; simpl; intros H; [reflexivity|].
  rewrite (H x (or_introl eq_refl)), IH; auto.
Qed.

Lemma filter_keeps_none {A} (p : A -> bool) l :
  (forall x, In x l -> p x = false) -> filter p l = [].
Proof.
  induction l as [|x l IH]; simpl; intros H; [reflexivity|].
  rewrite (H x (or_introl eq_refl)), IH; auto.
Qed.

Lemma createComment_201 w req db u :
  authenticated w req db u ->
  status (fst (createComment w req db)) = 201 ->
  exists row,
    has_comment db (gen_uuid w) = false /\
    c_id row = gen_uuid w /\ c_user_id row = u_id u /\
    (forall p, c_parent_id row = Some p -> has_comment db p = true) /\
    snd (createComment w req db) = set_comments db (comments db ++ [row]).
Proof.
  intros A. unfold createComment. rewrite (route_authenticated _ _ _ _ _ A).
  unfold createComment_handler.
  destruct (negb (valid_create_body (with_user req u))); [discriminate|].
  destruct (body_articleId (with_user req u)) as [[a|raw]|]; try discriminate.
  destruct (select_published_article db a) as [|x xs]; [discriminate|].
  match goal with |- context [if ?b then (fail 404 _ _, db) else _] =>
    destruct b end; [discriminate|].
  cbn [user with_user].
  destruct (text_param _) as [content|e0]; [|discriminate].
  match goal with |- context [insert_comment ?d ?i ?t ?c ?ar ?us ?p ?ap] =>
    destruct (insert_comment d i t c ar us p ap) as [[row d']|e] eqn:E end;
    [|discriminate].
  intros _. cbn [snd]. exists row.
  pose proof E as E'. apply insert_comment_rows in E'.
  destruct E' as (F & -> & ->). cbn [c_id c_user_id c_parent_id].
  repeat split; auto.
  intros p Q. revert E. unfold insert_comment. rewrite F, Q.
  destruct (negb (has_article db a)); [discriminate|].
  destruct (negb (has_user db (u_id u))); [discriminate|].
  destruct (has_comment db p); [reflexivity|discriminate].
Qed.

(** X22: create and delete undo each other. On a consistent store, when a
    create is answered 201 and its author then deletes the new comment, the
    delete is answered 200 and the store is the store before the create. *)
Theorem create_then_delete w req db u w' req' :
  consistent db ->
  authenticated w req db u ->
  status (fst (createComment w req db)) = 201 ->
  authenticated w' req' db u ->
  params_id req' = Some (IsUUID (gen_uuid w)) ->
  deleteComment w' req' (snd (createComment w req db))
  = (json (MessageBody "Comment deleted successfully"), db).
Proof.
  intros K A St A' P.
  destruct (createComment_201 w req db u A St) as (row & F & I & U & Pa & ->).
  set (g := gen_uuid w) in *.
  set (db1 := set_comments db (comments db ++ [row])).
  assert (Other : forall c, In c (comments db) -> N.eqb (c_id c) g = false).
  { intros c Ic. apply N.eqb_neq. intros Q.
    assert (has_comment db g = true) by (apply has_comment_In; eauto).
    congruence. }
  assert (Own : select_owner db1 g = [u_id u]).
  { unfold select_owner, db1. cbn [comments set_comments].
    rewrite filter_app, (filter_keeps_none _ _ Other). cbn [filter app].
    rewrite I, N.eqb_refl. cbn [map]. now rewrite U. }
  assert (Has : has_comment db1 g = true).
  { apply has_comment_In. exists row. split; [|exact I].
    unfold db1. cbn. apply in_or_app. right. now left. }
  assert (NoReply : map c_id
                      (filter (fun c => opt_uuid_is (c_parent_id c) g)
                         (comments db1)) = []).
  { rewrite filter_keeps_none; [reflexivity|].
    intros c Ic. unfold db1 in Ic. cbn in Ic. apply in_app_or in Ic.
    destruct (c_parent_id c) as [p|] eqn:Q; [|reflexivity]. simpl.
    apply N.eqb_neq. intros ->.
    assert (has_comment db g = true); [|congruence].
    destruct Ic as [Ic|[<-|[]]]; [|now apply Pa].
    apply (comments_parent_fkey _ K c g Ic Q). }
  assert (Back : prune [g] db1 = db).
  { unfold prune, db1, mem. cbn [users articles comments comment_likes set_comments].
    rewrite filter_app. cbn [filter existsb]. rewrite I, N.eqb_refl.
    cbn [orb negb]. rewrite app_nil_r, !filter_keeps_all.
    - now destruct db.
    - intros l Il. simpl. rewrite orb_false_r. apply negb_true_iff.
      apply N.eqb_neq. intros Q.
      pose proof (comment_likes_comment_fkey _ K l Il). congruence.
    - intros c Ic. simpl. rewrite orb_false_r. apply negb_true_iff. auto. }
  unfold deleteComment. cbn [route].
  unfold authenticated in A'.
  rewrite (authenticateToken_users w' req' db db1 eq_refl), A'.
  unfold requireOwnershipOrAdmin. cbn [user params_id body_id with_user].
  rewrite P. cbn [truthy negb]. rewrite Own, N.eqb_refl. cbn [negb].
  assert (H : deleteComment_handler w' (with_user req' u) db1
              = (json (MessageBody "Comment deleted successfully"), db)).
  { unfold deleteComment_handler. cbn [params_id with_user]. rewrite P.
    unfold delete_comment. rewrite delete_cascade_S, Has, NoReply.
    cbn [fold_left]. rewrite Back.
    destruct (map c_id (filter (fun c => N.eqb (c_id c) g) (comments db1)))
      eqn:Z; [|reflexivity].
    apply has_comment_ids in Has. exfalso.
    apply (f_equal (@List.length uuid)) in Z. rewrite length_map in Z.
    apply has_comment_ids in Has. apply has_comment_In in Has.
    destruct Has as (c & Ic & Q).
    assert (In c (filter (fun c => N.eqb (c_id c) g) (comments db1)))
      by (apply filter_In; split; [exact Ic|now apply N.eqb_eq]).
    destruct (filter (fun c => N.eqb (c_id c) g) (comments db1));
      [contradiction|discriminate]. }
  now destruct (is_admin (u_role u)).
Qed.

Lemma create_then_delete_witness :
  deleteComment (Sample.world 2001 901) (Sample.on_comment "alice.jwt" 900)
    (snd (createComment (Sample.world 2000 900)
            (Sample.create_request "alice.jwt" 10 (js "Oops") (Some 100%N))
            Sample.db))
  = (json (MessageBody "Comment deleted successfully"), Sample.db).
Proof.
  apply (create_then_delete (Sample.world 2000 900)
           (Sample.create_request "alice.jwt" 10 (js "Oops") (Some 100%N))
           Sample.db Sample.alice (Sample.world 2001 901)
           (Sample.on_comment "alice.jwt" 900)).
  - exact sample_db_consistent.
  - reflexivity.
  - reflexivity.
  - reflexivity.
  - reflexivity.
Defined.

Lemma select_approved_none db id :
  (forall c, In c (comments db) -> c_id c = id -> c_is_approved c = false) ->
  select_approved_comment db id = [].
Proof.
  intros H. unfold select_approved_comment.
  rewrite filter_keeps_none; [reflexivity|].
  intros c I. destruct (N.eqb_spec (c_id c) id) as [E|E]; [|reflexivity].
  simpl. auto.
Qed.

(** X23: only approved comments can be liked. A like on a comment that does
    not exist or still waits for moderation is answered 404 and writes
    nothing. *)
Theorem like_needs_approved_comment w req db u id :
  authenticated w req db u ->
  params_id req = Some (IsUUID id) ->
  (forall c, In c (comments db) -> c_id c = id -> c_is_approved c = false) ->
  toggleLike w req db
  = (fail 404 "Comment not found"
       "The comment you are trying to like does not exist", db).
Proof.
  intros A P H. unfold toggleLike, toggleLike_among.
  rewrite (route_authenticated _ _ _ _ _ A).
  unfold toggleLike_handler_among. cbn [params_id user with_user].
  now rewrite P, (select_approved_none _ _ H).
Qed.

Lemma like_needs_approved_comment_witness :
  toggleLike (Sample.world 2000 900) (Sample.on_comment "bob.jwt" 103)
    Sample.db
  = (fail 404 "Comment not found"
       "The comment you are trying to like does not exist", Sample.db).
Proof.
  apply (like_needs_approved_comment (Sample.world 2000 900)
           (Sample.on_comment "bob.jwt" 103) Sample.db Sample.bob 103%N).
  - reflexivity.
  - reflexivity.
  - simpl. intros c I E.
    repeat (destruct I as [<-|I]; [try discriminate E; reflexivity|]).
    contradiction.
Defined.

Lemma likes_count_append db g t c u x :
  likes_count (set_likes db (comment_likes db ++ [mkLike g c u t])) x
  = likes_count db x + (if N.eqb c x then 1 else 0).
Proof.
  unfold likes_count, count, set_likes. cbn [comment_likes].
  rewrite filter_app, length_app. cbn [filter l_comment_id].
  destruct (N.eqb c x); cbn [List.length]; lia.
Qed.

(** Under [UNIQUE(comment_id, user_id)] an unlike removes one row. *)
Lemma likes_count_delete_like db c u x :
  NoDup (map (fun l => (l_comment_id l, l_user_id l)) (comment_likes db)) ->
  has_like db c u = true ->
  likes_count (delete_like db c u) x
  = likes_count db x - (if N.eqb c x then 1 else 0).
Proof.
  unfold likes_count, count, delete_like, has_like, set_likes.
  cbn [comment_likes].
  induction (comment_likes db) as [|l ls IH]; simpl; [discriminate|].
  intros D H. inversion D as [|? ? N D']; subst.
  destruct (N.eqb (l_comment_id l) c && N.eqb (l_user_id l) u) eqn:M; simpl.
  - apply andb_prop in M. destruct M as [M1 M2].
    apply N.eqb_eq in M1, M2.
    assert (Z : filter (fun l0 => negb (N.eqb (l_comment_id l0) c
                                        && N.eqb (l_user_id l0) u)) ls = ls).
    { apply filter_keeps_all. intros y Iy. apply negb_true_iff.
      destruct (N.eqb (l_comment_id y) c && N.eqb (l_user_id y) u) eqn:My;
        [|reflexivity].
      apply andb_prop in My. destruct My as [My1 My2].
      apply N.eqb_eq in My1, My2. exfalso. apply N.
      apply in_map_iff. exists y. split; [congruence|exact Iy]. }
    rewrite Z, M1. destruct (N.eqb c x); cbn [List.length]; lia.
  - specialize (IH D' H).
    destruct (N.eqb (l_comment_id l) x); cbn [List.length]; lia.
Qed.

(** X24: on a consistent store a toggle moves the like count of its comment
    by exactly one, up when the user had no like on it and down when the
    user had one, and leaves the like count of every other comment as it
    was. *)
Theorem toggleLike_moves_count_by_one w req db u id :
  consistent db ->
  authenticated w req db u ->
  params_id req = Some (IsUUID id) ->
  select_approved_comment db id <> [] ->
  has_like_id db (gen_uuid w) = false ->
  let db' := snd (toggleLike w req db) in
  likes_count db' id
  = likes_count db id + (if has_like db id (u_id u) then -1 else 1) /\
  forall other, other <> id -> likes_count db' other = likes_count db other.
Proof.
  intros K A P C G.
  rewrite (toggleLike_once _ _ _ _ _ A P C (fun _ => G)).
  destruct (has_like db id (u_id u)) eqn:L; cbn [snd]; split.
  - rewrite (likes_count_delete_like _ _ _ _ (comment_likes_unique _ K) L).
    rewrite N.eqb_refl. lia.
  - intros other N.
    rewrite (likes_count_delete_like _ _ _ _ (comment_likes_unique _ K) L).
    apply not_eq_sym in N. apply N.eqb_neq in N. rewrite N. lia.
  - rewrite likes_count_append, N.eqb_refl. lia.
  - intros other N. rewrite likes_count_append.
    apply not_eq_sym in N. apply N.eqb_neq in N. rewrite N. lia.
Qed.

Lemma toggleLike_moves_count_by_one_witness :
  let db' := snd (toggleLike (Sample.world 2000 900)
                    (Sample.on_comment "alice.jwt" 100) Sample.db) in
  likes_count db' 100
  = likes_count Sample.db 100
    + (if has_like Sample.db 100 (u_id Sample.alice) then -1 else 1) /\
  forall other, other <> 100%N ->
                likes_count db' other = likes_count Sample.db other.
Proof.
  apply (toggleLike_moves_count_by_one (Sample.world 2000 900)
           (Sample.on_comment "alice.jwt" 100) Sample.db Sample.alice 100%N).
  - exact sample_db_consistent.
  - reflexivity.
  - reflexivity.
  - discriminate.
  - reflexivity.
Defined.

(** An admin and the author of a comment get their approve served,
    whether the comment is pending or approved already: the answer is 200
    and the store is the one the [UPDATE] leaves. *)
Lemma approveComment_served w req db u id :
  authenticated w req db u ->
  params_id req = Some (IsUUID id) ->
  has_comment db id = true ->
  is_admin (u_role u) = true \/ hd_error (select_owner db id) = Some (u_id u) ->
  approveComment w req db
  = (json (ApprovedBody "Comment approved successfully" id true),
     snd (update_approved db id (now w))).
Proof.
  intros A P H O. unfold approveComment. cbn [route].
  unfold authenticated in A. rewrite A.
  assert (G : requireOwnershipOrAdmin w (with_user req u) db
              = inr (with_user req u)).
  { unfold requireOwnershipOrAdmin. cbn [user params_id body_id with_user].
    destruct (is_admin (u_role u)); [reflexivity|].
    destruct O as [O|O]; [discriminate|].
    rewrite P. cbn [truthy negb].
    destruct (select_owner db id) as [|owner rest]; [discriminate|].
    injection O as ->. now rewrite N.eqb_refl. }
  rewrite G. unfold approveComment_handler. cbn [params_id with_user].
  rewrite P.
  pose proof (approved_rows db id (now w)) as Z.
  assert (Hd : forall r rows,
             fst (update_approved db id (now w)) = r :: rows ->
             c_id r = id /\ c_is_approved r = true).
  { unfold update_approved. cbn [fst]. intros r rows E.
    assert (In r (filter (fun c => N.eqb (c_id c) id)
                    (map (fun c => if N.eqb (c_id c) id
                                   then mkComment (c_id c) (c_content c)
                                          (c_article_id c) (c_user_id c)
                                          (c_parent_id c) true
                                          (c_created_at c) (now w)
                                   else c) (comments db)))) as I
        by (rewrite E; now left).
    apply filter_In in I. destruct I as [I Q]. apply N.eqb_eq in Q.
    split; [exact Q|]. apply in_map_iff in I. destruct I as (c & <- & _).
    destruct (N.eqb_spec (c_id c) id) as [_|N]; [reflexivity|].
    contradiction. }
  destruct (update_approved db id (now w)) as [[|r rows] d].
  - destruct Z as [Z _]. specialize (Z eq_refl). congruence.
  - destruct (Hd r rows eq_refl) as [-> ->]. reflexivity.
Qed.

(** X25: whatever the answer, an approve leaves the [users], [articles] and
    [comment_likes] tables as they were and keeps every comment row in
    place with its id, content, article, author, parent and creation time;
    a row that differs from what it was is a row of the comment named in
    the request, is approved and carries the current time. When the answer
    is 200 the named comment exists, is approved afterwards and the answer
    says so. And the approve of an existing comment by an admin or by its
    author is answered 200 whether the comment was pending or approved
    already; its rows are approved afterwards and carry the current
    time. *)
Theorem approveComment_frame w req db resp db' :
  approveComment w req db = (resp, db') ->
  users db' = users db /\
  articles db' = articles db /\
  comment_likes db' = comment_likes db /\
  Forall2
    (fun c c' =>
       c_id c' = c_id c /\ c_content c' = c_content c /\
       c_article_id c' = c_article_id c /\ c_user_id c' = c_user_id c /\
       c_parent_id c' = c_parent_id c /\ c_created_at c' = c_created_at c /\
       (c' = c \/
        (params_id req = Some (IsUUID (c_id c)) /\
         c_is_approved c' = true /\ c_updated_at c' = now w)))
    (comments db) (comments db') /\
  (status resp = 200 ->
   exists id,
     params_id req = Some (IsUUID id) /\ has_comment db id = true /\
     approval db' id = Some true /\
     resp = json (ApprovedBody "Comment approved successfully" id true)) /\
  (forall u id,
     authenticated w req db u ->
     params_id req = Some (IsUUID id) ->
     has_comment db id = true ->
     is_admin (u_role u) = true \/
     hd_error (select_owner db id) = Some (u_id u) ->
     status resp = 200 /\
     forall c', In c' (comments db') -> c_id c' = id ->
                c_is_approved c' = true /\ c_updated_at c' = now w).
Proof.
  intros R.
  assert (Served : forall u id,
     authenticated w req db u ->
     params_id req = Some (IsUUID id) ->
     has_comment db id = true ->
     is_admin (u_role u) = true \/
     hd_error (select_owner db id) = Some (u_id u) ->
     status resp = 200 /\
     forall c', In c' (comments db') -> c_id c' = id ->
                c_is_approved c' = true /\ c_updated_at c' = now w).
  { intros u id A P H O.
    rewrite (approveComment_served w req db u id A P H O) in R.
    injection R as <- <-. split; [reflexivity|].
    unfold update_approved. cbn [snd comments set_comments].
    intros c' I Q. apply in_map_iff in I. destruct I as (c & <- & _).
    destruct (N.eqb_spec (c_id c) id) as [_|N]; cbn in *; auto.
    contradiction. }
  revert R.
  assert (Same : forall d : DB,
    Forall2
      (fun c c' =>
         c_id c' = c_id c /\ c_content c' = c_content c /\
         c_article_id c' = c_article_id c /\ c_user_id c' = c_user_id c /\
         c_parent_id c' = c_parent_id c /\ c_created_at c' = c_created_at c /\
         (c' = c \/
          (params_id req = Some (IsUUID (c_id c)) /\
           c_is_approved c' = true /\ c_updated_at c' = now w)))
      (comments d) (comments d)).
  { intros d. rewrite <- (map_id (comments d)) at 2.
    apply Forall2_map_same. intros c. repeat split; auto. }
  intros R. unfold approveComment in R. apply guarded_route_cases in R.
  destruct R as [[-> St] | (u & _ & R)].
  { do 4 (split; [auto|]). split; [intros E; lia|exact Served]. }
  unfold approveComment_handler in R. cbn [params_id with_user] in R.
  destruct (params_id req) as [[id|raw]|] eqn:P;
    try (injection R as <- <-; do 4 (split; [auto|]);
         split; [discriminate|exact Served]).
  pose proof (approved_rows db id (now w)) as Z.
  destruct (has_comment db id) eqn:H.
  - pose proof (approval_update_approved db id (now w) H) as Ap.
    assert (Hd : forall r rows,
               fst (update_approved db id (now w)) = r :: rows ->
               c_id r = id /\ c_is_approved r = true).
    { unfold update_approved. cbn [fst]. intros r rows E.
      assert (In r (filter (fun c => N.eqb (c_id c) id)
                      (map (fun c => if N.eqb (c_id c) id
                                     then mkComment (c_id c) (c_content c)
                                            (c_article_id c) (c_user_id c)
                                            (c_parent_id c) true
                                            (c_created_at c) (now w)
                                     else c) (comments db)))) as I
          by (rewrite E; now left).
      apply filter_In in I. destruct I as [I Q]. apply N.eqb_eq in Q.
      split; [exact Q|]. apply in_map_iff in I. destruct I as (c & <- & _).
      destruct (N.eqb_spec (c_id c) id) as [_|N]; [reflexivity|].
      contradiction. }
    destruct (update_approved db id (now w)) as [rows d] eqn:E.
    assert (D : d = snd (update_approved db id (now w))) by now rewrite E.
    cbn [fst snd] in *.
    destruct rows as [|r rows].
    + destruct Z as [Z _]. specialize (Z eq_refl). congruence.
    + injection R as <- <-. destruct (Hd r rows eq_refl) as [Hi Ha].
      unfold update_approved in D. cbn [snd] in D.
      split; [now subst d|]. split; [now subst d|]. split; [now subst d|].
      split; [|split; [|exact Served]].
      * subst d. cbn [comments set_comments].
        apply Forall2_map_same. intros c.
        destruct (N.eqb_spec (c_id c) id) as [Q|Q]; cbn; repeat split; auto.
        right. now rewrite Q.
      * intros _. exists id. repeat split; auto.
        now rewrite Hi, Ha.
  - destruct Z as [_ Z]. specialize (Z eq_refl).
    destruct (update_approved db id (now w)) as [rows d] eqn:E.
    assert (D : d = snd (update_approved db id (now w))) by now rewrite E.
    cbn [fst] in Z. subst rows. injection R as <- <-.
    unfold update_approved in D. cbn [snd] in D.
    split; [now subst d|]. split; [now subst d|]. split; [now subst d|].
    split; [|split; [discriminate|exact Served]].
    subst d. cbn [comments set_comments].
    apply Forall2_map_same. intros c.
    destruct (N.eqb_spec (c_id c) id) as [Q|Q]; cbn; repeat split; auto.
    right. now rewrite Q.
Qed.

Lemma approveComment_frame_witness :
  let w := Sample.world 2000 900 in
  let req := Sample.on_comment "root.jwt" 100 in
  let resp := fst (approveComment w req Sample.db) in
  let db' := snd (approveComment w req Sample.db) in
  approval Sample.db 100 = Some true /\
  status resp = 200 /\
  (forall c', In c' (comments db') -> c_id c' = 100%N ->
              c_is_approved c' = true /\ c_updated_at c' = 2000) /\
  users db' = users Sample.db /\
  articles db' = articles Sample.db /\
  comment_likes db' = comment_likes Sample.db.
Proof.
  destruct (approveComment_frame (Sample.world 2000 900)
              (Sample.on_comment "root.jwt" 100) Sample.db
              (fst (approveComment (Sample.world 2000 900)
                      (Sample.on_comment "root.jwt" 100) Sample.db))
              (snd (approveComment (Sample.world 2000 900)
                      (Sample.on_comment "root.jwt" 100) Sample.db))
              eq_refl)
    as (U & A & L & _ & _ & Served).
  destruct (Served Sample.root 100%N eq_refl eq_refl eq_refl
              (or_introl eq_refl)) as [St Rows].
  repeat split; try assumption; apply (Rows c'); assumption.
Defined.

(** Comment 100 of the sample archive is approved already: the admin's
    approve is answered 200 and only moves its [updated_at]. *)
Example approve_of_an_approved_comment :
  let r := approveComment (Sample.world 2000 900)
             (Sample.on_comment "root.jwt" 100) Sample.db in
  fst r = json (ApprovedBody "Comment approved successfully" 100 true) /\
  nth_error (comments (snd r)) 0
  = Some (mkComment 100 (js "First") 10 1 None true 1000 2000) /\
  skipn 1 (comments (snd r)) = skipn 1 (comments Sample.db).
Proof. repeat split. Qed.

Lemma approve_adds_one_row cs c t :
  NoDup (map c_id cs) -> In c cs ->
  c_is_approved c = false -> c_parent_id c = None ->
  List.length
    (filter (top_level (c_article_id c))
       (map (fun x => if N.eqb (c_id x) (c_id c)
                      then mkComment (c_id x) (c_content x) (c_article_id x)
                             (c_user_id x) (c_parent_id x) true
                             (c_created_at x) t
                      else x) cs))
  = S (List.length (filter (top_level (c_article_id c)) cs)).
Proof.
  intros D I Ap Pa.
  induction cs as [|x l IH]; [contradiction|].
  inversion D as [|? ? N D']; subst. cbn [map filter].
  destruct I as [->|I].
  - rewrite N.eqb_refl.
    assert (T1 : top_level (c_article_id c)
                   (mkComment (c_id c) (c_content c) (c_article_id c)
                      (c_user_id c) (c_parent_id c) true (c_created_at c) t)
                 = true).
    { unfold top_level. cbn. now rewrite N.eqb_refl, Pa. }
    assert (T0 : top_level (c_article_id c) c = false).
    { unfold top_level. rewrite Ap. apply andb_false_r. }
    rewrite T1, T0. cbn [List.length]. f_equal.
    rewrite (map_ext_in _ (fun x => x)), map_id; [reflexivity|].
    intros y Iy. destruct (N.eqb_spec (c_id y) (c_id c)) as [E|E];
      [|reflexivity].
    exfalso. apply N. rewrite <- E. now apply in_map.
  - destruct (N.eqb_spec (c_id x) (c_id c)) as [E|E].
    + exfalso. apply N. rewrite E. now apply in_map.
    + destruct (top_level (c_article_id c) x); cbn [List.length];
        now rewrite (IH D' I).
Qed.

(** X26: moderation opens the list. On a consistent store, when the admin
    approves a pending top-level comment, every list request for the
    article of the comment that was answered with a list before is
    answered with a list afterwards, and counts one comment more. *)
Theorem approval_adds_to_the_list w req db u c w' lreq cs pg :
  consistent db ->
  authenticated w req db u -> is_admin (u_role u) = true ->
  params_id req = Some (IsUUID (c_id c)) ->
  In c (comments db) -> c_is_approved c = false -> c_parent_id c = None ->
  params_articleId lreq = Some (IsUUID (c_article_id c)) ->
  fst (getArticleComments w' lreq db) = json (ListBody cs pg) ->
  exists cs' pg',
    fst (getArticleComments w' lreq (snd (approveComment w req db)))
    = json (ListBody cs' pg') /\
    totalComments pg' = totalComments pg + 1.
Proof.
  intros K A Ad P I Ap Pa La L.
  assert (E : snd (approveComment w req db)
              = snd (update_approved db (c_id c) (now w))).
  { rewrite (approveComment_served w req db u (c_id c) A P); auto.
    apply has_comment_In. eauto. }
  rewrite E. set (db' := snd (update_approved db (c_id c) (now w))).
  destruct (getArticleComments w' lreq db) as [r d] eqn:L0.
  cbn [fst] in L. subst r. apply getArticleComments_served in L0.
  destruct L0 as (a & V & Q & Pub & _ & -> & _ & B).
  rewrite La in Q. injection Q as <-.
  assert (Pub' : select_published_article db' (c_article_id c) <> [])
    by exact Pub.
  destruct (getArticleComments_total w' lreq db' (c_article_id c) V La Pub' B)
    as (cs' & pg' & L').
  exists cs', pg'. rewrite L'. split; [reflexivity|].
  apply getArticleComments_served in L'.
  destruct L' as (a' & _ & Q' & _ & _ & -> & _).
  rewrite La in Q'. injection Q' as <-.
  cbn [totalComments]. unfold count, db', update_approved.
  cbn [snd comments set_comments].
  rewrite (approve_adds_one_row _ c (now w) (comments_pkey _ K) I Ap Pa). lia.
Qed.

Lemma approval_adds_to_the_list_witness :
  exists cs' pg',
    fst (getArticleComments (Sample.world 2001 901)
           (Sample.list_request 10 2 1 "newest")
           (snd (approveComment (Sample.world 2000 900)
                   (Sample.on_comment "root.jwt" 103) Sample.db)))
    = json (ListBody cs' pg') /\
    totalComments pg' = totalComments (mkPagination 2 2 2 false true) + 1.
Proof.
  apply (approval_adds_to_the_list (Sample.world 2000 900)
           (Sample.on_comment "root.jwt" 103) Sample.db Sample.root
           (mkComment 103 (js "Waiting") 10 1 None false 1020 1020)
           (Sample.world 2001 901) (Sample.list_request 10 2 1 "newest")
           (map (comment_view Sample.db)
              (limit_offset 1 1
                 (order_by (orderByClause "newest")
                    (top_level_rows Sample.db 10))))).
  - exact sample_db_consistent.
  - reflexivity.
  - reflexivity.
  - reflexivity.
  - simpl. tauto.
  - reflexivity.
  - reflexivity.
  - reflexivity.
  - reflexivity.
Defined.

(** * The moderation queue *)

Lemma join_users_complete db cs c :
  In c cs -> has_user db (c_user_id c) = true ->
  exists u, In (c, u) (join_users db cs).
Proof.
  intros I H. unfold has_user in H. apply existsb_exists in H.
  destruct H as (u & Iu & Q). exists u. unfold join_users.
  apply in_flat_map. exists c. split; [exact I|].
  apply in_map, filter_In. split; [exact Iu|].
  apply N.eqb_eq in Q. apply N.eqb_eq. congruence.
Qed.

Lemma pending_rows_In db c u a :
  In (c, u, a) (pending_rows db) <->
  In c (comments db) /\ c_is_approved c = false /\
  In u (users db) /\ c_user_id c = u_id u /\
  In a (articles db) /\ c_article_id c = a_id a.
Proof.
  unfold pending_rows. split.
  - intros I. apply (Permutation_in _ (order_by_perm _ _)) in I.
    apply in_flat_map in I. destruct I as ([c' u'] & J & M).
    apply in_map_iff in M. destruct M as (a' & [= <- <- <-] & F).
    apply filter_In in F. destruct F as [Ia Q]. apply N.eqb_eq in Q.
    apply join_users_In in J. destruct J as (J & Iu & E).
    apply filter_In in J. destruct J as [Ic Ap].
    apply negb_true_iff in Ap. cbn in Q. tauto.
  - intros (Ic & Ap & Iu & Eu & Ia & Ea).
    apply (Permutation_in _ (Permutation_sym (order_by_perm _ _))).
    apply in_flat_map. exists (c, u). split.
    + unfold join_users. apply in_flat_map. exists c. split.
      * apply filter_In. split; [exact Ic|]. now rewrite Ap.
      * apply in_map, filter_In. split; [exact Iu|]. now apply N.eqb_eq.
    + apply in_map, filter_In. split; [exact Ia|]. now apply N.eqb_eq.
Qed.

(** X27: the moderation queue an admin gets is the list of the comments
    that wait for approval, oldest first, with [count] its length: every
    entry is a pending comment, and on a consistent store every pending
    comment is an entry. Reading the queue writes nothing. *)
Theorem getPendingComments_for_admin w req db u :
  authenticated w req db u ->
  is_admin (u_role u) = true ->
  exists queue,
    getPendingComments w req db
    = (json (PendingBody queue (Z.of_nat (List.length queue))), db) /\
    Sorted Z.le (map pv_createdAt queue) /\
    (forall pv, In pv queue ->
                exists c, In c (comments db) /\ c_id c = pv_id pv /\
                          c_is_approved c = false /\
                          pv_content pv = c_content c) /\
    (consistent db ->
     forall c, In c (comments db) -> c_is_approved c = false ->
               In (c_id c) (map pv_id queue)).
Proof.
  intros A Ad. unfold getPendingComments. cbn [route].
  unfold authenticated in A. rewrite A.
  unfold requireOwnershipOrAdmin. cbn [user with_user]. rewrite Ad.
  unfold getPendingComments_handler.
  eexists. split; [reflexivity|]. split; [|split].
  - rewrite map_map. cbn [pv_createdAt].
    apply (Sorted_map_key
             (fun x : Comment * User * Article => c_created_at (fst (fst x)))).
    unfold pending_rows. apply order_by_Sorted. intros a b.
    rewrite !Z.leb_le. lia.
  - intros pv I. apply in_map_iff in I. destruct I as ([[c u'] a] & <- & I).
    apply pending_rows_In in I. exists c. cbn. tauto.
  - intros K c Ic Ap. rewrite map_map. cbn [pv_id].
    pose proof (comments_user_fkey _ K c Ic) as Hu.
    pose proof (comments_article_fkey _ K c Ic) as Ha.
    unfold has_user in Hu. unfold has_article in Ha.
    apply existsb_exists in Hu, Ha.
    destruct Hu as (u' & Iu & Qu). destruct Ha as (a & Ia & Qa).
    apply N.eqb_eq in Qu, Qa.
    apply in_map_iff. exists (c, u', a). split; [reflexivity|].
    apply pending_rows_In. repeat split; auto.
Qed.

Lemma getPendingComments_for_admin_witness :
  exists queue,
    getPendingComments (Sample.world 2000 900) (Sample.bearer "root.jwt")
      Sample.db
    = (json (PendingBody queue (Z.of_nat (List.length queue))), Sample.db) /\
    Sorted Z.le (map pv_createdAt queue) /\
    (forall pv, In pv queue ->
                exists c, In c (comments Sample.db) /\ c_id c = pv_id pv /\
                          c_is_approved c = false /\
                          pv_content pv = c_content c) /\
    (consistent Sample.db ->
     forall c, In c (comments Sample.db) -> c_is_approved c = false ->
               In (c_id c) (map pv_id queue)).
Proof.
  apply (getPendingComments_for_admin (Sample.world 2000 900)
           (Sample.bearer "root.jwt") Sample.db Sample.root).
  - reflexivity.
  - reflexivity.
Defined.

(** X28: the queue is behind the ownership guard, not behind an admin
    guard. A user who is not an admin and names no resource is answered 400
    [Resource ID required]; the same user naming, in the request body, a
    comment they wrote is let through and gets the whole queue. *)
Theorem getPendingComments_guard w req db u :
  authenticated w req db u ->
  is_admin (u_role u) = false ->
  params_id req = None ->
  (body_id req = None ->
   getPendingComments w req db
   = (fail 400 "Resource ID required"
        "Resource ID is required to verify ownership", db)) /\
  (forall id,
      body_id req = Some (IsUUID id) ->
      hd_error (select_owner db id) = Some (u_id u) ->
      getPendingComments w req db
      = getPendingComments_handler w (with_user req u) db /\
      status (fst (getPendingComments w req db)) = 200).
Proof.
  intros A Ad P. unfold getPendingComments. cbn [route].
  unfold authenticated in A. rewrite A.
  unfold requireOwnershipOrAdmin. cbn [user params_id body_id with_user].
  rewrite Ad, P. cbn [truthy]. split.
  - now intros ->.
  - intros id -> O. cbn [truthy negb].
    destruct (select_owner db id) as [|owner rest]; [discriminate|].
    injection O as ->. rewrite N.eqb_refl. cbn [negb]. split; reflexivity.
Qed.

Lemma getPendingComments_guard_witness :
  let req :=
    mkRequest (Some "Bearer bob.jwt") None None None None None None None None
      (Some (IsUUID 101)) None in
  (body_id req = None ->
   getPendingComments (Sample.world 2000 900) req Sample.db
   = (fail 400 "Resource ID required"
        "Resource ID is required to verify ownership", Sample.db)) /\
  (forall id,
      body_id req = Some (IsUUID id) ->
      hd_error (select_owner Sample.db id) = Some (u_id Sample.bob) ->
      getPendingComments (Sample.world 2000 900) req Sample.db
      = getPendingComments_handler (Sample.world 2000 900)
          (with_user req Sample.bob) Sample.db /\
      status (fst (getPendingComments (Sample.world 2000 900) req Sample.db))
      = 200).
Proof.
  apply (getPendingComments_guard (Sample.world 2000 900)
           (mkRequest (Some "Bearer bob.jwt") None None None None None None
              None None (Some (IsUUID 101)) None)
           Sample.db Sample.bob).
  - reflexivity.
  - reflexivity.
  - reflexivity.
Defined.

(** Bob, role [user], reads the queue by naming his own comment 101. *)
Example queue_read_by_an_author :
  fst (getPendingComments (Sample.world 2000 900)
         (mkRequest (Some "Bearer bob.jwt") None None None None None None
            None None (Some (IsUUID 101)) None)
         Sample.db)
  = json (PendingBody
            [mkPendingView 103 (js "Waiting") 1020 ("alice", "Alice", "Deng")
               (10%N, "Cattle camps", "cattle-camps")] 1).
Proof. reflexivity. Qed.

(** * The slug of an article *)

Lemma slug_char_cases c :
  slug_char c = true ->
  ((97 <= c <= 122) \/ (48 <= c <= 57) \/ c = 45)%N.
Proof.
  unfold slug_char, is_lower_or_digit, is_hyphen, hyphen.
  rewrite !orb_true_iff, !andb_true_iff, !N.leb_le, N.eqb_eq. tauto.
Qed.

Lemma is_space_cases c : is_space c = true -> (c <= 32 \/ 160 <= c)%N.
Proof.
  unfold is_space.
  rewrite !orb_true_iff, !andb_true_iff, !N.leb_le, !N.eqb_eq. lia.
Qed.

Lemma slug_char_not_space c : slug_char c = true -> is_space c = false.
Proof.
  intros H. apply slug_char_cases in H.
  destruct (is_space c) eqn:S; [|reflexivity].
  apply is_space_cases in S. lia.
Qed.

Lemma slug_char_lower c : slug_char c = true -> lower c = [c].
Proof.
  intros H. apply slug_char_cases in H. unfold lower.
  destruct ((65 <=? c) && (c <=? 90))%N eqn:U.
  - apply andb_prop in U. destruct U as [U1 U2]. apply N.leb_le in U1, U2.
    lia.
  - destruct (N.eqb_spec c 0x212A); [lia|].
    destruct (N.eqb_spec c 0x130); [lia|]. reflexivity.
Qed.

Lemma is_hyphen_eq c : is_hyphen c = true -> c = hyphen.
Proof. apply N.eqb_eq. Qed.

Lemma forallb_impl {A} (p q : A -> bool) s :
  (forall c, p c = true -> q c = true) ->
  forallb p s = true -> forallb q s = true.
Proof.
  intros H. induction s as [|c s IH]; simpl; [reflexivity|].
  intros E. apply andb_prop in E. destruct E as [E1 E2].
  now rewrite (H c E1), (IH E2).
Qed.

Lemma strip_other_chars s :
  forallb (fun c => slug_char c || is_space c) (strip_other s) = true.
Proof.
  unfold strip_other. apply forallb_forall. intros c I.
  apply filter_In in I. destruct I as [_ E]. unfold slug_char.
  destruct (is_lower_or_digit c), (is_space c), (is_hyphen c);
    try reflexivity; discriminate.
Qed.

Lemma squeeze_chars (X p q : N -> bool) s :
  q hyphen = true ->
  (forall c, p c = true -> X c = false -> q c = true) ->
  forallb p s = true ->
  forallb q (squeeze X s) = true.
Proof.
  intros Hq H. induction s as [|c s IH]; [reflexivity|].
  intros E. cbn [forallb] in E. apply andb_prop in E.
  destruct E as [E1 E2]. specialize (IH E2). cbn [squeeze].
  destruct (X c) eqn:Xc.
  - destruct s as [|d s']; [simpl; now rewrite Hq|].
    destruct (X d); [exact IH|]. cbn [forallb]. now rewrite Hq, IH.
  - cbn [forallb]. now rewrite (H c E1 Xc), IH.
Qed.

Lemma squeeze_none (X : N -> bool) s :
  forallb (fun c => negb (X c)) s = true -> squeeze X s = s.
Proof.
  induction s as [|c s IH]; [reflexivity|]. cbn [forallb squeeze].
  intros E. apply andb_prop in E. destruct E as [E1 E2].
  apply negb_true_iff in E1. now rewrite E1, (IH E2).
Qed.

Lemma no_double_hyphen_cons c s :
  no_double_hyphen (c :: s)
  = negb (is_hyphen c && starts_with_hyphen s) && no_double_hyphen s.
Proof.
  destruct s as [|d s]; simpl; [|reflexivity].
  now rewrite andb_false_r.
Qed.

Lemma squeeze_hyphen_start s :
  starts_with_hyphen (squeeze is_hyphen s) = starts_with_hyphen s.
Proof.
  induction s as [|c s IH]; [reflexivity|].
  cbn [squeeze starts_with_hyphen].
  destruct (is_hyphen c) eqn:Hc; [|exact Hc].
  destruct s as [|d s']; [reflexivity|].
  destruct (is_hyphen d) eqn:Hd; [|reflexivity].
  rewrite IH. exact Hd.
Qed.

Lemma squeeze_hyphen_no_double s :
  no_double_hyphen (squeeze is_hyphen s) = true.
Proof.
  induction s as [|c s IH]; [reflexivity|]. cbn [squeeze].
  destruct (is_hyphen c) eqn:Hc.
  - destruct s as [|d s']; [reflexivity|].
    destruct (is_hyphen d) eqn:Hd; [exact IH|].
    rewrite no_double_hyphen_cons, IH, squeeze_hyphen_start. simpl.
    now rewrite Hd.
  - rewrite no_double_hyphen_cons, IH, Hc. reflexivity.
Qed.

Lemma squeeze_hyphen_fixed s :
  no_double_hyphen s = true -> squeeze is_hyphen s = s.
Proof.
  induction s as [|c s IH]; [reflexivity|].
  rewrite no_double_hyphen_cons. intros E. apply andb_prop in E.
  destruct E as [E1 E2]. specialize (IH E2). cbn [squeeze].
  destruct (is_hyphen c) eqn:Hc.
  - apply is_hyphen_eq in Hc. subst c.
    destruct s as [|d s']; [reflexivity|].
    simpl in E1. apply negb_true_iff in E1. now rewrite E1, IH.
  - now rewrite IH.
Qed.

Lemma rtrim_fixed s :
  forallb (fun c => negb (is_space c)) s = true -> rtrim s = s.
Proof.
  induction s as [|c s IH]; [reflexivity|]. cbn [forallb rtrim].
  intros E. apply andb_prop in E. destruct E as [E1 E2].
  apply negb_true_iff in E1. rewrite (IH E2).
  destruct s; [now rewrite E1|reflexivity].
Qed.

Lemma trim_fixed s :
  forallb (fun c => negb (is_space c)) s = true -> trim s = s.
Proof.
  intros E. unfold trim.
  assert (ltrim s = s) as ->.
  { destruct s as [|c s]; [reflexivity|]. simpl in *.
    apply andb_prop in E. destruct E as [E1 _].
    apply negb_true_iff in E1. now rewrite E1. }
  now apply rtrim_fixed.
Qed.

Lemma toLowerCase_fixed s :
  forallb slug_char s = true -> toLowerCase s = s.
Proof.
  unfold toLowerCase.
  induction s as [|c s IH]; [reflexivity|]. cbn [forallb flat_map].
  intros E. apply andb_prop in E. destruct E as [E1 E2].
  now rewrite (slug_char_lower c E1), (IH E2).
Qed.

Lemma strip_other_fixed s :
  forallb slug_char s = true -> strip_other s = s.
Proof.
  unfold strip_other.
  induction s as [|c s IH]; [reflexivity|]. cbn [forallb filter].
  intros E. apply andb_prop in E. destruct E as [E1 E2]. rewrite (IH E2).
  unfold slug_char in E1.
  destruct (is_lower_or_digit c), (is_hyphen c), (is_space c);
    try reflexivity; discriminate.
Qed.

Lemma squeezed_chars title :
  forallb slug_char
    (squeeze is_hyphen (squeeze is_space (strip_other (toLowerCase title))))
  = true.
Proof.
  apply (squeeze_chars is_hyphen slug_char); [reflexivity|auto|].
  apply (squeeze_chars is_space (fun c => slug_char c || is_space c));
    [reflexivity| |apply strip_other_chars].
  intros c E X. now rewrite X, orb_false_r in E.
Qed.

Lemma slug_of_squeezed title :
  slug_of title
  = squeeze is_hyphen (squeeze is_space (strip_other (toLowerCase title))).
Proof.
  unfold slug_of. apply trim_fixed.
  apply (forallb_impl slug_char); [|apply squeezed_chars].
  intros c E. now rewrite (slug_char_not_space c E).
Qed.

(** X29: the slug made from a title consists of lower-case letters, digits
    and hyphens only and never has two hyphens in a row; and making a slug
    is idempotent: the slug of a slug is that slug. (The final
    [.trim('-')] trims white space, of which none is left, so a hyphen at
    either end stays.) *)
Theorem slug_of_shape title :
  forallb slug_char (slug_of title) = true /\
  no_double_hyphen (slug_of title) = true /\
  slug_of (slug_of title) = slug_of title.
Proof.
  rewrite !slug_of_squeezed.
  set (s := squeeze is_hyphen
              (squeeze is_space (strip_other (toLowerCase title)))).
  assert (C : forallb slug_char s = true) by apply squeezed_chars.
  assert (D : no_double_hyphen s = true) by apply squeeze_hyphen_no_double.
  repeat split; auto.
  rewrite (toLowerCase_fixed s C), (strip_other_fixed s C).
  rewrite (squeeze_none is_space s).
  - now apply squeeze_hyphen_fixed.
  - apply (forallb_impl slug_char); [|exact C].
    intros c E. now rewrite (slug_char_not_space c E).
Qed.

(** The last two titles hold a no-break space, which becomes a hyphen as
    every white space does, and the Kelvin sign, whose lower case is the
    letter [k]. *)
Example slugs_of_titles :
  slug_of (js "Cattle Camps of the Sobat") = js "cattle-camps-of-the-sobat" /\
  slug_of (js "Songs & Dances -- 1983") = js "songs-dances-1983" /\
  slug_of (js "Who are the Naath?") = js "who-are-the-naath" /\
  slug_of (js "Field notes (draft) !") = js "field-notes-draft-" /\
  slug_of (js "a" ++ [0xA0%N] ++ js "b")%list = js "a-b" /\
  slug_of (js "273 " ++ [0x212A%N])%list = js "273-k".
Proof. repeat split. Qed.

(** * The length of a comment *)







(** The four requests above: the blank comment and the empty edit are
    answered 400, the third comment is stored trimmed and the edit stores
    334 euro signs. *)
Example blank_comments_are_refused :
  status (fst (createComment (Sample.world 2000 900)
                 (Sample.create_request "bob.jwt" 10
                    [0xA0%N; 32%N; 0x3000%N] None) Sample.db))
  = 400 /\
  status (fst (updateComment (Sample.world 2001 901)
                 (Sample.update_request "alice.jwt" 100 (js "")) Sample.db))
  = 400 /\
  map c_content
    (comments
       (snd (createComment (Sample.world 2002 902)
               (Sample.create_request "bob.jwt" 10 (js " Fine ") None)
               Sample.db)))
  = map js ["First"; "Late reply"; "Early reply"; "Waiting"; "Nested";
            "Second"; "Fine"] /\
  fst (updateComment (Sample.world 2003 903)
         (Sample.update_request "alice.jwt" 100 (repeat 0x20AC%N 334))
         Sample.db)
  = json (UpdatedBody "Comment updated successfully" 100
            (repeat 0x20AC%N 334) 2003).
Proof. repeat split. Qed.
